(** * SplitEZ: settlement ledger, balances and group membership

    A shallow embedding of the expense-splitting core of SplitEZ
    (expenses.js, analytics.js, payments.js, expense-details.js and the
    scripts of the dashboard and of the groups page) together with the
    properties checked against it.

    Conventions of the embedding:
    - a JavaScript number is an IEEE-754 binary64 value, i.e. a primitive
      [float]; [+], [-], [/], [Math.abs] and [>] are the primitive operations;
    - a JavaScript object used as a map is an association list in property
      insertion order (member identifiers are Firebase uids, which are never
      array-index-like, so [Object.entries] enumerates in insertion order);
    - a JavaScript [Set] is a duplicate-free list in insertion order;
    - the Firestore database is an explicit value threaded through a small
      state monad; every write is also appended to a write log; user
      documents are keyed by uid, the identifiers [addDoc] generates are
      drawn from a counter, and a query returns its documents in stored
      order;
    - store calls that are made are assumed to succeed (the [catch] branches
      that only log a backend failure are not modelled); a call through a
      name the module does not import is never made, see
      [ExpensesPage.tryCall]; [new Date().toISOString()] is supplied by the
      caller as [now];
    - [trim] and [toLowerCase] are modelled on ASCII text: on a string of
      ASCII characters they are the JavaScript functions, and characters
      outside ASCII are left alone, where JavaScript also strips the
      Unicode spaces and lowers the other cased letters. *)

From Stdlib Require Import Floats.PrimFloat.
From Stdlib Require Import List String Ascii Bool Arith Lia.
Import ListNotations.

Local Open Scope string_scope.
Local Open Scope list_scope.

Set Warnings "-inexact-float".

(** ** JavaScript values *)

Module Js.

Definition number := float.

(** [x > y] on numbers. *)
Definition gt (x y : number) : bool := PrimFloat.ltb y x.

(** A number is falsy when it is [NaN], [0] or [-0]. *)
Definition falsy (x : number) : bool :=
  PrimFloat.is_nan x || PrimFloat.is_zero x.

(** [x || 0]. *)
Definition or_zero (x : number) : number :=
  if falsy x then 0%float else x.

(** The number denoted by an array length (exact below 2^53). *)
Fixpoint of_nat (n : nat) : number :=
  match n with
  | O => 0%float
  | S k => PrimFloat.add (of_nat k) 1%float
  end.

(** [l.reduce((sum, x) => sum + x, 0)]. *)
Definition sum (l : list number) : number :=
  fold_left PrimFloat.add l 0%float.

(** [s || d] on strings: the empty string is falsy. *)
Definition or_string (s d : string) : string :=
  if s =? "" then d else s.

(** Objects used as maps from strings. *)
Definition obj (V : Type) : Type := list (string * V).

(** [o[k] = v]: an existing property keeps its position. *)
Fixpoint set {V : Type} (k : string) (v : V) (o : obj V) : obj V :=
  match o with
  | [] => [(k, v)]
  | (k', v') :: rest =>
      if k' =? k then (k, v) :: rest else (k', v') :: set k v rest
  end.

(** [o[k]], [None] standing for [undefined]. *)
Fixpoint get {V : Type} (k : string) (o : obj V) : option V :=
  match o with
  | [] => None
  | (k', v') :: rest => if k' =? k then Some v' else get k rest
  end.

Definition entries {V : Type} (o : obj V) : list (string * V) := o.
Definition keys {V : Type} (o : obj V) : list string := map fst o.
Definition values {V : Type} (o : obj V) : list V := map snd o.

(** [Array.prototype.includes] on strings. *)
Definition includes (x : string) (l : list string) : bool :=
  existsb (String.eqb x) l.

(** [Set.prototype.add]: insertion order, no duplicates. *)
Definition set_add (s : list string) (x : string) : list string :=
  if includes x s then s else s ++ [x].

(** [new Set(l)] followed by zero or more [add]s. *)
Definition set_add_all (s l : list string) : list string :=
  fold_left set_add l s.

Definition new_Set (l : list string) : list string := set_add_all [] l.

(** [String.prototype.toLowerCase] on strings of ASCII characters: the
    letters [A]-[Z] are lowered, every other character is kept. *)
Definition lower_ascii (c : ascii) : ascii :=
  let n := nat_of_ascii c in
  if Nat.leb 65 n && Nat.leb n 90 then ascii_of_nat (n + 32) else c.

Fixpoint toLowerCase (s : string) : string :=
  match s with
  | EmptyString => EmptyString
  | String c r => String (lower_ascii c) (toLowerCase r)
  end.

(** [String.prototype.trim] on strings of ASCII characters: the white
    space stripped is the space and the characters 9 to 13. *)
Definition is_space (c : ascii) : bool :=
  let n := nat_of_ascii c in
  Nat.eqb n 32 || (Nat.leb 9 n && Nat.leb n 13).

Fixpoint trimStart (s : string) : string :=
  match s with
  | EmptyString => EmptyString
  | String c r => if is_space c then trimStart r else s
  end.

Fixpoint trimEnd (s : string) : string :=
  match s with
  | EmptyString => EmptyString
  | String c r =>
      let r' := trimEnd r in
      if is_space c && (r' =? "") then EmptyString else String c r'
  end.

Definition trim (s : string) : string := trimEnd (trimStart s).

(** [s.split(',')]. *)
Fixpoint split_comma (s : string) : list string :=
  match s with
  | EmptyString => [EmptyString]
  | String c r =>
      if Ascii.eqb c ","%char then EmptyString :: split_comma r
      else match split_comma r with
           | [] => [String c EmptyString]
           | h :: t => String c h :: t
           end
  end.

End Js.

(** ** The document store *)

Definition uid := string.
Definition docid := nat.

Inductive Status : Type := pending | paid.

Definition Status_eqb (a b : Status) : bool :=
  match a, b with
  | pending, pending | paid, paid => true
  | _, _ => false
  end.

Module User.
Record t : Type := mk
  { name : string;
    email : string;
    xpPoints : nat;
    level : nat;
    badges : list string }.
End User.

Module Group.
Record t : Type := mk
  { name : string;
    description : string;
    members : list uid;
    memberEmails : list string;
    pendingMemberEmails : list string;
    createdBy : option uid;
    createdAt : string }.
End Group.

Module Expense.
(** [id] is only present on the in-memory object handed to
    [calculateSettlements]; [settlementStatus] is absent until the first
    payment is recorded from the expense page. *)
Record t : Type := mk
  { id : option docid;
    groupId : docid;
    groupName : string;
    description : string;
    amount : Js.number;
    date : string;
    paidBy : uid;
    splitType : string;
    splitMembers : list uid;
    splitAmounts : option (Js.obj Js.number);
    createdAt : string;
    settlementStatus : option (Js.obj Status) }.
End Expense.

Module Settlement.
(** [expenseId = None] stands for the empty string written when the
    expense object carries no id. *)
Record t : Type := mk
  { groupId : docid;
    expenseId : option docid;
    userId : uid;
    owedTo : uid;
    amount : Js.number;
    description : string;
    status : Status;
    createdAt : string;
    paidAt : option string;
    paymentId : option string }.
End Settlement.

Inductive Collection : Type := Users | Groups | Expenses | Settlements.

Inductive Write : Type :=
| Added (c : Collection) (d : docid)
| Updated (c : Collection) (d : docid)
| Deleted (c : Collection) (d : docid)
| UpdatedUser (u : uid).

Record Db : Type := mkDb
  { users : list (uid * User.t);
    groups : list (docid * Group.t);
    expenses : list (docid * Expense.t);
    settlements : list (docid * Settlement.t);
    nextId : docid;
    writes : list Write }.

Definition empty_db : Db := mkDb [] [] [] [] 0 [].

(** Operations on the store run in a state monad over [Db]. *)
Definition M (A : Type) : Type := Db -> A * Db.

Definition ret {A : Type} (a : A) : M A := fun db => (a, db).

Definition bind {A B : Type} (m : M A) (k : A -> M B) : M B :=
  fun db => let (a, db') := m db in k a db'.

Notation "x <- m ;; k" := (bind m (fun x => k))
  (at level 61, m at next level, right associativity).
Notation "m ;;; k" := (bind m (fun _ => k))
  (at level 61, right associativity).

Definition run {A : Type} (m : M A) (db : Db) : Db := snd (m db).
Definition result {A : Type} (m : M A) (db : Db) : A := fst (m db).

(** [getDoc(doc(db, coll, id))]: [None] when the snapshot does not exist. *)
Fixpoint lookup {K V : Type} (eqb : K -> K -> bool) (k : K) (l : list (K * V))
  : option V :=
  match l with
  | [] => None
  | (k', v) :: rest => if eqb k' k then Some v else lookup eqb k rest
  end.

(** [updateDoc] applied to the document stored under [k]. *)
Fixpoint update {K V : Type} (eqb : K -> K -> bool) (k : K) (f : V -> V)
  (l : list (K * V)) : list (K * V) :=
  match l with
  | [] => []
  | (k', v) :: rest =>
      if eqb k' k then (k', f v) :: rest else (k', v) :: update eqb k f rest
  end.

(** [deleteDoc]. *)
Definition remove {K V : Type} (eqb : K -> K -> bool) (k : K)
  (l : list (K * V)) : list (K * V) :=
  filter (fun kv => negb (eqb (fst kv) k)) l.

(** [getDoc(doc(db, 'groups', g))]. *)
Definition getGroup (g : docid) : M (option Group.t) := fun db =>
  (lookup Nat.eqb g (groups db), db).

(** [addDoc(collection(db, 'settlements'), s)]: a fresh identifier is drawn. *)
Definition addSettlement (s : Settlement.t) : M docid := fun db =>
  let i := nextId db in
  (i, mkDb (users db) (groups db) (expenses db)
           (settlements db ++ [(i, s)]) (S i)
           (writes db ++ [Added Settlements i])).

(** [addDoc(collection(db, 'expenses'), e)]. *)
Definition addExpenseDoc (e : Expense.t) : M docid := fun db =>
  let i := nextId db in
  (i, mkDb (users db) (groups db) (expenses db ++ [(i, e)])
           (settlements db) (S i)
           (writes db ++ [Added Expenses i])).

(** [addDoc(collection(db, 'groups'), g)]. *)
Definition addGroupDoc (g : Group.t) : M docid := fun db =>
  let i := nextId db in
  (i, mkDb (users db) (groups db ++ [(i, g)]) (expenses db)
           (settlements db) (S i)
           (writes db ++ [Added Groups i])).

(** [getDocs(query(collection(db, 'users'), where('email', '==', e)))],
    as the list of the matching document identifiers. *)
Definition usersByEmail (db : Db) (e : string) : list uid :=
  map fst (filter (fun kv => User.email (snd kv) =? e) (users db)).

Definition is_nil {A : Type} (l : list A) : bool :=
  match l with [] => true | _ :: _ => false end.

(** ** analytics.js: [calculateSettlements] *)

Module Analytics.

Section CalculateSettlements.

Variable now : string.
Variable groupId : docid.
Variable expense : Expense.t.

Definition settlementData (memberId : uid) (amount : Js.number)
  : Settlement.t :=
  {| Settlement.groupId := groupId;
     Settlement.expenseId := Expense.id expense;
     Settlement.userId := memberId;
     Settlement.owedTo := Expense.paidBy expense;
     Settlement.amount := amount;
     Settlement.description :=
       Js.or_string (Expense.description expense) "Expense";
     Settlement.status := pending;
     Settlement.createdAt := now;
     Settlement.paidAt := None;
     Settlement.paymentId := None |}.

(** The [for ... of Object.entries(splitAmounts)] loop. *)
Fixpoint forEntries (es : list (string * Js.number)) : M unit :=
  match es with
  | [] => ret tt
  | (memberId, amount) :: rest =>
      if memberId =? Expense.paidBy expense then forEntries rest
      else addSettlement (settlementData memberId amount) ;;;
           forEntries rest
  end.

Definition splitAmountsOf : Js.obj Js.number :=
  match Expense.splitAmounts expense with
  | Some o => o
  | None => []
  end.

(** [Object.values(..).filter(key !== paidBy).reduce(+, 0)]. *)
Definition totalOwed : Js.number :=
  Js.sum
    (Js.values
       (filter (fun kv => negb (fst kv =? Expense.paidBy expense))
               (Js.entries splitAmountsOf))).

Definition payerSettlement : Settlement.t :=
  settlementData (Expense.paidBy expense) (PrimFloat.opp totalOwed).

Definition calculateSettlements : M unit :=
  forEntries (Js.entries splitAmountsOf) ;;;
  if Js.gt totalOwed 0%float
  then addSettlement payerSettlement ;;; ret tt
  else ret tt.

End CalculateSettlements.

(** [updateDoc(doc(db, 'users', u), ...)]. *)
Definition updateUser (u : uid) (f : User.t -> User.t) : M unit := fun db =>
  (tt, mkDb (update String.eqb u f (users db)) (groups db) (expenses db)
            (settlements db) (nextId db) (writes db ++ [UpdatedUser u])).

(** The badge table of [checkBadges], each condition already evaluated
    against the store. *)
Definition badgeDefinitions (db : Db) (userId : uid) (xp level : nat)
  : list (string * bool) :=
  [ ("first_expense", Nat.leb 10 xp);
    ("expense_master", Nat.leb 100 xp);
    ("level_5", Nat.leb 5 level);
    ("level_10", Nat.leb 10 level);
    ("settler",
      Nat.leb 5 (List.length
        (filter (fun kv => (Settlement.userId (snd kv) =? userId)
                           && Status_eqb (Settlement.status (snd kv)) paid)
                (settlements db))));
    ("group_creator",
      Nat.leb 3 (List.length
        (filter (fun kv => match Group.createdBy (snd kv) with
                           | Some c => c =? userId
                           | None => false
                           end)
                (groups db)))) ].

Definition checkBadges (userId : uid) (xp level : nat) : M unit := fun db =>
  match lookup String.eqb userId (users db) with
  | None => (tt, db)
  | Some userData =>
      let currentBadges := User.badges userData in
      let newBadges :=
        map fst
          (filter (fun b => negb (Js.includes (fst b) currentBadges) && snd b)
                  (badgeDefinitions db userId xp level)) in
      match newBadges with
      | [] => (tt, db)
      | _ :: _ =>
          updateUser userId
            (fun u => User.mk (User.name u) (User.email u) (User.xpPoints u)
                              (User.level u) (currentBadges ++ newBadges))
            db
      end
  end.

Definition awardXP (userId : uid) (points : nat) : M unit := fun db =>
  match lookup String.eqb userId (users db) with
  | None => (tt, db)
  | Some userData =>
      let newXP := User.xpPoints userData + points in
      let newLevel := newXP / 100 + 1 in
      (updateUser userId
         (fun u => User.mk (User.name u) (User.email u) newXP newLevel
                           (User.badges u)) ;;;
       checkBadges userId newXP newLevel) db
  end.

End Analytics.

(** ** expenses.js: [addExpense] and [loadGroupMembers] *)

Module ExpensesPage.

(** The values read from the form.  [expenseGroup = None] is the empty
    selection, [expenseAmount] and [custom m] are the results of
    [parseFloat] on the amount field and on the field [custom_m]. *)
Record Form : Type := mkForm
  { expenseGroup : option docid;
    expenseDescription : string;
    expenseAmount : Js.number;
    expenseDate : string;
    expensePaidBy : uid;
    splitType : string;
    selectedMembers : list uid;
    custom : uid -> Js.number }.

Inductive Outcome : Type :=
| NoMemberSelected
| SplitMismatch (totalCustom amount : Js.number)
| Failed
| ExpenseAdded (id : docid).

(** The two outcomes that reject the input before anything is stored. *)
Definition validationError (o : Outcome) : bool :=
  match o with
  | NoMemberSelected | SplitMismatch _ _ => true
  | Failed | ExpenseAdded _ => false
  end.

(** The [equal] branch. *)
Definition equalSplit (amount : Js.number) (selected : list uid)
  : Js.obj Js.number :=
  let perPerson := PrimFloat.div amount (Js.of_nat (List.length selected)) in
  fold_left (fun splitAmounts memberId => Js.set memberId perPerson splitAmounts)
            selected [].

(** The [forEach] of the custom branch: the mapping and [totalCustom]. *)
Definition customSplit (custom : uid -> Js.number) (selected : list uid)
  : Js.obj Js.number * Js.number :=
  fold_left
    (fun acc memberId =>
       let customAmount := Js.or_zero (custom memberId) in
       (Js.set memberId customAmount (fst acc),
        PrimFloat.add (snd acc) customAmount))
    selected ([], 0%float).

(** "Calculate split amounts": the mapping, or the mismatching total. *)
Definition computeSplit (f : Form) : Js.obj Js.number + Js.number :=
  if splitType f =? "equal"
  then inl (equalSplit (expenseAmount f) (selectedMembers f))
  else
    let (splitAmounts, totalCustom) :=
      customSplit (custom f) (selectedMembers f) in
    if Js.gt (PrimFloat.abs (PrimFloat.sub totalCustom (expenseAmount f)))
             0.01%float
    then inr totalCustom
    else inl splitAmounts.

Definition expenseData (now : string) (f : Form) (groupId : docid)
  (groupName : string) (splitAmounts : Js.obj Js.number) : Expense.t :=
  {| Expense.id := None;
     Expense.groupId := groupId;
     Expense.groupName := groupName;
     Expense.description := expenseDescription f;
     Expense.amount := expenseAmount f;
     Expense.date := expenseDate f;
     Expense.paidBy := expensePaidBy f;
     Expense.splitType := splitType f;
     Expense.splitMembers := selectedMembers f;
     Expense.splitAmounts := Some splitAmounts;
     Expense.createdAt := now;
     Expense.settlementStatus := None |}.

Definition withId (i : docid) (e : Expense.t) : Expense.t :=
  Expense.mk (Some i) (Expense.groupId e) (Expense.groupName e)
             (Expense.description e) (Expense.amount e) (Expense.date e)
             (Expense.paidBy e) (Expense.splitType e) (Expense.splitMembers e)
             (Expense.splitAmounts e) (Expense.createdAt e)
             (Expense.settlementStatus e).

(** [addExpense], up to the page refresh.  An empty group selection makes
    [doc(db, 'groups', '')] throw, which the handler catches. *)
Definition addExpense (now : string) (f : Form) : M Outcome :=
  match selectedMembers f with
  | [] => ret NoMemberSelected
  | _ :: _ =>
      match computeSplit f with
      | inr totalCustom => ret (SplitMismatch totalCustom (expenseAmount f))
      | inl splitAmounts =>
          match expenseGroup f with
          | None => ret Failed
          | Some groupId =>
              groupDoc <- getGroup groupId ;;
              let groupName :=
                match groupDoc with
                | Some g => Group.name g
                | None => "Unknown Group"
                end in
              let e := expenseData now f groupId groupName splitAmounts in
              expenseRef <- addExpenseDoc e ;;
              Analytics.calculateSettlements now groupId (withId expenseRef e) ;;;
              Analytics.awardXP (expensePaidBy f) 10 ;;;
              ret (ExpenseAdded expenseRef)
          end
      end
  end.

(** One iteration of the loop over [memberEmails]. *)
Definition resolveMemberEmail (db : Db) (memberIds : list uid)
  (email : string) : list uid :=
  let emailLc := Js.toLowerCase email in
  let usersByEmailLc := usersByEmail db emailLc in
  let memberIds1 := Js.set_add_all memberIds usersByEmailLc in
  let found := negb (is_nil usersByEmailLc) in
  if negb found && negb (email =? emailLc)
  then Js.set_add_all memberIds1 (usersByEmail db email)
  else memberIds1.

(** One iteration of the loop over [pendingEmails]; the state is
    [memberIds] and [newlyResolvedEmails] (the list [stillPending] the
    source also fills is never read). *)
Definition resolvePendingEmail (db : Db) (st : list uid * list string)
  (pEmail : string) : list uid * list string :=
  let email := Js.trim pEmail in
  if email =? "" then st
  else
    let lc := Js.toLowerCase email in
    let s1 := usersByEmail db lc in
    let memberIds1 := Js.set_add_all (fst st) s1 in
    let resolved1 := negb (is_nil s1) in
    let s2 := usersByEmail db email in
    let second := negb resolved1 && negb (lc =? email) in
    let memberIds2 := if second then Js.set_add_all memberIds1 s2
                      else memberIds1 in
    let resolved := if second then negb (is_nil s2) else resolved1 in
    if resolved then (memberIds2, snd st ++ [email]) else (memberIds2, snd st).

(** The fields [{members, memberEmails, pendingMemberEmails}] merged into
    a group document. *)
Definition withMembership (members : list uid)
  (memberEmails pending : list string) (g : Group.t) : Group.t :=
  Group.mk (Group.name g) (Group.description g) members memberEmails pending
           (Group.createdBy g) (Group.createdAt g).

(** [updateDoc(groupRef, {members, memberEmails, pendingMemberEmails})]. *)
Definition updateGroupMembership (groupId : docid)
  (members : list uid) (memberEmails pending : list string) : M unit :=
  fun db =>
    (tt, mkDb (users db)
              (update Nat.eqb groupId
                 (withMembership members memberEmails pending) (groups db))
              (expenses db) (settlements db) (nextId db)
              (writes db ++ [Updated Groups groupId])).

(** The Firestore functions expenses.js imports (lines 3-12).  [updateDoc]
    is not one of them. *)
Definition imports : list string :=
  ["collection"; "addDoc"; "getDocs"; "query"; "where"; "orderBy"; "doc";
   "getDoc"].

(** [try { await f(...) } catch (e) { console.error(...) }] for a
    module-level identifier [f], where [call] is what the Firestore
    function of that name does.  When the module does not import [f],
    evaluating the identifier throws a ReferenceError before anything is
    sent, and the handler only logs it.  The result tells whether the call
    was made. *)
Definition tryCall (f : string) (call : M unit) : M bool := fun db =>
  if Js.includes f imports then (true, run call db) else (false, db).

(** The membership resolution of [loadGroupMembers] (everything before the
    form is rendered).  The result is the in-memory [memberIds] set, or
    [None] when the function returns before resolving.  The promotion of
    the resolved pending emails is sent through [updateDoc], inside a
    [try] of its own. *)
Definition loadGroupMembers (groupId : option docid) : M (option (list uid)) :=
  fun db =>
  match groupId with
  | None => (None, db)
  | Some gid =>
      match lookup Nat.eqb gid (groups db) with
      | None => (None, db)
      | Some group =>
          let memberIds0 := Js.new_Set (Group.members group) in
          let memberEmails := Group.memberEmails group in
          let pendingEmails := Group.pendingMemberEmails group in
          let memberIds1 :=
            fold_left (resolveMemberEmail db) memberEmails memberIds0 in
          let (memberIds, newlyResolvedEmails) :=
            fold_left (resolvePendingEmail db) pendingEmails (memberIds1, []) in
          match newlyResolvedEmails with
          | [] => (Some memberIds, db)
          | _ :: _ =>
              let updatedPending :=
                filter (fun e => negb (Js.includes e newlyResolvedEmails))
                       pendingEmails in
              let normalizedAdditions :=
                map Js.toLowerCase newlyResolvedEmails in
              let updatedMemberEmails :=
                Js.new_Set (memberEmails ++ normalizedAdditions) in
              (tryCall "updateDoc"
                 (updateGroupMembership gid memberIds updatedMemberEmails
                    updatedPending) ;;;
               ret (Some memberIds)) db
          end
      end
  end.

End ExpensesPage.

(** ** The groups page: [createGroup] and [deleteGroup] *)

Module GroupsPage.

Record Form : Type := mkForm
  { groupName : string;
    groupDescription : string;
    groupMembers : string }.

Inductive CreateOutcome : Type :=
| CreateFailed
| GroupCreated (id : docid).

(** [membersInput.split(',').map(trim).filter(nonempty)]. *)
Definition rawMemberEmails (membersInput : string) : list string :=
  filter (fun email => negb (email =? ""))
         (map Js.trim (Js.split_comma membersInput)).

(** [!foundUid]. *)
Definition notFound (foundUid : option uid) : bool :=
  match foundUid with
  | None => true
  | Some u => u =? ""
  end.

(** A [forEach] over a lookup result; the state is [memberIds], [foundUid]. *)
Definition pushNew (st : list uid * option uid) (hits : list uid)
  : list uid * option uid :=
  fold_left
    (fun acc userDoc =>
       if Js.includes userDoc (fst acc) then acc
       else (fst acc ++ [userDoc], Some userDoc))
    hits st.

(** One iteration of the lookup loop; the state is [memberIds] and
    [pendingMemberEmails]. *)
Definition findMember (db : Db) (st : list uid * list string)
  (rawEmail : string) : list uid * list string :=
  let lcEmail := Js.toLowerCase rawEmail in
  let st1 := pushNew (fst st, None) (usersByEmail db lcEmail) in
  let st2 :=
    if notFound (snd st1) && negb (rawEmail =? lcEmail)
    then pushNew st1 (usersByEmail db rawEmail)
    else st1 in
  if notFound (snd st2) then (fst st2, snd st ++ [rawEmail])
  else (fst st2, snd st).

Definition createGroup (currentUser : option uid) (now : string) (f : Form)
  : M CreateOutcome :=
  match currentUser with
  | None => ret CreateFailed
  | Some me => fun db =>
      let raw := rawMemberEmails (groupMembers f) in
      let memberEmails := map Js.toLowerCase raw in
      let (memberIds, pendingMemberEmails) :=
        fold_left (findMember db) raw ([me], []) in
      let groupData :=
        {| Group.name := groupName f;
           Group.description := groupDescription f;
           Group.members := memberIds;
           Group.memberEmails := memberEmails;
           Group.pendingMemberEmails := pendingMemberEmails;
           Group.createdBy := Some me;
           Group.createdAt := now |} in
      (id <- addGroupDoc groupData ;; ret (GroupCreated id)) db
  end.

Inductive DeleteOutcome : Type :=
| DeleteCancelled
| GroupNotFound
| NotCreator
| DeleteFailed
| GroupDeleted.

(** [deleteDoc(doc(db, 'expenses', i))]. *)
Definition deleteExpenseDoc (i : docid) : M unit := fun db =>
  (tt, mkDb (users db) (groups db) (remove Nat.eqb i (expenses db))
            (settlements db) (nextId db)
            (writes db ++ [Deleted Expenses i])).

(** [deleteDoc(groupRef)]. *)
Definition deleteGroupDoc (i : docid) : M unit := fun db =>
  (tt, mkDb (users db) (remove Nat.eqb i (groups db)) (expenses db)
            (settlements db) (nextId db)
            (writes db ++ [Deleted Groups i])).

(** The identifiers returned by the query [where('groupId', '==', g)]. *)
Definition expensesOfGroup (db : Db) (g : docid) : list docid :=
  map fst (filter (fun kv => Nat.eqb (Expense.groupId (snd kv)) g)
                  (expenses db)).

Fixpoint deleteAll (ids : list docid) : M unit :=
  match ids with
  | [] => ret tt
  | i :: rest => deleteExpenseDoc i ;;; deleteAll rest
  end.

(** [window.deleteGroup]; [confirmed] is the answer to the dialog. *)
Definition deleteGroup (currentUser : option uid) (confirmed : bool)
  (groupId : docid) : M DeleteOutcome := fun db =>
  if negb confirmed then (DeleteCancelled, db)
  else
    match lookup Nat.eqb groupId (groups db) with
    | None => (GroupNotFound, db)
    | Some groupData =>
        match currentUser with
        | None => (DeleteFailed, db)
        | Some me =>
            let isCreator :=
              match Group.createdBy groupData with
              | Some c => c =? me
              | None => false
              end in
            if negb isCreator then (NotCreator, db)
            else
              (deleteAll (expensesOfGroup db groupId) ;;;
               deleteGroupDoc groupId ;;;
               ret GroupDeleted) db
        end
    end.

End GroupsPage.

(** ** The dashboard and payments.js: balances and paying a settlement *)

Module Payments.

Inductive Outcome : Type :=
| StatusUpdateFailed
| PaymentRecorded.

(** The fields [{status: 'paid', paidAt, paymentId}] merged into a
    settlement document. *)
Definition asPaid (now paymentId : string) (s : Settlement.t) : Settlement.t :=
  Settlement.mk (Settlement.groupId s) (Settlement.expenseId s)
                (Settlement.userId s) (Settlement.owedTo s)
                (Settlement.amount s) (Settlement.description s)
                paid (Settlement.createdAt s) (Some now) (Some paymentId).

(** [updateDoc(doc(db, 'settlements', i), {status, paidAt, paymentId})];
    [updateDoc] throws when the document does not exist. *)
Definition markSettlementPaid (now paymentId : string) (i : docid)
  : M bool := fun db =>
  match lookup Nat.eqb i (settlements db) with
  | None => (false, db)
  | Some _ =>
      (true,
       mkDb (users db) (groups db) (expenses db)
            (update Nat.eqb i (asPaid now paymentId) (settlements db))
            (nextId db) (writes db ++ [Updated Settlements i]))
  end.

(** [handlePaymentSuccess(response, settlementId)]; [user] is the result of
    [requireAuth()] and [paymentId] is [response.razorpay_payment_id]. *)
Definition handlePaymentSuccess (user : option uid) (now paymentId : string)
  (settlementId : docid) : M Outcome :=
  updated <- markSettlementPaid now paymentId settlementId ;;
  if updated
  then match user with
       | Some u => Analytics.awardXP u 20 ;;; ret PaymentRecorded
       | None => ret PaymentRecorded
       end
  else ret StatusUpdateFailed.

(** [initiatePayment]: the demo checkout is a confirmation dialog. *)
Definition initiatePayment (user : option uid) (confirmed : bool)
  (now paymentId : string) (settlementId : docid) : M (option Outcome) :=
  if confirmed
  then r <- handlePaymentSuccess user now paymentId settlementId ;;
       ret (Some r)
  else ret None.

End Payments.

Module Dashboard.

Record Stats : Type := mkStats
  { totalOwed : Js.number;
    totalOwedToYou : Js.number }.

(** The query [where('userId', '==', u), where('status', '==', 'pending')]. *)
Definition pendingSettlements (db : Db) (u : uid) : list Settlement.t :=
  map snd
    (filter (fun kv => (Settlement.userId (snd kv) =? u)
                       && Status_eqb (Settlement.status (snd kv)) pending)
            (settlements db)).

(** The "owed amounts" part of [loadDashboardStats] for the signed-in user
    (the [totalSpent] figure, which reads only the expenses, is left out). *)
Definition loadDashboardStats (db : Db) (currentUser : uid) : Stats :=
  fold_left
    (fun acc data =>
       if Js.gt (Settlement.amount data) 0%float
       then mkStats (PrimFloat.add (totalOwed acc) (Settlement.amount data))
                    (totalOwedToYou acc)
       else mkStats (totalOwed acc)
                    (PrimFloat.add (totalOwedToYou acc)
                                   (PrimFloat.abs (Settlement.amount data))))
    (pendingSettlements db currentUser)
    (mkStats 0%float 0%float).

Inductive Outcome : Type :=
| SettlementNotFound
| SettleFailed
| PaymentDeclined
| Paid (r : Payments.Outcome).

(** [window.settlePayment(settlementId, amount)] of the dashboard; [amount]
    only feeds the text of the confirmation dialog. *)
Definition settlePayment (currentUser : option uid) (confirmed : bool)
  (now paymentId : string) (settlementId : docid) : M Outcome := fun db =>
  match lookup Nat.eqb settlementId (settlements db) with
  | None => (SettlementNotFound, db)
  | Some _ =>
      match currentUser with
      | None => (SettleFailed, db)
      | Some _ =>
          (r <- Payments.initiatePayment currentUser confirmed now paymentId
                  settlementId ;;
           ret (match r with
                | Some o => Paid o
                | None => PaymentDeclined
                end)) db
      end
  end.

End Dashboard.

(** ** expense-details.js: [settlePayment] *)

Module ExpenseDetails.

Inductive Outcome : Type :=
| NotAuthenticated
| ExpenseNotFound
| OwnExpense
| Settled.

(** [{...(expense.settlementStatus || {}), [uid]: 'paid'}]. *)
Definition markedPaid (expense : Expense.t) (me : uid) : Js.obj Status :=
  Js.set me paid
    (match Expense.settlementStatus expense with
     | Some o => o
     | None => []
     end).

(** The field [{settlementStatus: st}] merged into an expense document. *)
Definition withStatus (st : Js.obj Status) (e : Expense.t) : Expense.t :=
  Expense.mk (Expense.id e) (Expense.groupId e) (Expense.groupName e)
             (Expense.description e) (Expense.amount e) (Expense.date e)
             (Expense.paidBy e) (Expense.splitType e) (Expense.splitMembers e)
             (Expense.splitAmounts e) (Expense.createdAt e) (Some st).

(** [updateDoc(expenseRef, {settlementStatus: st})]. *)
Definition updateSettlementStatus (expenseId : docid) (st : Js.obj Status)
  : M unit := fun db =>
  (tt, mkDb (users db) (groups db)
            (update Nat.eqb expenseId (withStatus st) (expenses db))
            (settlements db) (nextId db)
            (writes db ++ [Updated Expenses expenseId])).

(** [settlePayment(expenseId, amount)]; [amount] only feeds the success
    message. *)
Definition settlePayment (currentUser : option uid) (expenseId : docid)
  : M Outcome := fun db =>
  match currentUser with
  | None => (NotAuthenticated, db)
  | Some me =>
      match lookup Nat.eqb expenseId (expenses db) with
      | None => (ExpenseNotFound, db)
      | Some expense =>
          let payee := Expense.paidBy expense in
          if me =? payee then (OwnExpense, db)
          else
            (updateSettlementStatus expenseId (markedPaid expense me) ;;;
             ret Settled) db
      end
  end.

End ExpenseDetails.

(** ** Reference formulations used in the statements *)

(** Documents numbered with consecutive fresh identifiers. *)
Definition numbered {A : Type} (n : docid) (l : list A) : list (docid * A) :=
  combine (seq n (List.length l)) l.

(** The settlement records one run of [calculateSettlements] writes: one per
    entry whose key is not the payer, then the payer's record when the
    non-payer shares sum to a positive number. *)
Definition recordsFor (now : string) (groupId : docid) (e : Expense.t)
  : list Settlement.t :=
  map (fun kv => Analytics.settlementData now groupId e (fst kv) (snd kv))
      (filter (fun kv => negb (fst kv =? Expense.paidBy e))
              (Analytics.splitAmountsOf e))
  ++ (if Js.gt (Analytics.totalOwed e) 0%float
      then [Analytics.payerSettlement now groupId e]
      else []).

(** The store after the records [rs] have been added one by one. *)
Definition added (db : Db) (rs : list Settlement.t) : Db :=
  mkDb (users db) (groups db) (expenses db)
       (settlements db ++ numbered (nextId db) rs)
       (nextId db + List.length rs)
       (writes db ++ map (Added Settlements) (seq (nextId db) (List.length rs))).

(** The (debtor, creditor, originating expense) key of a settlement. *)
Definition triple (s : Settlement.t) : uid * uid * option docid :=
  (Settlement.userId s, Settlement.owedTo s, Settlement.expenseId s).

Definition triple_eqb (a b : uid * uid * option docid) : bool :=
  (fst (fst a) =? fst (fst b)) && (snd (fst a) =? snd (fst b))
  && match snd a, snd b with
     | Some x, Some y => Nat.eqb x y
     | None, None => true
     | _, _ => false
     end.

Definition countTriple (t : uid * uid * option docid)
  (l : list Settlement.t) : nat :=
  List.length (filter (fun s => triple_eqb (triple s) t) l).

Definition atMostOnePerTriple (db : Db) : Prop :=
  forall t, countTriple t (map snd (settlements db)) <= 1.







(** The equal policy as the specification words it: every selected member
    other than the payer owes the amount divided by the number of selected
    non-payers, and the payer holds no positive share. *)
Definition nonPayers (payer : uid) (selected : list uid) : list uid :=
  filter (fun m => negb (m =? payer)) selected.

Definition equalPolicyAsClaimed (f : ExpensesPage.Form)
  (splitAmounts : Js.obj Js.number) : Prop :=
  (forall m, In m (ExpensesPage.selectedMembers f) ->
             m <> ExpensesPage.expensePaidBy f ->
             Js.get m splitAmounts
             = Some (PrimFloat.div (ExpensesPage.expenseAmount f)
                       (Js.of_nat (List.length
                          (nonPayers (ExpensesPage.expensePaidBy f)
                                     (ExpensesPage.selectedMembers f))))))
  /\ (forall v, Js.get (ExpensesPage.expensePaidBy f) splitAmounts = Some v ->
                Js.gt v 0%float = false).

(** [totalCustom] as a plain sum of the supplied shares. *)
Definition suppliedTotal (f : ExpensesPage.Form) : Js.number :=
  Js.sum (map (fun m => Js.or_zero (ExpensesPage.custom f m))
              (ExpensesPage.selectedMembers f)).

(** The group name [addExpense] copies onto the expense. *)
Definition groupNameOf (db : Db) (g : docid) : string :=
  match lookup Nat.eqb g (groups db) with
  | Some grp => Group.name grp
  | None => "Unknown Group"
  end.

(** The authorization rule as the specification words it, on the dashboard
    payment flow: a caller who is not the debtor of the settlement is turned
    away and nothing is marked. *)
Definition turnedAway (o : Dashboard.Outcome) : bool :=
  match o with
  | Dashboard.Paid Payments.PaymentRecorded => false
  | _ => true
  end.

Definition onlyDebtorMarksPaid : Prop :=
  forall (db : Db) (caller : uid) (now paymentId : string) (i : docid)
         (s : Settlement.t),
    lookup Nat.eqb i (settlements db) = Some s ->
    Settlement.userId s <> caller ->
    turnedAway
      (result (Dashboard.settlePayment (Some caller) true now paymentId i) db)
    = true
    /\ settlements
         (run (Dashboard.settlePayment (Some caller) true now paymentId i) db)
       = settlements db.

(** The per-member status map of an expense, [{}] when absent. *)
Definition statusMap (e : Expense.t) : Js.obj Status :=
  match Expense.settlementStatus e with
  | Some o => o
  | None => []
  end.

(** An expense document with its [settlementStatus] field blanked. *)
Definition withoutStatus (e : Expense.t) : Expense.t :=
  Expense.mk (Expense.id e) (Expense.groupId e) (Expense.groupName e)
             (Expense.description e) (Expense.amount e) (Expense.date e)
             (Expense.paidBy e) (Expense.splitType e) (Expense.splitMembers e)
             (Expense.splitAmounts e) (Expense.createdAt e) None.

(** The cascade as the specification words it: after the deletion neither
    an expense nor a settlement refers to the group. *)
Definition cascadeAsClaimed (g : docid) (db' : Db) : Prop :=
  (forall kv, In kv (expenses db') -> Expense.groupId (snd kv) <> g)
  /\ (forall kv, In kv (settlements db') -> Settlement.groupId (snd kv) <> g).

(** The accounts an email resolves to: those found under its lower-cased
    form or, when there is none, those found under its literal form. *)
Definition accountsFor (db : Db) (email : string) : list uid :=
  let byLower := usersByEmail db (Js.toLowerCase email) in
  if is_nil byLower then usersByEmail db email else byLower.

(** A pending email matches an existing account. *)
Definition resolves (db : Db) (email : string) : bool :=
  negb (email =? "") && negb (is_nil (accountsFor db email)).

(** An email stored without surrounding white space, as [createGroup] and
    [addMembersToGroup] store them. *)
Definition trimmed (email : string) : Prop := Js.trim email = email.

(** A string of ASCII characters only: on these [Js.trim] and
    [Js.toLowerCase] are [String.prototype.trim] and
    [String.prototype.toLowerCase]. *)
Definition asciiOnly (s : string) : bool :=
  forallb (fun c => Nat.ltb (nat_of_ascii c) 128) (list_ascii_of_string s).


(** ** Example data *)

Module Ex.

Definition P : uid := "P".
Definition M1 : uid := "M1".
Definition M2 : uid := "M2".

Definition account (n e : string) : User.t := User.mk n e 0 1 [].

Definition db_users : Db :=
  mkDb [(P, account "Pia" "p@x.com"); (M1, account "Max" "m1@x.com");
        (M2, account "Moe" "m2@x.com")] [] [] [] 0 [].

(** A group created by [P] inviting [M1] and [M2]. *)
Definition db_group : Db :=
  run (GroupsPage.createGroup (Some P) "t0"
         (GroupsPage.mkForm "Flat" "" "m1@x.com, m2@x.com")) db_users.

(** A custom split of 100 in which the field of [M2] was left blank. *)
Definition blankShare : Expense.t :=
  {| Expense.id := Some 7;
     Expense.groupId := 0;
     Expense.groupName := "Flat";
     Expense.description := "Dinner";
     Expense.amount := 100%float;
     Expense.date := "2024-01-01";
     Expense.paidBy := P;
     Expense.splitType := "custom";
     Expense.splitMembers := [P; M1; M2];
     Expense.splitAmounts :=
       Some [(P, 60%float); (M1, 40%float); (M2, 0%float)];
     Expense.createdAt := "t1";
     Expense.settlementStatus := None |}.

(** An expense of 300 paid by [P], split equally among [P], [M1], [M2]. *)
Definition form300 : ExpensesPage.Form :=
  ExpensesPage.mkForm (Some 0) "Trip" 300%float "2024-01-02" P "equal"
                      [P; M1; M2] (fun _ => PrimFloat.nan).

Definition db300 : Db := run (ExpensesPage.addExpense "t1" form300) db_group.


(** A custom split of 100 whose shares are 50 and 40. *)
Definition form90 : ExpensesPage.Form :=
  ExpensesPage.mkForm (Some 0) "Taxi" 100%float "2024-01-03" P "custom"
                      [M1; M2]
                      (fun m => if m =? M1 then 50%float else 40%float).

End Ex.

(** ** The groups page: [addMembersToGroup] and the delete button *)

Module GroupMembers.

Inductive Outcome : Type :=
| NothingToAdd
| GroupMissing
| MembersUpdated.

(** One iteration of the loop over [emailsRaw]; the state is the three
    sets [members], [memberEmails] and [pendingMemberEmails]. *)
Definition addOne (db : Db)
  (st : list uid * list string * list string) (email : string)
  : list uid * list string * list string :=
  let lc := Js.toLowerCase email in
  let usersSnap := usersByEmail db lc in
  (Js.set_add_all (fst (fst st)) usersSnap,
   Js.set_add (snd (fst st)) lc,
   if is_nil usersSnap then Js.set_add (snd st) email else snd st).

(** [window.addMembersToGroup(groupId)]; [raw] is the value of the input
    field. *)
Definition addMembersToGroup (raw : string) (groupId : docid) : M Outcome :=
  fun db =>
  match GroupsPage.rawMemberEmails raw with
  | [] => (NothingToAdd, db)
  | emailsRaw =>
      match lookup Nat.eqb groupId (groups db) with
      | None => (GroupMissing, db)
      | Some group =>
          let members := Js.new_Set (Group.members group) in
          let memberEmails :=
            Js.new_Set (map Js.toLowerCase (Group.memberEmails group)) in
          let pendingMemberEmails :=
            Js.new_Set (Group.pendingMemberEmails group) in
          let st :=
            fold_left (addOne db) emailsRaw
                      (members, memberEmails, pendingMemberEmails) in
          (ExpensesPage.updateGroupMembership groupId
             (fst (fst st)) (snd (fst st)) (snd st) ;;;
           ret MembersUpdated) db
      end
  end.

(** The [canDelete] flag of [showGroupDetails], which decides whether the
    "Delete Group" button is rendered. *)
Definition canDelete (currentUser : uid) (latestGroupData : Group.t) : bool :=
  let isCreator :=
    match Group.createdBy latestGroupData with
    | Some c => c =? currentUser
    | None => false
    end in
  let isLegacyNoCreator := GroupsPage.notFound (Group.createdBy latestGroupData) in
  let isMember := Js.includes currentUser (Group.members latestGroupData) in
  isCreator || (isLegacyNoCreator && isMember).

End GroupMembers.

(** ** auth.js: [signUp] *)

Module Auth.

(** [setDoc(doc(db, 'users', u), d)]: creates the document or replaces it. *)
Definition setUserDoc (u : uid) (d : User.t) : M unit := fun db =>
  (tt, mkDb (match lookup String.eqb u (users db) with
             | Some _ => update String.eqb u (fun _ => d) (users db)
             | None => users db ++ [(u, d)]
             end)
            (groups db) (expenses db) (settlements db) (nextId db)
            (writes db ++ [UpdatedUser u])).

(** [signUp(email, password, name)].  [created] is the outcome of
    [createUserWithEmailAndPassword]: the uid of the new account, or [None]
    when the identity service rejects the request.  The profile's
    [createdAt] stamp, which nothing reads, is not kept. *)
Definition signUp (created : option uid) (email name : string)
  : M (option uid) :=
  let normalizedEmail := Js.toLowerCase (Js.trim email) in
  match created with
  | None => ret None
  | Some u =>
      setUserDoc u (User.mk name normalizedEmail 0 1 []) ;;;
      ret (Some u)
  end.

End Auth.

(** ** expense-details.js: [loadExpenseDetails] *)

Module ExpenseBreakdown.

(** One entry of the list "who owes whom" ([id] is [local-<memberId>]). *)
Record Item : Type := mkItem
  { id : string;
    expenseId : docid;
    groupId : docid;
    userId : uid;
    owedTo : uid;
    amount : Js.number;
    description : string }.

Record Details : Type := mkDetails
  { settlements : list Item;
    youOwe : Js.number;
    owedToYou : Js.number;
    settleButton : bool }.

(** The members of the owning group, with the accounts its member emails
    resolve to (step 3, when the expense has no participant list). *)
Definition groupMembers (db : Db) (g : docid) : list uid :=
  match lookup Nat.eqb g (groups db) with
  | None => []
  | Some grp =>
      fold_left
        (fun memberIds email =>
           let lc := Js.toLowerCase email in
           let memberIds1 := Js.set_add_all memberIds (usersByEmail db lc) in
           if negb (lc =? email)
           then Js.set_add_all memberIds1 (usersByEmail db email)
           else memberIds1)
        (Group.memberEmails grp)
        (Js.new_Set (Group.members grp))
  end.

(** The split shown for an expense: the stored mapping or, when it is
    missing or empty, an equal split among the participants other than the
    payer. *)
Definition splitOf (db : Db) (expense : Expense.t) : Js.obj Js.number :=
  let split :=
    match Expense.splitAmounts expense with
    | Some o => o
    | None => []
    end in
  if is_nil (Js.keys split)
  then
    let members0 :=
      if is_nil (Expense.splitMembers expense)
      then groupMembers db (Expense.groupId expense)
      else Expense.splitMembers expense in
    let members :=
      filter (fun m => negb (m =? "") && negb (m =? Expense.paidBy expense))
             members0 in
    ExpensesPage.equalSplit (Js.or_zero (Expense.amount expense)) members
  else split.

(** Step 4: the entries of the split that become list items. *)
Definition itemsOf (expenseId : docid) (expense : Expense.t)
  (split : Js.obj Js.number) : list Item :=
  flat_map
    (fun kv =>
       let memberId := fst kv in
       if (memberId =? "") || (memberId =? Expense.paidBy expense) then []
       else
         let amountNum := Js.or_zero (snd kv) in
         if PrimFloat.leb amountNum 0%float then []
         else [ {| id := "local-" ++ memberId;
                   expenseId := expenseId;
                   groupId := Expense.groupId expense;
                   userId := memberId;
                   owedTo := Expense.paidBy expense;
                   amount := amountNum;
                   description :=
                     Js.or_string (Expense.description expense) "Expense" |} ])
    (Js.entries split).

(** [expense.settlementStatus[u] || 'pending']. *)
Definition statusOf (expense : Expense.t) (u : uid) : Status :=
  match Expense.settlementStatus expense with
  | None => pending
  | Some o => match Js.get u o with
              | Some s => s
              | None => pending
              end
  end.

(** Step 5: the two totals of the signed-in user. *)
Definition totals (currentUser : uid) (expense : Expense.t)
  (items : list Item) : Js.number * Js.number :=
  fold_left
    (fun acc s =>
       let amount := Js.or_zero (amount s) in
       let isYou := userId s =? currentUser in
       let status := statusOf expense (userId s) in
       let youOwe :=
         if isYou && Js.gt amount 0%float && negb (Status_eqb status paid)
         then PrimFloat.add (fst acc) amount else fst acc in
       let owedToYou :=
         if (owedTo s =? currentUser) && Js.gt amount 0%float
         then PrimFloat.add (snd acc) amount else snd acc in
       (youOwe, owedToYou))
    items (0%float, 0%float).

(** [loadExpenseDetails(expenseId)] for the signed-in user, as the data it
    renders: the list, the two totals and whether the "Settle Payment"
    button is created.  [None] is the "Expense Not Found" page. *)
Definition loadExpenseDetails (db : Db) (currentUser : uid)
  (expenseId : docid) : option Details :=
  match lookup Nat.eqb expenseId (expenses db) with
  | None => None
  | Some expense =>
      let items := itemsOf expenseId expense (splitOf db expense) in
      let t := totals currentUser expense items in
      Some (mkDetails items (fst t) (snd t) (Js.gt (fst t) 0%float))
  end.

End ExpenseBreakdown.

(** ** analytics.js: [categorizeExpense] *)

Module Reports.

(** [s.includes(k)] on strings. *)
Fixpoint str_includes (k s : string) : bool :=
  String.prefix k s
  || match s with
     | EmptyString => false
     | String _ r => str_includes k r
     end.

Definition anyOf (keywords : list string) (desc : string) : bool :=
  existsb (fun k => str_includes k desc) keywords.

Definition categorizeExpense (description : string) : string :=
  let desc := Js.toLowerCase description in
  if anyOf ["food"; "restaurant"; "canteen"; "dinner"; "lunch"] desc
  then "Food"
  else if anyOf ["trip"; "travel"; "taxi"; "uber"] desc then "Travel"
  else if anyOf ["room"; "hostel"; "rent"] desc then "Accommodation"
  else if anyOf ["project"; "book"; "stationery"] desc then "Education"
  else "Other".

End Reports.

(** ** Sequences of user actions *)

(** The actions a signed-in user can trigger from the pages, and their
    effect on the store. *)
Inductive Op : Type :=
| OpSignUp (created : option uid) (email name : string)
| OpCreateGroup (currentUser : option uid) (now : string)
                (f : GroupsPage.Form)
| OpAddMembers (raw : string) (g : docid)
| OpLoadGroupMembers (g : option docid)
| OpDeleteGroup (currentUser : option uid) (confirmed : bool) (g : docid)
| OpAddExpense (now : string) (f : ExpensesPage.Form)
| OpSettleExpense (currentUser : option uid) (e : docid)
| OpPay (currentUser : option uid) (confirmed : bool)
        (now paymentId : string) (s : docid).

Definition exec (op : Op) (db : Db) : Db :=
  match op with
  | OpSignUp created email name => run (Auth.signUp created email name) db
  | OpCreateGroup cu now f => run (GroupsPage.createGroup cu now f) db
  | OpAddMembers raw g => run (GroupMembers.addMembersToGroup raw g) db
  | OpLoadGroupMembers g => run (ExpensesPage.loadGroupMembers g) db
  | OpDeleteGroup cu confirmed g =>
      run (GroupsPage.deleteGroup cu confirmed g) db
  | OpAddExpense now f => run (ExpensesPage.addExpense now f) db
  | OpSettleExpense cu e => run (ExpenseDetails.settlePayment cu e) db
  | OpPay cu confirmed now paymentId s =>
      run (Dashboard.settlePayment cu confirmed now paymentId s) db
  end.

Definition execAll (ops : list Op) (db : Db) : Db :=
  fold_left (fun d op => exec op d) ops db.

(** Two settlement documents describe the same debt. *)
Definition sameDebt (s s' : Settlement.t) : Prop :=
  Settlement.groupId s' = Settlement.groupId s
  /\ Settlement.expenseId s' = Settlement.expenseId s
  /\ Settlement.userId s' = Settlement.userId s
  /\ Settlement.owedTo s' = Settlement.owedTo s
  /\ Settlement.amount s' = Settlement.amount s
  /\ Settlement.description s' = Settlement.description s
  /\ Settlement.createdAt s' = Settlement.createdAt s.

(** ** Further example data *)

Module Ex2.

(** A custom split of 100 paid by [P]: 60 for [M1], 40 for [M2]. *)
Definition form100 : ExpensesPage.Form :=
  ExpensesPage.mkForm (Some 0) "Taxi" 100%float "2024-01-03" Ex.P "custom"
                      [Ex.M1; Ex.M2]
                      (fun m => if m =? Ex.M1 then 60%float else 40%float).

(** An expense whose only share is the payer's own. *)
Definition payerOnly : Expense.t :=
  Expense.mk (Some 9) 0 "Flat" "Snack" 20%float "2024-01-04" Ex.P "equal"
             [Ex.P] (Some [(Ex.P, 20%float)]) "t4" None.

End Ex2.

(** The pending emails the resolution loop promotes, for any group: the
    trimmed entries that match an account. *)
Definition promotedOf (db : Db) (group : Group.t) : list string :=
  filter (resolves db) (map Js.trim (Group.pendingMemberEmails group)).

(** The member set the resolution builds in memory: the stored members,
    the accounts of the member emails and the accounts of the promoted
    pending emails. *)
Definition resolvedIds (db : Db) (group : Group.t) : list uid :=
  Js.set_add_all
    (Js.set_add_all (Js.new_Set (Group.members group))
       (flat_map (accountsFor db) (Group.memberEmails group)))
    (flat_map (accountsFor db) (promotedOf db group)).

Module Ex3.

(** A group whose pending email was stored with a leading blank, and the
    account it belongs to. *)
Definition db_padded : Db :=
  mkDb [("U", Ex.account "Uma" "u@x.com"); ("A", Ex.account "Ann" "a@x.com")]
       [(0, Group.mk "Trip" "" ["U"] ["a@x.com"] [" a@x.com"] (Some "U") "t0")]
       [] [] 1 [].

End Ex3.

Module Ex5.

(** [U] creates a group and invites [b@x.com], who has no account yet. *)
Definition db_invited : Db :=
  run (GroupsPage.createGroup (Some "U") "t0"
         (GroupsPage.mkForm "Trip" "" "b@x.com"))
      (mkDb [("U", Ex.account "Uma" "u@x.com")] [] [] [] 0 []).

(** The invited person then registers as [B]. *)
Definition db_registered : Db :=
  run (Auth.signUp (Some "B") "b@x.com" "Bob") db_invited.

End Ex5.

Module Ex4.

(** An expense stored without a share mapping: 300 paid by [P] for [P],
    [M1] and [M2]. *)
Definition legacy : Expense.t :=
  Expense.mk (Some 5) 0 "Flat" "Boat" 300%float "2023-12-31" Ex.P "equal"
             [Ex.P; Ex.M1; Ex.M2] None "t0" None.

Definition db_legacy : Db :=
  mkDb (users Ex.db_users) [] [(5, legacy)] [] 6 [].

End Ex4.

(** Every settlement stored in [db] is still stored in [db'], under the
    same identifier, as the same debt, and paid if it was paid. *)
Definition settlementsKept (db db' : Db) : Prop :=
  forall (i : docid) (s : Settlement.t),
    lookup Nat.eqb i (settlements db) = Some s ->
    exists s',
      lookup Nat.eqb i (settlements db') = Some s'
      /\ sameDebt s s'
      /\ (Settlement.status s = paid -> Settlement.status s' = paid).

(** * Properties *)

(** ** The state monad *)

Lemma run_bind {A B : Type} (m : M A) (k : A -> M B) (db : Db) :
  run (bind m k) db = run (k (result m db)) (run m db).
Proof.
  unfold run, result, bind. destruct (m db) as [a db']. reflexivity.
Qed.

Lemma result_bind {A B : Type} (m : M A) (k : A -> M B) (db : Db) :
  result (bind m k) db = result (k (result m db)) (run m db).
Proof.
  unfold run, result, bind. destruct (m db) as [a db']. reflexivity.
Qed.

Lemma run_ret {A : Type} (a : A) (db : Db) : run (ret a) db = db.
Proof. reflexivity. Qed.

(** ** Numbered documents *)

Lemma numbered_cons {A : Type} (n : docid) (x : A) (l : list A) :
  numbered n (x :: l) = (n, x) :: numbered (S n) l.
Proof. reflexivity. Qed.

Lemma map_snd_numbered {A : Type} (l : list A) (n : docid) :
  map snd (numbered n l) = l.
Proof.
  revert n. induction l as [|x l IH]; intro n; [reflexivity|].
  rewrite numbered_cons. simpl. now rewrite IH.
Qed.

(** ** [calculateSettlements] writes [recordsFor], in order *)

Lemma added_nil (db : Db) : added db [] = db.
Proof.
  destruct db. unfold added. simpl.
  now rewrite !app_nil_r, Nat.add_0_r.
Qed.

Lemma added_cons (db : Db) (r : Settlement.t) (rs : list Settlement.t) :
  added db (r :: rs) = added (run (addSettlement r) db) rs.
Proof.
  unfold added, run, addSettlement. simpl.
  rewrite numbered_cons, <- !app_assoc. simpl.
  now rewrite Nat.add_succ_r.
Qed.

Lemma added_app (db : Db) (r1 r2 : list Settlement.t) :
  added db (r1 ++ r2) = added (added db r1) r2.
Proof.
  revert db. induction r1 as [|r r1 IH]; intro db; simpl.
  - now rewrite added_nil.
  - now rewrite !added_cons, IH.
Qed.

Lemma forEntries_run (now : string) (g : docid) (e : Expense.t)
  (es : list (string * Js.number)) (db : Db) :
  run (Analytics.forEntries now g e es) db
  = added db
      (map (fun kv => Analytics.settlementData now g e (fst kv) (snd kv))
           (filter (fun kv => negb (fst kv =? Expense.paidBy e)) es)).
Proof.
  revert db. induction es as [|[memberId amount] es IH]; intro db.
  - simpl. now rewrite added_nil.
  - simpl. destruct (memberId =? Expense.paidBy e); simpl.
    + apply IH.
    + rewrite run_bind, IH, added_cons. reflexivity.
Qed.

Lemma calculateSettlements_run (now : string) (g : docid) (e : Expense.t)
  (db : Db) :
  run (Analytics.calculateSettlements now g e) db
  = added db (recordsFor now g e).
Proof.
  unfold Analytics.calculateSettlements, recordsFor.
  rewrite run_bind, forEntries_run, added_app.
  unfold Js.entries.
  destruct (Js.gt (Analytics.totalOwed e) 0%float).
  - rewrite run_bind, run_ret, added_cons, added_nil. reflexivity.
  - now rewrite run_ret, added_nil.
Qed.

(** On the shares the claim speaks about (non-payer and strictly positive)
    the loop and the reference list agree: when no non-payer share is
    non-positive, the records written are exactly the directed records of
    the positive non-payer shares followed by the payer's record. *)
Lemma recordsFor_positive_shares (now : string) (g : docid) (e : Expense.t) :
  Forall (fun kv => fst kv = Expense.paidBy e \/ Js.gt (snd kv) 0%float = true)
         (Analytics.splitAmountsOf e) ->
  recordsFor now g e
  = map (fun kv => Analytics.settlementData now g e (fst kv) (snd kv))
        (filter (fun kv => negb (fst kv =? Expense.paidBy e)
                           && Js.gt (snd kv) 0%float)
                (Analytics.splitAmountsOf e))
    ++ (if Js.gt (Analytics.totalOwed e) 0%float
        then [Analytics.payerSettlement now g e]
        else []).
Proof.
  intro H. unfold recordsFor. f_equal. f_equal.
  induction H as [|[k v] l Hkv _ IH]; [reflexivity|].
  simpl in *. rewrite IH.
  destruct Hkv as [Hk | Hv].
  - subst k. now rewrite String.eqb_refl.
  - rewrite Hv, andb_true_r. reflexivity.
Qed.

(** C1 (evaluation at the failing input): for the custom split
    [{P: 60, M1: 40, M2: 0}] paid by [P], [calculateSettlements] writes three
    records; the second one is a pending settlement of amount [0] for [M2],
    although a share of [0] is not strictly positive. *)
Theorem calculateSettlements_records_zero_share :
  map snd (settlements
             (run (Analytics.calculateSettlements "t2" 0 Ex.blankShare)
                  empty_db))
  = [ Settlement.mk 0 (Some 7) Ex.M1 Ex.P 40%float "Dinner" pending "t2"
                    None None;
      Settlement.mk 0 (Some 7) Ex.M2 Ex.P 0%float "Dinner" pending "t2"
                    None None;
      Settlement.mk 0 (Some 7) Ex.P Ex.P (-40)%float "Dinner" pending "t2"
                    None None ]
  /\ Js.gt 0%float 0%float = false.
Proof. split; reflexivity. Qed.

(** ** Recording the settlements of one expense twice *)

Lemma countTriple_app (t : uid * uid * option docid)
  (l1 l2 : list Settlement.t) :
  countTriple t (l1 ++ l2) = countTriple t l1 + countTriple t l2.
Proof.
  unfold countTriple. now rewrite filter_app, length_app.
Qed.

Lemma triple_settlementData (now1 now2 : string) (g : docid) (e : Expense.t)
  (m : uid) (a : Js.number) :
  triple (Analytics.settlementData now1 g e m a)
  = triple (Analytics.settlementData now2 g e m a).
Proof. reflexivity. Qed.

Lemma countTriple_recordsFor (t : uid * uid * option docid)
  (now1 now2 : string) (g : docid) (e : Expense.t) :
  countTriple t (recordsFor now1 g e) = countTriple t (recordsFor now2 g e).
Proof.
  unfold recordsFor. rewrite !countTriple_app. f_equal.
  - induction (filter _ (Analytics.splitAmountsOf e)) as [|kv l IH];
      [reflexivity|].
    unfold countTriple in *. simpl.
    rewrite (triple_settlementData now1 now2).
    destruct (triple_eqb _ t); simpl; now rewrite IH.
  - destruct (Js.gt _ _); [|reflexivity].
    unfold countTriple, Analytics.payerSettlement. simpl.
    rewrite (triple_settlementData now1 now2).
    now destruct (triple_eqb _ t).
Qed.

(** C5 (counterexample): recording the settlements of the expense
    [Ex.blankShare] (id 7) twice leaves two records for the triple
    (M1, P, 7), so the store does not hold at most one record per triple. *)
Lemma calculateSettlements_twice_duplicates :
  ~ atMostOnePerTriple
      (run (Analytics.calculateSettlements "t3" 0 Ex.blankShare)
         (run (Analytics.calculateSettlements "t2" 0 Ex.blankShare)
              empty_db)).
Proof.
  intro H. specialize (H (Ex.M1, Ex.P, Some 7)).
  vm_compute in H. lia.
Qed.

(** C5 (amended): [calculateSettlements] never looks at the stored records;
    a second run for the same expense appends the records of the first run
    once more under fresh identifiers, so every (debtor, creditor, expense)
    triple written by one run occurs twice as often after two. *)
Theorem calculateSettlements_twice_appends :
  forall (now1 now2 : string) (g : docid) (e : Expense.t) (db : Db),
    let db2 := run (Analytics.calculateSettlements now2 g e)
                   (run (Analytics.calculateSettlements now1 g e) db) in
    settlements db2
    = settlements db
      ++ numbered (nextId db) (recordsFor now1 g e)
      ++ numbered (nextId db + List.length (recordsFor now1 g e))
                  (recordsFor now2 g e)
    /\ forall t,
         countTriple t (map snd (settlements db2))
         = countTriple t (map snd (settlements db))
           + 2 * countTriple t (recordsFor now1 g e).
Proof.
  intros now1 now2 g e db db2. subst db2.
  rewrite !calculateSettlements_run.
  assert (Hs : settlements (added (added db (recordsFor now1 g e))
                                  (recordsFor now2 g e))
               = settlements db
                 ++ numbered (nextId db) (recordsFor now1 g e)
                 ++ numbered (nextId db + List.length (recordsFor now1 g e))
                             (recordsFor now2 g e)).
  { unfold added. simpl. now rewrite <- app_assoc. }
  split; [exact Hs|].
  intro t. rewrite Hs, !map_app, !map_snd_numbered, !countTriple_app.
  rewrite (countTriple_recordsFor t now2 now1). lia.
Qed.

(** ** The dashboard balances *)







(** ** [addExpense]: the split *)

Lemma get_set_same {V : Type} (k : string) (v : V) (o : Js.obj V) :
  Js.get k (Js.set k v o) = Some v.
Proof.
  induction o as [|[k' v'] o IH]; simpl.
  - now rewrite String.eqb_refl.
  - destruct (k' =? k) eqn:E; simpl.
    + now rewrite String.eqb_refl.
    + now rewrite E.
Qed.

Lemma get_set_other {V : Type} (k k0 : string) (v : V) (o : Js.obj V) :
  k0 <> k -> Js.get k (Js.set k0 v o) = Js.get k o.
Proof.
  intro Hne. induction o as [|[k' v'] o IH]; simpl.
  - destruct (k0 =? k) eqn:E; [|reflexivity].
    apply String.eqb_eq in E. contradiction.
  - destruct (k' =? k0) eqn:E0; simpl.
    + apply String.eqb_eq in E0. subst k'.
      destruct (k0 =? k) eqn:E; [|reflexivity].
      apply String.eqb_eq in E. contradiction.
    + destruct (k' =? k); [reflexivity|exact IH].
Qed.

(** Assigning the same value to every key of a list. *)
Lemma get_assign_all (v : Js.number) (l : list uid) (o : Js.obj Js.number)
  (k : uid) :
  Js.get k (fold_left (fun acc m => Js.set m v acc) l o)
  = if Js.includes k l then Some v else Js.get k o.
Proof.
  revert o. induction l as [|m l IH]; intro o; [reflexivity|].
  change (Js.includes k (m :: l)) with ((k =? m) || Js.includes k l).
  simpl. rewrite IH.
  destruct (Js.includes k l) eqn:El.
  - now rewrite orb_true_r.
  - rewrite orb_false_r.
    destruct (k =? m) eqn:E.
    + apply String.eqb_eq in E. subst m. apply get_set_same.
    + apply get_set_other. intro H. subst m.
      now rewrite String.eqb_refl in E.
Qed.

Lemma includes_In (k : string) (l : list string) :
  Js.includes k l = true <-> In k l.
Proof.
  unfold Js.includes. rewrite existsb_exists. split.
  - intros [x [Hx E]]. apply String.eqb_eq in E. now subst x.
  - intro H. exists k. split; [exact H|apply String.eqb_refl].
Qed.

Lemma equalSplit_get (amount : Js.number) (selected : list uid) (m : uid) :
  Js.get m (ExpensesPage.equalSplit amount selected)
  = if Js.includes m selected
    then Some (PrimFloat.div amount (Js.of_nat (List.length selected)))
    else None.
Proof. unfold ExpensesPage.equalSplit. now rewrite get_assign_all. Qed.

(** [awardXP] only touches the user documents. *)
Lemma awardXP_frame (u : uid) (points : nat) (db : Db) :
  groups (run (Analytics.awardXP u points) db) = groups db
  /\ expenses (run (Analytics.awardXP u points) db) = expenses db
  /\ settlements (run (Analytics.awardXP u points) db) = settlements db
  /\ nextId (run (Analytics.awardXP u points) db) = nextId db.
Proof.
  unfold Analytics.awardXP, run.
  destruct (lookup String.eqb u (users db)); [|now simpl].
  unfold bind, Analytics.updateUser, Analytics.checkBadges. simpl.
  destruct (lookup String.eqb u _); [|now simpl].
  destruct (map fst _); now simpl.
Qed.

(** The successful path of [addExpense]: the expense document, then its
    settlements, then the experience points of the payer. *)
Lemma addExpense_success (now : string) (f : ExpensesPage.Form) (db : Db)
  (splitAmounts : Js.obj Js.number) (g : docid) :
  ExpensesPage.selectedMembers f <> [] ->
  ExpensesPage.computeSplit f = inl splitAmounts ->
  ExpensesPage.expenseGroup f = Some g ->
  let e := ExpensesPage.expenseData now f g (groupNameOf db g) splitAmounts in
  result (ExpensesPage.addExpense now f) db = ExpensesPage.ExpenseAdded (nextId db)
  /\ expenses (run (ExpensesPage.addExpense now f) db)
     = expenses db ++ [(nextId db, e)]
  /\ settlements (run (ExpensesPage.addExpense now f) db)
     = settlements db
       ++ numbered (S (nextId db))
            (recordsFor now g (ExpensesPage.withId (nextId db) e)).
Proof.
  intros Hsel Hsplit Hg e.
  unfold ExpensesPage.addExpense.
  destruct (ExpensesPage.selectedMembers f) as [|m0 ms]; [contradiction|].
  rewrite Hsplit, Hg.
  rewrite !result_bind, !run_bind.
  change (result (getGroup g) db) with (lookup Nat.eqb g (groups db)).
  change (run (getGroup g) db) with db.
  fold (groupNameOf db g). fold e.
  rewrite ?result_bind, ?run_bind.
  destruct (awardXP_frame (ExpensesPage.expensePaidBy f) 10
              (run (Analytics.calculateSettlements now g
                      (ExpensesPage.withId (result (addExpenseDoc e) db) e))
                   (run (addExpenseDoc e) db)))
    as (_ & He & Hs & _).
  rewrite run_ret, He, Hs, calculateSettlements_run.
  repeat split.
Qed.

Lemma addExpense_added_inv (now : string) (f : ExpensesPage.Form) (db : Db)
  (id : docid) :
  result (ExpensesPage.addExpense now f) db = ExpensesPage.ExpenseAdded id ->
  ExpensesPage.selectedMembers f <> []
  /\ exists splitAmounts g,
       ExpensesPage.computeSplit f = inl splitAmounts
       /\ ExpensesPage.expenseGroup f = Some g.
Proof.
  unfold ExpensesPage.addExpense. intro H.
  destruct (ExpensesPage.selectedMembers f) as [|m0 ms]; [discriminate|].
  split; [discriminate|].
  destruct (ExpensesPage.computeSplit f) as [o|t]; [|discriminate].
  destruct (ExpensesPage.expenseGroup f) as [g|]; [|discriminate].
  now exists o, g.
Qed.

(** C3 (counterexample): the expense of 300 recorded under the equal policy
    for the selected members [P], [M1], [M2] with payer [P] stores the
    mapping [{P: 100, M1: 100, M2: 100}]: [M1] is not assigned 300 / 2, and
    the payer is a key with the positive share 100. *)
Lemma equal_split_counts_payer :
  exists e o,
    lookup Nat.eqb 1 (expenses Ex.db300) = Some e
    /\ Expense.splitAmounts e = Some o
    /\ ~ equalPolicyAsClaimed Ex.form300 o.
Proof.
  eexists. eexists. split; [vm_compute; reflexivity|].
  split; [reflexivity|].
  intros [_ H]. specialize (H 100%float eq_refl). vm_compute in H.
  discriminate H.
Qed.

(** C3 (amended): under the equal policy every selected member, the payer
    included when selected, is assigned the expense amount divided by the
    number of selected members, and nobody else is a key of the stored
    mapping. *)
Theorem addExpense_equal_split :
  forall (now : string) (f : ExpensesPage.Form) (db : Db) (id : docid),
    ExpensesPage.splitType f = "equal" ->
    result (ExpensesPage.addExpense now f) db = ExpensesPage.ExpenseAdded id ->
    exists e o,
      expenses (run (ExpensesPage.addExpense now f) db)
      = expenses db ++ [(id, e)]
      /\ Expense.splitAmounts e = Some o
      /\ (forall m, In m (ExpensesPage.selectedMembers f) ->
                    Js.get m o
                    = Some (PrimFloat.div (ExpensesPage.expenseAmount f)
                              (Js.of_nat (List.length
                                 (ExpensesPage.selectedMembers f)))))
      /\ (forall m, ~ In m (ExpensesPage.selectedMembers f) ->
                    Js.get m o = None).
Proof.
  intros now f db id Heq Hres.
  destruct (addExpense_added_inv now f db id Hres) as (Hne & o & g & Ho & Hg).
  assert (Ho' : o = ExpensesPage.equalSplit (ExpensesPage.expenseAmount f)
                                            (ExpensesPage.selectedMembers f)).
  { unfold ExpensesPage.computeSplit in Ho. rewrite Heq in Ho.
    simpl in Ho. now inversion Ho. }
  destruct (addExpense_success now f db o g Hne Ho Hg) as (Hr & He & _).
  rewrite Hr in Hres. injection Hres as Hid. subst id.
  eexists. exists o. split; [exact He|]. split; [reflexivity|].
  subst o. split; intros m Hm; rewrite equalSplit_get.
  - apply includes_In in Hm. now rewrite Hm.
  - destruct (Js.includes m (ExpensesPage.selectedMembers f)) eqn:E;
      [|reflexivity].
    apply includes_In in E. contradiction.
Qed.

(** C3 (witness): the 300 example, recorded in the example group. *)
Lemma addExpense_equal_split_witness :
  exists e o,
    expenses (run (ExpensesPage.addExpense "t1" Ex.form300) Ex.db_group)
    = expenses Ex.db_group ++ [(1, e)]
    /\ Expense.splitAmounts e = Some o
    /\ (forall m, In m (ExpensesPage.selectedMembers Ex.form300) ->
                  Js.get m o
                  = Some (PrimFloat.div (ExpensesPage.expenseAmount Ex.form300)
                            (Js.of_nat (List.length
                               (ExpensesPage.selectedMembers Ex.form300)))))
    /\ (forall m, ~ In m (ExpensesPage.selectedMembers Ex.form300) ->
                  Js.get m o = None).
Proof.
  apply (addExpense_equal_split "t1" Ex.form300 Ex.db_group 1).
  - reflexivity.
  - vm_compute. reflexivity.
Defined.

(** ** [addExpense]: the custom split check *)

Lemma customSplit_total (custom : uid -> Js.number) (selected : list uid)
  (o : Js.obj Js.number) (a : Js.number) :
  snd (fold_left
         (fun acc memberId =>
            let customAmount := Js.or_zero (custom memberId) in
            (Js.set memberId customAmount (fst acc),
             PrimFloat.add (snd acc) customAmount))
         selected (o, a))
  = fold_left PrimFloat.add (map (fun m => Js.or_zero (custom m)) selected) a.
Proof.
  revert o a. induction selected as [|m l IH]; intros o a; [reflexivity|].
  simpl. apply IH.
Qed.

Lemma computeSplit_mismatch (f : ExpensesPage.Form) :
  (ExpensesPage.splitType f =? "equal") = false ->
  Js.gt (PrimFloat.abs
           (PrimFloat.sub (suppliedTotal f) (ExpensesPage.expenseAmount f)))
        0.01%float = true ->
  ExpensesPage.computeSplit f = inr (suppliedTotal f).
Proof.
  intros Hcustom Hdiff.
  unfold ExpensesPage.computeSplit. rewrite Hcustom.
  destruct (ExpensesPage.customSplit (ExpensesPage.custom f)
                                     (ExpensesPage.selectedMembers f))
    as [o total] eqn:Hcs.
  assert (Ht : total = suppliedTotal f).
  { transitivity (snd (ExpensesPage.customSplit
                           (ExpensesPage.custom f)
                           (ExpensesPage.selectedMembers f))).
    - now rewrite Hcs.
    - unfold ExpensesPage.customSplit. apply customSplit_total. }
  now rewrite Ht, Hdiff.
Qed.

(** C4: a custom split whose supplied shares sum to a value that differs
    from the expense amount by more than 0.01 is rejected with a validation
    error and the store is left exactly as it was: no expense, no
    settlement, no other write. *)
Theorem addExpense_custom_mismatch :
  forall (now : string) (f : ExpensesPage.Form) (db : Db),
    (ExpensesPage.splitType f =? "equal") = false ->
    Js.gt (PrimFloat.abs
             (PrimFloat.sub (suppliedTotal f) (ExpensesPage.expenseAmount f)))
          0.01%float = true ->
    ExpensesPage.validationError
      (result (ExpensesPage.addExpense now f) db) = true
    /\ run (ExpensesPage.addExpense now f) db = db.
Proof.
  intros now f db Hcustom Hdiff.
  unfold ExpensesPage.addExpense.
  rewrite (computeSplit_mismatch f Hcustom Hdiff).
  destruct (ExpensesPage.selectedMembers f); split; reflexivity.
Qed.

(** C4 (witness): shares of 50 and 40 supplied for an amount of 100. *)
Lemma addExpense_custom_mismatch_witness :
  ExpensesPage.validationError
    (result (ExpensesPage.addExpense "t1" Ex.form90) Ex.db_group) = true
  /\ run (ExpensesPage.addExpense "t1" Ex.form90) Ex.db_group = Ex.db_group.
Proof.
  apply (addExpense_custom_mismatch "t1" Ex.form90 Ex.db_group);
    vm_compute; reflexivity.
Defined.

(** ** Lookups after updates *)

Lemma lookup_update_same {V : Type} (k : docid) (f : V -> V)
  (l : list (docid * V)) :
  lookup Nat.eqb k (update Nat.eqb k f l)
  = option_map f (lookup Nat.eqb k l).
Proof.
  induction l as [|[k' v] l IH]; [reflexivity|].
  simpl. destruct (Nat.eqb k' k) eqn:E; simpl; rewrite E; [reflexivity|exact IH].
Qed.

Lemma lookup_update_other {V : Type} (k k0 : docid) (f : V -> V)
  (l : list (docid * V)) :
  k0 <> k ->
  lookup Nat.eqb k (update Nat.eqb k0 f l) = lookup Nat.eqb k l.
Proof.
  intro Hne. induction l as [|[k' v] l IH]; [reflexivity|].
  simpl. destruct (Nat.eqb k' k0) eqn:E0; simpl.
  - apply Nat.eqb_eq in E0. subst k'.
    destruct (Nat.eqb k0 k) eqn:E; [|reflexivity].
    apply Nat.eqb_eq in E. contradiction.
  - destruct (Nat.eqb k' k); [reflexivity|exact IH].
Qed.

Lemma update_twice {V : Type} (k : docid) (f : V -> V) (l : list (docid * V)) :
  (forall v, f (f v) = f v) ->
  update Nat.eqb k f (update Nat.eqb k f l) = update Nat.eqb k f l.
Proof.
  intro Hf. induction l as [|[k' v] l IH]; [reflexivity|].
  simpl. destruct (Nat.eqb k' k) eqn:E; simpl; rewrite E.
  - now rewrite Hf.
  - now rewrite IH.
Qed.

Lemma map_fst_update {V : Type} (k : docid) (f : V -> V)
  (l : list (docid * V)) :
  map fst (update Nat.eqb k f l) = map fst l.
Proof.
  induction l as [|[k' v] l IH]; [reflexivity|].
  simpl. destruct (Nat.eqb k' k); simpl; [reflexivity|now rewrite IH].
Qed.

Lemma set_twice {V : Type} (k : string) (v : V) (o : Js.obj V) :
  Js.set k v (Js.set k v o) = Js.set k v o.
Proof.
  induction o as [|[k' v'] o IH]; simpl.
  - now rewrite String.eqb_refl.
  - destruct (k' =? k) eqn:E; simpl.
    + now rewrite String.eqb_refl.
    + now rewrite E, IH.
Qed.

(** ** Marking a debt paid *)

Lemma expense_settlePayment_own (db : Db) (me : uid) (i : docid)
  (e : Expense.t) :
  lookup Nat.eqb i (expenses db) = Some e ->
  me = Expense.paidBy e ->
  ExpenseDetails.settlePayment (Some me) i db = (ExpenseDetails.OwnExpense, db).
Proof.
  intros He Hme. unfold ExpenseDetails.settlePayment.
  rewrite He. subst me. now rewrite String.eqb_refl.
Qed.

Lemma expense_settlePayment_other (db : Db) (me : uid) (i : docid)
  (e : Expense.t) :
  lookup Nat.eqb i (expenses db) = Some e ->
  me <> Expense.paidBy e ->
  ExpenseDetails.settlePayment (Some me) i db
  = (ExpenseDetails.Settled,
     mkDb (users db) (groups db)
          (update Nat.eqb i
             (ExpenseDetails.withStatus (ExpenseDetails.markedPaid e me))
             (expenses db))
          (settlements db) (nextId db)
          (writes db ++ [Updated Expenses i])).
Proof.
  intros He Hme. unfold ExpenseDetails.settlePayment.
  rewrite He.
  destruct (me =? Expense.paidBy e) eqn:E.
  - apply String.eqb_eq in E. contradiction.
  - reflexivity.
Qed.

Lemma markSettlementPaid_found (db : Db) (now paymentId : string)
  (i : docid) (s : Settlement.t) :
  lookup Nat.eqb i (settlements db) = Some s ->
  Payments.markSettlementPaid now paymentId i db
  = (true,
     mkDb (users db) (groups db) (expenses db)
          (update Nat.eqb i (Payments.asPaid now paymentId) (settlements db))
          (nextId db) (writes db ++ [Updated Settlements i])).
Proof.
  intro Hs. unfold Payments.markSettlementPaid. now rewrite Hs.
Qed.

Lemma handlePaymentSuccess_found (db : Db) (user : option uid)
  (now paymentId : string) (i : docid) (s : Settlement.t) :
  lookup Nat.eqb i (settlements db) = Some s ->
  result (Payments.handlePaymentSuccess user now paymentId i) db
  = Payments.PaymentRecorded
  /\ settlements (run (Payments.handlePaymentSuccess user now paymentId i) db)
     = update Nat.eqb i (Payments.asPaid now paymentId) (settlements db)
  /\ expenses (run (Payments.handlePaymentSuccess user now paymentId i) db)
     = expenses db.
Proof.
  intro Hs. unfold Payments.handlePaymentSuccess, bind, run, result.
  rewrite (markSettlementPaid_found db now paymentId i s Hs).
  destruct user as [u|]; [|repeat split].
  match goal with
  | |- context [Analytics.awardXP u 20 ?d] =>
      pose proof (awardXP_frame u 20 d) as H; unfold run in H;
      destruct (Analytics.awardXP u 20 d) as [x d']
  end.
  simpl in *. destruct H as (_ & He & Hst & _).
  rewrite He, Hst. repeat split.
Qed.

Lemma dashboard_settlePayment_found (db : Db) (caller : uid)
  (now paymentId : string) (i : docid) (s : Settlement.t) :
  lookup Nat.eqb i (settlements db) = Some s ->
  Dashboard.settlePayment (Some caller) true now paymentId i db
  = (Dashboard.Paid
       (result (Payments.handlePaymentSuccess (Some caller) now paymentId i) db),
     run (Payments.handlePaymentSuccess (Some caller) now paymentId i) db).
Proof.
  intro Hs. unfold Dashboard.settlePayment. rewrite Hs.
  unfold Payments.initiatePayment, bind, ret, run, result.
  now destruct (Payments.handlePaymentSuccess (Some caller) now paymentId i db).
Qed.

Lemma dashboard_pays (db : Db) (caller : uid) (now paymentId : string)
  (i : docid) (s : Settlement.t) :
  lookup Nat.eqb i (settlements db) = Some s ->
  result (Dashboard.settlePayment (Some caller) true now paymentId i) db
  = Dashboard.Paid Payments.PaymentRecorded
  /\ settlements
       (run (Dashboard.settlePayment (Some caller) true now paymentId i) db)
     = update Nat.eqb i (Payments.asPaid now paymentId) (settlements db).
Proof.
  intro Hs. unfold run at 1, result at 1.
  rewrite (dashboard_settlePayment_found db caller now paymentId i s Hs).
  destruct (handlePaymentSuccess_found db (Some caller) now paymentId i s Hs)
    as (Hr & Hst & _).
  cbn [fst snd]. now rewrite Hr, Hst.
Qed.

(** C6 (counterexample): in the 300 example [M2], who is not the debtor of
    the settlement stored under identifier 2 (its debtor is [M1]), pays it
    from the dashboard; the call is not turned away and the record becomes
    paid. *)
Lemma non_debtor_marks_paid : ~ onlyDebtorMarksPaid.
Proof.
  intro H.
  destruct (H Ex.db300 Ex.M2 "t2" "demo_payment_2" 2
              (Settlement.mk 0 (Some 1) Ex.M1 Ex.P 100%float "Trip" pending
                             "t1" None None))
    as [Hr _].
  - vm_compute. reflexivity.
  - intro E. discriminate E.
  - vm_compute in Hr. discriminate Hr.
Qed.

(** C6 (amended): on the expense page the payer of the expense is turned
    away and nothing is written; any other signed-in caller succeeds and
    sets only their own entry of the expense's status map to paid, and
    doing so again succeeds and leaves the stored expenses as they were.
    On the dashboard payment flow the settlement is marked paid whoever the
    signed-in caller is, and paying it again succeeds with the status still
    paid. *)
Theorem markPaid_behaviour :
  (forall (db : Db) (me : uid) (i : docid) (e : Expense.t),
      lookup Nat.eqb i (expenses db) = Some e ->
      me = Expense.paidBy e ->
      ExpenseDetails.settlePayment (Some me) i db
      = (ExpenseDetails.OwnExpense, db))
  /\ (forall (db : Db) (me : uid) (i : docid) (e : Expense.t),
      lookup Nat.eqb i (expenses db) = Some e ->
      me <> Expense.paidBy e ->
      let db1 := run (ExpenseDetails.settlePayment (Some me) i) db in
      result (ExpenseDetails.settlePayment (Some me) i) db
      = ExpenseDetails.Settled
      /\ (exists e1,
             lookup Nat.eqb i (expenses db1) = Some e1
             /\ Js.get me (statusMap e1) = Some paid
             /\ forall other, other <> me ->
                  Js.get other (statusMap e1) = Js.get other (statusMap e))
      /\ result (ExpenseDetails.settlePayment (Some me) i) db1
         = ExpenseDetails.Settled
      /\ expenses (run (ExpenseDetails.settlePayment (Some me) i) db1)
         = expenses db1)
  /\ (forall (db : Db) (caller : uid) (now paymentId : string) (i : docid)
             (s : Settlement.t),
      lookup Nat.eqb i (settlements db) = Some s ->
      let pay := fun n p => Dashboard.settlePayment (Some caller) true n p i in
      let db1 := run (pay now paymentId) db in
      result (pay now paymentId) db = Dashboard.Paid Payments.PaymentRecorded
      /\ option_map Settlement.status (lookup Nat.eqb i (settlements db1))
         = Some paid
      /\ forall now' paymentId',
           result (pay now' paymentId') db1
           = Dashboard.Paid Payments.PaymentRecorded
           /\ option_map Settlement.status
                (lookup Nat.eqb i (settlements (run (pay now' paymentId') db1)))
              = Some paid).
Proof.
  split; [exact expense_settlePayment_own|]. split.
  - intros db me i e He Hme db1. subst db1. unfold run, result.
    rewrite (expense_settlePayment_other db me i e He Hme). cbn [fst snd].
    set (st := ExpenseDetails.markedPaid e me).
    set (db1 := mkDb _ _ _ _ _ _).
    change (expenses db1)
      with (update Nat.eqb i (ExpenseDetails.withStatus st) (expenses db)).
    assert (He1 : lookup Nat.eqb i
                    (update Nat.eqb i (ExpenseDetails.withStatus st)
                            (expenses db))
                  = Some (ExpenseDetails.withStatus st e)).
    { now rewrite lookup_update_same, He. }
    split; [reflexivity|]. split.
    + exists (ExpenseDetails.withStatus st e). split; [exact He1|].
      unfold statusMap. simpl. subst st. unfold ExpenseDetails.markedPaid.
      split; [apply get_set_same|].
      intros other Hother. apply get_set_other. congruence.
    + rewrite (expense_settlePayment_other db1 me i
                 (ExpenseDetails.withStatus st e) He1 Hme).
      cbn [fst snd expenses]. split; [reflexivity|].
      change (expenses db1)
        with (update Nat.eqb i (ExpenseDetails.withStatus st) (expenses db)).
      assert (Hst : ExpenseDetails.markedPaid (ExpenseDetails.withStatus st e) me
                    = st).
      { unfold ExpenseDetails.markedPaid at 1. simpl. subst st.
        apply set_twice. }
      rewrite Hst. now apply update_twice.
  - intros db caller now paymentId i s Hs pay db1. subst pay db1.
    destruct (dashboard_pays db caller now paymentId i s Hs) as [Hr Hst].
    assert (Hs1 : lookup Nat.eqb i
                    (settlements
                       (run (Dashboard.settlePayment (Some caller) true now
                               paymentId i) db))
                  = Some (Payments.asPaid now paymentId s)).
    { now rewrite Hst, lookup_update_same, Hs. }
    split; [exact Hr|]. split; [now rewrite Hs1|].
    intros now' paymentId'.
    destruct (dashboard_pays _ caller now' paymentId' i _ Hs1) as [Hr' Hst'].
    split; [exact Hr'|].
    now rewrite Hst', lookup_update_same, Hs1.
Qed.

(** ** What marking a debt paid does to the expense documents *)

Lemma handlePaymentSuccess_expenses (db : Db) (user : option uid)
  (now paymentId : string) (i : docid) :
  expenses (run (Payments.handlePaymentSuccess user now paymentId i) db)
  = expenses db.
Proof.
  destruct (lookup Nat.eqb i (settlements db)) as [s|] eqn:Hs.
  - now destruct (handlePaymentSuccess_found db user now paymentId i s Hs)
      as (_ & _ & He).
  - unfold Payments.handlePaymentSuccess, bind, run,
      Payments.markSettlementPaid.
    now rewrite Hs.
Qed.

Lemma dashboard_settlePayment_expenses (db : Db) (currentUser : option uid)
  (confirmed : bool) (now paymentId : string) (i : docid) :
  expenses
    (run (Dashboard.settlePayment currentUser confirmed now paymentId i) db)
  = expenses db.
Proof.
  unfold Dashboard.settlePayment, run.
  destruct (lookup Nat.eqb i (settlements db)); [|reflexivity].
  destruct currentUser as [u|]; [|reflexivity].
  unfold Payments.initiatePayment.
  destruct confirmed; [|reflexivity].
  pose proof (handlePaymentSuccess_expenses db (Some u) now paymentId i) as H.
  unfold run in H. unfold bind, ret.
  now destruct (Payments.handlePaymentSuccess (Some u) now paymentId i db).
Qed.

(** C7 (counterexample): in the 300 example [M1] settles their share from the
    expense page; the stored expense document 1 is not what it was, since
    it now carries the status map [{M1: paid}]. *)
Lemma expense_document_changes_on_settle :
  lookup Nat.eqb 1
    (expenses (run (ExpenseDetails.settlePayment (Some Ex.M1) 1) Ex.db300))
  <> lookup Nat.eqb 1 (expenses Ex.db300).
Proof.
  intro H.
  apply (f_equal (option_map Expense.settlementStatus)) in H.
  vm_compute in H. discriminate H.
Qed.

(** C7 (amended): marking a debt paid from the expense page rewrites the
    [settlementStatus] field of that one expense document and nothing else:
    the set of expense documents, every other field of every document and
    every other document are unchanged; marking a settlement paid through
    the payment flow leaves the expense documents untouched. *)
Theorem settle_preserves_expense_fields :
  (forall (db : Db) (me : option uid) (i : docid),
      let db1 := run (ExpenseDetails.settlePayment me i) db in
      map fst (expenses db1) = map fst (expenses db)
      /\ forall j,
           option_map withoutStatus (lookup Nat.eqb j (expenses db1))
           = option_map withoutStatus (lookup Nat.eqb j (expenses db))
           /\ (j <> i ->
               lookup Nat.eqb j (expenses db1) = lookup Nat.eqb j (expenses db)))
  /\ (forall (db : Db) (user : option uid) (now paymentId : string) (i : docid),
      expenses (run (Payments.handlePaymentSuccess user now paymentId i) db)
      = expenses db)
  /\ (forall (db : Db) (currentUser : option uid) (confirmed : bool)
             (now paymentId : string) (i : docid),
      expenses
        (run (Dashboard.settlePayment currentUser confirmed now paymentId i) db)
      = expenses db).
Proof.
  split; [|split; [exact handlePaymentSuccess_expenses
                  |exact dashboard_settlePayment_expenses]].
  intros db me i db1. subst db1.
  destruct me as [me|]; [|now split].
  destruct (lookup Nat.eqb i (expenses db)) as [e|] eqn:He.
  2:{ unfold run, ExpenseDetails.settlePayment. rewrite He. now split. }
  destruct (String.eqb_spec me (Expense.paidBy e)) as [Hme|Hme].
  { unfold run. rewrite (expense_settlePayment_own db me i e He Hme).
    now split. }
  unfold run. rewrite (expense_settlePayment_other db me i e He Hme).
  cbn [snd expenses]. split; [apply map_fst_update|].
  intro j. destruct (Nat.eq_dec i j) as [Hij|Hij].
  - subst j. rewrite lookup_update_same, He. split; [reflexivity|].
    intro H. contradiction.
  - rewrite (lookup_update_other j i _ _ Hij). split; [reflexivity|].
    reflexivity.
Qed.

(** ** [deleteGroup] *)

Lemma deleteAll_run (ids : list docid) (db : Db) :
  run (GroupsPage.deleteAll ids) db
  = mkDb (users db) (groups db)
         (fold_left (fun l i => remove Nat.eqb i l) ids (expenses db))
         (settlements db) (nextId db)
         (writes db ++ map (Deleted Expenses) ids).
Proof.
  revert db. induction ids as [|i ids IH]; intro db.
  - destruct db. unfold run. simpl. now rewrite app_nil_r.
  - simpl. rewrite run_bind, IH.
    unfold run, GroupsPage.deleteExpenseDoc. simpl.
    now rewrite <- app_assoc.
Qed.

Lemma In_remove {V : Type} (i : docid) (l : list (docid * V))
  (kv : docid * V) :
  In kv (remove Nat.eqb i l) <-> In kv l /\ fst kv <> i.
Proof.
  unfold remove. rewrite filter_In, negb_true_iff, Nat.eqb_neq. tauto.
Qed.

Lemma In_remove_all {V : Type} (ids : list docid) (l : list (docid * V))
  (kv : docid * V) :
  In kv (fold_left (fun l i => remove Nat.eqb i l) ids l)
  <-> In kv l /\ ~ In (fst kv) ids.
Proof.
  revert l. induction ids as [|i ids IH]; intro l; simpl.
  - tauto.
  - rewrite IH, In_remove. intuition congruence.
Qed.

Lemma lookup_remove_same {V : Type} (i : docid) (l : list (docid * V)) :
  lookup Nat.eqb i (remove Nat.eqb i l) = None.
Proof.
  induction l as [|[k v] l IH]; [reflexivity|].
  unfold remove in *. simpl.
  destruct (Nat.eqb k i) eqn:E; simpl; [exact IH|].
  now rewrite E.
Qed.

(** The successful path of [deleteGroup]. *)
Lemma deleteGroup_deleted_inv (db : Db) (currentUser : option uid)
  (confirmed : bool) (g : docid) :
  result (GroupsPage.deleteGroup currentUser confirmed g) db
  = GroupsPage.GroupDeleted ->
  run (GroupsPage.deleteGroup currentUser confirmed g) db
  = run (GroupsPage.deleteGroupDoc g)
        (run (GroupsPage.deleteAll (GroupsPage.expensesOfGroup db g)) db).
Proof.
  unfold GroupsPage.deleteGroup, result, run.
  destruct confirmed; [|discriminate]. simpl.
  destruct (lookup Nat.eqb g (groups db)) as [grp|]; [|discriminate].
  destruct currentUser as [me|]; [|discriminate].
  destruct (match Group.createdBy grp with
            | Some c => c =? me
            | None => false
            end); [|discriminate].
  intros _. simpl. unfold bind, ret.
  destruct (GroupsPage.deleteAll (GroupsPage.expensesOfGroup db g) db).
  simpl. now destruct (GroupsPage.deleteGroupDoc g d).
Qed.

(** C9 (counterexample): in the 300 example the creator [P] deletes group 0;
    the call succeeds, yet the three settlements that refer to group 0 are
    still stored. *)
Lemma deleteGroup_leaves_settlements :
  result (GroupsPage.deleteGroup (Some Ex.P) true 0) Ex.db300
  = GroupsPage.GroupDeleted
  /\ ~ cascadeAsClaimed 0
        (run (GroupsPage.deleteGroup (Some Ex.P) true 0) Ex.db300).
Proof.
  split; [vm_compute; reflexivity|].
  intros [_ H].
  apply (H (2, Settlement.mk 0 (Some 1) Ex.M1 Ex.P 100%float "Trip" pending
                             "t1" None None)).
  - vm_compute. left. reflexivity.
  - reflexivity.
Qed.

(** C9 (amended): a successful group deletion removes every expense that
    refers to the group, keeps the expense documents it did not delete,
    issues each of those expense deletions before the deletion of the group
    document itself, removes the group document, and leaves the settlement
    records as they are. *)
Theorem deleteGroup_cascades_to_expenses :
  forall (db : Db) (currentUser : option uid) (confirmed : bool) (g : docid),
    result (GroupsPage.deleteGroup currentUser confirmed g) db
    = GroupsPage.GroupDeleted ->
    let db' := run (GroupsPage.deleteGroup currentUser confirmed g) db in
    (forall kv, In kv (expenses db') ->
                In kv (expenses db) /\ Expense.groupId (snd kv) <> g)
    /\ (forall kv, In kv (expenses db) ->
                   ~ In (fst kv) (GroupsPage.expensesOfGroup db g) ->
                   In kv (expenses db'))
    /\ lookup Nat.eqb g (groups db') = None
    /\ writes db'
       = writes db
         ++ map (Deleted Expenses) (GroupsPage.expensesOfGroup db g)
         ++ [Deleted Groups g]
    /\ settlements db' = settlements db.
Proof.
  intros db currentUser confirmed g Hok db'. subst db'.
  rewrite (deleteGroup_deleted_inv db currentUser confirmed g Hok).
  rewrite deleteAll_run. unfold run, GroupsPage.deleteGroupDoc. simpl.
  split; [|split; [|split; [apply lookup_remove_same|split]]].
  - intro kv. rewrite In_remove_all. unfold GroupsPage.expensesOfGroup.
    intros [Hin Hnot]. split; [exact Hin|].
    intro Hg. apply Hnot. apply in_map. apply filter_In.
    split; [exact Hin|]. now apply Nat.eqb_eq.
  - intros kv Hin Hnot. apply In_remove_all. now split.
  - now rewrite <- app_assoc.
  - reflexivity.
Qed.

(** C9 (witness): [P] deletes the example group after the 300 expense. *)
Lemma deleteGroup_cascades_to_expenses_witness :
  let db' := run (GroupsPage.deleteGroup (Some Ex.P) true 0) Ex.db300 in
  (forall kv, In kv (expenses db') ->
              In kv (expenses Ex.db300) /\ Expense.groupId (snd kv) <> 0)
  /\ (forall kv, In kv (expenses Ex.db300) ->
                 ~ In (fst kv) (GroupsPage.expensesOfGroup Ex.db300 0) ->
                 In kv (expenses db'))
  /\ lookup Nat.eqb 0 (groups db') = None
  /\ writes db'
     = writes Ex.db300
       ++ map (Deleted Expenses) (GroupsPage.expensesOfGroup Ex.db300 0)
       ++ [Deleted Groups 0]
  /\ settlements db' = settlements Ex.db300.
Proof.
  apply (deleteGroup_cascades_to_expenses Ex.db300 (Some Ex.P) true 0).
  vm_compute. reflexivity.
Defined.

(** ** [createGroup] *)






(** ** Membership resolution *)

Lemma set_add_In (s : list string) (y x : string) :
  In x (Js.set_add s y) <-> In x s \/ x = y.
Proof.
  unfold Js.set_add. destruct (Js.includes y s) eqn:E.
  - apply includes_In in E. split; [now left|].
    intros [H|H]; [exact H|now subst x].
  - rewrite in_app_iff. simpl. intuition congruence.
Qed.

Lemma set_add_all_In (l s : list string) (x : string) :
  In x (Js.set_add_all s l) <-> In x s \/ In x l.
Proof.
  revert s. unfold Js.set_add_all.
  induction l as [|y l IH]; intro s; simpl; [tauto|].
  rewrite IH, set_add_In. intuition congruence.
Qed.

Lemma set_add_NoDup (s : list string) (y : string) :
  NoDup s -> NoDup (Js.set_add s y).
Proof.
  intro H. unfold Js.set_add. destruct (Js.includes y s) eqn:E; [exact H|].
  apply NoDup_app; [exact H|repeat constructor; intros []|].
  intros x Hx [Hy|[]]. subst y. apply includes_In in Hx. congruence.
Qed.

Lemma set_add_all_NoDup (l s : list string) :
  NoDup s -> NoDup (Js.set_add_all s l).
Proof.
  revert s. unfold Js.set_add_all.
  induction l as [|y l IH]; intros s H; [exact H|].
  simpl. apply IH. now apply set_add_NoDup.
Qed.

Lemma set_add_all_app (s a b : list string) :
  Js.set_add_all s (a ++ b) = Js.set_add_all (Js.set_add_all s a) b.
Proof. unfold Js.set_add_all. apply fold_left_app. Qed.

Lemma new_Set_NoDup (l : list string) : NoDup (Js.new_Set l).
Proof. apply set_add_all_NoDup. constructor. Qed.

Lemma new_Set_In (l : list string) (x : string) :
  In x (Js.new_Set l) <-> In x l.
Proof. unfold Js.new_Set. rewrite set_add_all_In. simpl. tauto. Qed.

(** One step of either loop adds the accounts of the email. *)
Lemma resolveMemberEmail_accounts (db : Db) (ids : list uid) (email : string) :
  ExpensesPage.resolveMemberEmail db ids email
  = Js.set_add_all ids (accountsFor db email).
Proof.
  unfold ExpensesPage.resolveMemberEmail, accountsFor. cbv zeta.
  destruct (usersByEmail db (Js.toLowerCase email)) as [|u us] eqn:E1.
  - cbn [is_nil negb andb Js.set_add_all fold_left].
    destruct (String.eqb_spec email (Js.toLowerCase email)) as [Heq|Hne].
    + cbn [negb]. rewrite <- Heq in E1. now rewrite E1.
    + reflexivity.
  - reflexivity.
Qed.

Lemma resolvePendingEmail_accounts (db : Db) (st : list uid * list string)
  (email : string) :
  trimmed email ->
  ExpensesPage.resolvePendingEmail db st email
  = if resolves db email
    then (Js.set_add_all (fst st) (accountsFor db email), snd st ++ [email])
    else st.
Proof.
  intro Ht. unfold ExpensesPage.resolvePendingEmail, resolves, accountsFor.
  cbv zeta. rewrite Ht.
  destruct (email =? "") eqn:Ee; [reflexivity|].
  cbn [negb andb].
  destruct (usersByEmail db (Js.toLowerCase email)) as [|u us] eqn:E1.
  - cbn [is_nil negb andb Js.set_add_all fold_left].
    destruct (String.eqb_spec (Js.toLowerCase email) email) as [Heq|Hne].
    + cbn [negb]. rewrite Heq in E1. rewrite E1. cbn [is_nil negb].
      now destruct st.
    + cbn [negb]. destruct (usersByEmail db email); cbn [is_nil negb].
      * now destruct st.
      * reflexivity.
  - reflexivity.
Qed.

Lemma memberEmails_loop (db : Db) (l : list string) (ids : list uid) :
  fold_left (ExpensesPage.resolveMemberEmail db) l ids
  = Js.set_add_all ids (flat_map (accountsFor db) l).
Proof.
  revert ids. induction l as [|e l IH]; intro ids; [reflexivity|].
  simpl. now rewrite IH, resolveMemberEmail_accounts, set_add_all_app.
Qed.

Lemma Forall_filter_keeps {A : Type} (P : A -> Prop) (r : A -> bool)
  (l : list A) :
  Forall P l -> Forall P (filter r l).
Proof.
  rewrite !Forall_forall. intros H x Hx. apply H.
  apply filter_In in Hx. tauto.
Qed.

(** ** The emails [createGroup] stores are trimmed *)

Lemma trimEnd_idempotent (s : string) :
  Js.trimEnd (Js.trimEnd s) = Js.trimEnd s.
Proof.
  induction s as [|c r IH]; [reflexivity|].
  simpl. destruct (Js.is_space c && (Js.trimEnd r =? "")) eqn:E.
  - reflexivity.
  - simpl. rewrite IH, E. reflexivity.
Qed.

Lemma trimStart_trimEnd (s : string) :
  Js.trimStart s = s -> Js.trimStart (Js.trimEnd s) = Js.trimEnd s.
Proof.
  destruct s as [|c r]; [reflexivity|].
  simpl. destruct (Js.is_space c) eqn:Ec.
  - intro H. exfalso.
    assert (Hlen : forall t, String.length (Js.trimStart t) <= String.length t).
    { induction t as [|d t IHt]; [apply le_n|].
      simpl. destruct (Js.is_space d); simpl; lia. }
    specialize (Hlen r). rewrite H in Hlen. simpl in Hlen. lia.
  - intros _. simpl. now rewrite Ec.
Qed.

Lemma trimStart_idempotent (s : string) :
  Js.trimStart (Js.trimStart s) = Js.trimStart s.
Proof.
  induction s as [|c r IH]; [reflexivity|].
  simpl. destruct (Js.is_space c) eqn:Ec; [exact IH|].
  simpl. now rewrite Ec.
Qed.

Lemma trim_trimmed (s : string) : trimmed (Js.trim s).
Proof.
  unfold trimmed, Js.trim.
  rewrite (trimStart_trimEnd (Js.trimStart s) (trimStart_idempotent s)).
  apply trimEnd_idempotent.
Qed.

Lemma rawMemberEmails_trimmed (membersInput : string) :
  Forall trimmed (GroupsPage.rawMemberEmails membersInput).
Proof.
  unfold GroupsPage.rawMemberEmails. apply Forall_filter_keeps.
  apply Forall_forall. intros e He. apply in_map_iff in He.
  destruct He as [x [Hx _]]. subst e. apply trim_trimmed.
Qed.

Lemma findMember_pending (db : Db) (st : list uid * list string)
  (rawEmail : string) (P : string -> Prop) :
  P rawEmail -> Forall P (snd st) ->
  Forall P (snd (GroupsPage.findMember db st rawEmail)).
Proof.
  intros Hr Hst. unfold GroupsPage.findMember. cbv zeta.
  match goal with
  | |- context [if GroupsPage.notFound ?x then _ else _] =>
      destruct (GroupsPage.notFound x)
  end; cbn [snd]; [|exact Hst].
  apply Forall_app. split; [exact Hst|]. now constructor.
Qed.

Lemma findMembers_pending (db : Db) (raw : list string)
  (st : list uid * list string) (P : string -> Prop) :
  Forall P raw -> Forall P (snd st) ->
  Forall P (snd (fold_left (GroupsPage.findMember db) raw st)).
Proof.
  intro Hraw. revert st. induction Hraw as [|r raw Hr _ IH]; intros st Hst.
  - exact Hst.
  - simpl. apply IH. now apply findMember_pending.
Qed.

(** Every group written by [createGroup] satisfies the side condition of
    the resolution theorem. *)
Lemma createGroup_pending_trimmed (me : uid) (now : string)
  (f : GroupsPage.Form) (db : Db) :
  exists g,
    groups (run (GroupsPage.createGroup (Some me) now f) db)
    = groups db ++ [(nextId db, g)]
    /\ Forall trimmed (Group.pendingMemberEmails g).
Proof.
  unfold GroupsPage.createGroup, run.
  pose proof (findMembers_pending db
                (GroupsPage.rawMemberEmails (GroupsPage.groupMembers f))
                ([me], []) trimmed
                (rawMemberEmails_trimmed _) (Forall_nil _)) as H.
  destruct (fold_left (GroupsPage.findMember db) _ ([me], []))
    as [memberIds pendingMemberEmails].
  eexists. split; [reflexivity|exact H].
Qed.

(** * Further properties of the modelled code *)

(** ** Experience points and badges *)

Lemma lookup_update_same_str {V : Type} (k : string) (f : V -> V)
  (l : list (string * V)) :
  lookup String.eqb k (update String.eqb k f l)
  = option_map f (lookup String.eqb k l).
Proof.
  induction l as [|[k' v] l IH]; [reflexivity|].
  simpl. destruct (k' =? k) eqn:E; simpl; rewrite E; [reflexivity|exact IH].
Qed.

Lemma lookup_update_other_str {V : Type} (k k0 : string) (f : V -> V)
  (l : list (string * V)) :
  k0 <> k ->
  lookup String.eqb k (update String.eqb k0 f l) = lookup String.eqb k l.
Proof.
  intro Hne. induction l as [|[k' v] l IH]; [reflexivity|].
  simpl. destruct (k' =? k0) eqn:E0; simpl.
  - apply String.eqb_eq in E0. subst k'.
    destruct (k0 =? k) eqn:E; [|reflexivity].
    apply String.eqb_eq in E. contradiction.
  - destruct (k' =? k); [reflexivity|exact IH].
Qed.

Lemma NoDup_map_fst_filter {A B : Type} (p : A * B -> bool)
  (l : list (A * B)) :
  NoDup (map fst l) -> NoDup (map fst (filter p l)).
Proof.
  induction l as [|x l IH]; intro H; [constructor|].
  simpl in *. inversion H as [|? ? Hx Hl]. subst.
  destruct (p x); [|now apply IH].
  simpl. constructor; [|now apply IH].
  intro Hin. apply Hx. apply in_map_iff in Hin.
  destruct Hin as [y [Hy Hf]]. apply filter_In in Hf.
  rewrite <- Hy. apply in_map. tauto.
Qed.

Lemma badge_ids_distinct (db : Db) (u : uid) (xp level : nat) :
  NoDup (map fst (Analytics.badgeDefinitions db u xp level)).
Proof.
  simpl. repeat constructor; simpl; intuition discriminate.
Qed.

(** The user documents after [awardXP] on an existing account. *)
Lemma awardXP_users (u : uid) (points : nat) (db : Db) (ud : User.t) :
  lookup String.eqb u (users db) = Some ud ->
  let newXP := User.xpPoints ud + points in
  let ud1 := User.mk (User.name ud) (User.email ud) newXP (newXP / 100 + 1)
                     (User.badges ud) in
  exists newBadges,
    users (run (Analytics.awardXP u points) db)
    = (match newBadges with
       | [] => fun l => l
       | _ :: _ =>
           update String.eqb u
             (fun x => User.mk (User.name x) (User.email x) (User.xpPoints x)
                               (User.level x) (User.badges ud ++ newBadges))
       end)
        (update String.eqb u (fun _ => ud1) (users db))
    /\ NoDup newBadges
    /\ (forall b, In b newBadges -> ~ In b (User.badges ud))
    /\ (10 <= newXP -> ~ In "first_expense" (User.badges ud) ->
        In "first_expense" newBadges).
Proof.
  intros Hu newXP ud1.
  unfold Analytics.awardXP, run. rewrite Hu. fold newXP.
  unfold bind, Analytics.updateUser. cbn [fst snd].
  unfold Analytics.checkBadges. cbn [users].
  assert (Hupd : update String.eqb u
                   (fun x => User.mk (User.name x) (User.email x) newXP
                                     (newXP / 100 + 1) (User.badges x))
                   (users db)
                 = update String.eqb u (fun _ => ud1) (users db)).
  { clear -Hu. subst ud1. revert Hu.
    induction (users db) as [|[k v] l IH]; [reflexivity|].
    simpl. destruct (k =? u).
    - intro H. injection H as H. now subst v.
    - intro H. f_equal. now apply IH. }
  rewrite Hupd, lookup_update_same_str, Hu. cbn [option_map User.badges ud1].
  set (defs := Analytics.badgeDefinitions _ u newXP (newXP / 100 + 1)).
  set (sel := filter (fun b => negb (Js.includes (fst b) (User.badges ud))
                               && snd b) defs).
  exists (map fst sel).
  assert (Hnd : NoDup (map fst sel)).
  { apply NoDup_map_fst_filter. apply badge_ids_distinct. }
  assert (Hnew : forall b, In b (map fst sel) -> ~ In b (User.badges ud)).
  { intros b Hb Hin. apply in_map_iff in Hb. destruct Hb as [x [Hx Hf]].
    apply filter_In in Hf. destruct Hf as [_ Hp].
    apply andb_true_iff in Hp. destruct Hp as [Hp _].
    apply negb_true_iff in Hp. subst b.
    apply includes_In in Hin. congruence. }
  assert (Hfirst : 10 <= newXP -> ~ In "first_expense" (User.badges ud) ->
                   In "first_expense" (map fst sel)).
  { intros Hxp Hnot.
    apply in_map_iff. exists ("first_expense", Nat.leb 10 newXP).
    split; [reflexivity|]. apply filter_In. split.
    - subst defs. left. reflexivity.
    - cbn [fst snd]. apply andb_true_iff. split.
      + apply negb_true_iff.
        destruct (Js.includes "first_expense" (User.badges ud)) eqn:E;
          [|reflexivity].
        apply includes_In in E. contradiction.
      + now apply Nat.leb_le. }
  destruct (map fst sel) as [|b0 bs] eqn:Hsel.
  - now repeat split.
  - cbn [snd users]. now repeat split.
Qed.

Lemma awardXP_lookup (u : uid) (points : nat) (db : Db) (ud : User.t) :
  lookup String.eqb u (users db) = Some ud ->
  let newXP := User.xpPoints ud + points in
  exists newBadges,
    lookup String.eqb u (users (run (Analytics.awardXP u points) db))
    = Some (User.mk (User.name ud) (User.email ud) newXP (newXP / 100 + 1)
                    (User.badges ud ++ newBadges))
    /\ NoDup newBadges
    /\ (forall b, In b newBadges -> ~ In b (User.badges ud))
    /\ (10 <= newXP -> ~ In "first_expense" (User.badges ud) ->
        In "first_expense" newBadges)
    /\ (forall v, v <> u ->
          lookup String.eqb v (users (run (Analytics.awardXP u points) db))
          = lookup String.eqb v (users db)).
Proof.
  intros Hu newXP.
  destruct (awardXP_users u points db ud Hu) as (nb & Hus & Hnd & Hnew & Hf).
  exists nb. fold newXP in Hus, Hf. rewrite Hus.
  split; [|split; [exact Hnd|split; [exact Hnew|split; [exact Hf|]]]].
  - destruct nb as [|b0 bs].
    + rewrite lookup_update_same_str, Hu, app_nil_r. reflexivity.
    + rewrite !lookup_update_same_str, Hu. reflexivity.
  - intros v Hv. apply not_eq_sym in Hv. destruct nb as [|b0 bs].
    + cbv beta. now apply lookup_update_other_str.
    + rewrite !lookup_update_other_str; [reflexivity|exact Hv|exact Hv].
Qed.

(** X1: [awardXP] touches nothing but the profile of the user it is called
    for.  For an unknown user the store is left as it was; for a known one
    the points grow by exactly the award, the level becomes
    [floor(xp / 100) + 1], name and email are kept, and badges are only
    appended: no badge is lost, none is granted twice, and a duplicate-free
    badge list stays duplicate-free. *)
Theorem awardXP_profile :
  forall (u : uid) (points : nat) (db : Db),
    let db' := run (Analytics.awardXP u points) db in
    groups db' = groups db
    /\ expenses db' = expenses db
    /\ settlements db' = settlements db
    /\ (forall v, v <> u ->
          lookup String.eqb v (users db') = lookup String.eqb v (users db))
    /\ match lookup String.eqb u (users db) with
       | None => db' = db
       | Some ud =>
           exists ud',
             lookup String.eqb u (users db') = Some ud'
             /\ User.name ud' = User.name ud
             /\ User.email ud' = User.email ud
             /\ User.xpPoints ud' = User.xpPoints ud + points
             /\ User.level ud' = User.xpPoints ud' / 100 + 1
             /\ (exists newBadges,
                    User.badges ud' = User.badges ud ++ newBadges
                    /\ forall b, In b newBadges -> ~ In b (User.badges ud))
             /\ (NoDup (User.badges ud) -> NoDup (User.badges ud'))
       end.
Proof.
  intros u points db db'. subst db'.
  destruct (awardXP_frame u points db) as (Hg & He & Hs & _).
  split; [exact Hg|]. split; [exact He|]. split; [exact Hs|].
  destruct (lookup String.eqb u (users db)) as [ud|] eqn:Hu.
  - destruct (awardXP_lookup u points db ud Hu)
      as (nb & Hl & Hnd & Hnew & _ & Hother).
    split; [exact Hother|].
    eexists. split; [exact Hl|]. cbn.
    repeat split.
    + exists nb. split; [reflexivity|exact Hnew].
    + intro H. apply NoDup_app; [exact H|exact Hnd|].
      intros b Hb Hb'. exact (Hnew b Hb' Hb).
  - assert (Hrun : run (Analytics.awardXP u points) db = db).
    { unfold Analytics.awardXP, run. now rewrite Hu. }
    rewrite Hrun. split; [reflexivity|reflexivity].
Qed.

(** ** What [calculateSettlements] writes *)

(** The directed records of one run: one per entry whose key is not the
    payer. *)
Lemma recordsFor_split (now : string) (g : docid) (e : Expense.t) :
  exists directed reciprocal,
    recordsFor now g e = directed ++ reciprocal
    /\ Forall (fun s => Settlement.userId s <> Expense.paidBy e) directed
    /\ (reciprocal = []
        \/ reciprocal
           = [Analytics.settlementData now g e (Expense.paidBy e)
                (PrimFloat.opp (Js.sum (map Settlement.amount directed)))]).
Proof.
  unfold recordsFor.
  set (es := filter _ (Analytics.splitAmountsOf e)).
  exists (map (fun kv => Analytics.settlementData now g e (fst kv) (snd kv)) es).
  eexists. split; [reflexivity|]. split.
  - apply Forall_forall. intros s Hs. apply in_map_iff in Hs.
    destruct Hs as [kv [Hkv Hin]]. subst s es. apply filter_In in Hin.
    destruct Hin as [_ Hne]. apply negb_true_iff in Hne.
    apply String.eqb_neq in Hne. exact Hne.
  - destruct (Js.gt (Analytics.totalOwed e) 0%float); [right|now left].
    unfold Analytics.payerSettlement, Analytics.totalOwed, Js.values,
      Js.entries.
    fold es. rewrite map_map. reflexivity.
Qed.

Lemma recordsFor_fields (now : string) (g : docid) (e : Expense.t) :
  Forall (fun s => Settlement.groupId s = g
                   /\ Settlement.expenseId s = Expense.id e
                   /\ Settlement.owedTo s = Expense.paidBy e
                   /\ Settlement.status s = pending
                   /\ Settlement.paidAt s = None)
         (recordsFor now g e).
Proof.
  unfold recordsFor. apply Forall_app. split.
  - apply Forall_forall. intros s Hs. apply in_map_iff in Hs.
    destruct Hs as [kv [Hkv _]]. subst s. now repeat split.
  - destruct (Js.gt _ _); repeat constructor.
Qed.

(** X2: [calculateSettlements] only appends settlement documents.  Users,
    groups and expenses are left alone; every record written is pending,
    names the payer as creditor and carries the group and the expense id
    it was called with; the records before the last have a debtor other
    than the payer, and the payer's own record, when there is one, comes
    last and carries the negated sum of the amounts written before it. *)
Theorem calculateSettlements_appends_pending_debts :
  forall (now : string) (g : docid) (e : Expense.t) (db : Db),
    let db' := run (Analytics.calculateSettlements now g e) db in
    users db' = users db
    /\ groups db' = groups db
    /\ expenses db' = expenses db
    /\ exists directed reciprocal,
         settlements db'
         = settlements db ++ numbered (nextId db) (directed ++ reciprocal)
         /\ Forall (fun s => Settlement.groupId s = g
                             /\ Settlement.expenseId s = Expense.id e
                             /\ Settlement.owedTo s = Expense.paidBy e
                             /\ Settlement.status s = pending
                             /\ Settlement.paidAt s = None)
                   (directed ++ reciprocal)
         /\ Forall (fun s => Settlement.userId s <> Expense.paidBy e) directed
         /\ (reciprocal = []
             \/ reciprocal
                = [Analytics.settlementData now g e (Expense.paidBy e)
                     (PrimFloat.opp
                        (Js.sum (map Settlement.amount directed)))]).
Proof.
  intros now g e db db'. subst db'. rewrite calculateSettlements_run.
  repeat split.
  destruct (recordsFor_split now g e) as (d & r & Hrs & Hd & Hr).
  exists d, r. rewrite <- Hrs.
  split; [reflexivity|]. split; [apply recordsFor_fields|]. now split.
Qed.

(** X3: when the share mapping is missing, empty or holds only the payer's
    own share there is nothing to settle: [calculateSettlements] leaves the
    store exactly as it was. *)
Theorem calculateSettlements_nothing_to_settle :
  forall (now : string) (g : docid) (e : Expense.t) (db : Db),
    Forall (fun kv => fst kv = Expense.paidBy e) (Analytics.splitAmountsOf e) ->
    run (Analytics.calculateSettlements now g e) db = db.
Proof.
  intros now g e db H. rewrite calculateSettlements_run.
  assert (Hf : filter (fun kv => negb (fst kv =? Expense.paidBy e))
                      (Analytics.splitAmountsOf e) = []).
  { induction H as [|[k v] l Hkv _ IH]; [reflexivity|].
    simpl in *. subst k. now rewrite String.eqb_refl. }
  unfold recordsFor, Analytics.totalOwed, Js.entries. rewrite Hf.
  cbn. apply added_nil.
Qed.

(** X3 (witness): an expense whose only share is the payer's. *)
Lemma calculateSettlements_nothing_to_settle_witness :
  run (Analytics.calculateSettlements "t5" 0 Ex2.payerOnly) Ex.db300
  = Ex.db300.
Proof.
  apply (calculateSettlements_nothing_to_settle "t5" 0 Ex2.payerOnly Ex.db300).
  repeat constructor.
Defined.

(** ** [addExpense]: outcomes and what a success stores *)

Lemma computeSplit_inr (f : ExpensesPage.Form) (t : Js.number) :
  ExpensesPage.computeSplit f = inr t ->
  (ExpensesPage.splitType f =? "equal") = false
  /\ t = suppliedTotal f
  /\ Js.gt (PrimFloat.abs (PrimFloat.sub t (ExpensesPage.expenseAmount f)))
           0.01%float = true.
Proof.
  unfold ExpensesPage.computeSplit.
  destruct (ExpensesPage.splitType f =? "equal"); [discriminate|].
  destruct (ExpensesPage.customSplit (ExpensesPage.custom f)
                                     (ExpensesPage.selectedMembers f))
    as [o total] eqn:Hcs.
  assert (Ht : total = suppliedTotal f).
  { transitivity (snd (ExpensesPage.customSplit
                         (ExpensesPage.custom f)
                         (ExpensesPage.selectedMembers f))).
    - now rewrite Hcs.
    - unfold ExpensesPage.customSplit. apply customSplit_total. }
  destruct (Js.gt _ _) eqn:Hgt; [|discriminate].
  intro H. injection H as H. subst t. now repeat split.
Qed.

(** The store after a successful [addExpense]. *)
Lemma addExpense_run (now : string) (f : ExpensesPage.Form) (db : Db)
  (splitAmounts : Js.obj Js.number) (g : docid) :
  ExpensesPage.selectedMembers f <> [] ->
  ExpensesPage.computeSplit f = inl splitAmounts ->
  ExpensesPage.expenseGroup f = Some g ->
  let e := ExpensesPage.expenseData now f g (groupNameOf db g) splitAmounts in
  run (ExpensesPage.addExpense now f) db
  = run (Analytics.awardXP (ExpensesPage.expensePaidBy f) 10)
        (added (run (addExpenseDoc e) db)
               (recordsFor now g (ExpensesPage.withId (nextId db) e))).
Proof.
  intros Hsel Hsplit Hg e.
  unfold ExpensesPage.addExpense.
  destruct (ExpensesPage.selectedMembers f) as [|m0 ms]; [contradiction|].
  rewrite Hsplit, Hg.
  rewrite !run_bind.
  change (result (getGroup g) db) with (lookup Nat.eqb g (groups db)).
  change (run (getGroup g) db) with db.
  fold (groupNameOf db g). fold e.
  rewrite ?run_bind, run_ret, calculateSettlements_run.
  reflexivity.
Qed.

(** A split that passes the check. *)
Lemma computeSplit_inl (f : ExpensesPage.Form) :
  (ExpensesPage.splitType f =? "equal") = true
  \/ Js.gt (PrimFloat.abs
              (PrimFloat.sub (suppliedTotal f) (ExpensesPage.expenseAmount f)))
           0.01%float = false ->
  exists splitAmounts, ExpensesPage.computeSplit f = inl splitAmounts.
Proof.
  intro H. destruct (ExpensesPage.computeSplit f) as [o|t] eqn:Hcs.
  - now exists o.
  - destruct (computeSplit_inr f t Hcs) as (Hc & Ht & Hgt). subst t.
    destruct H as [H|H]; congruence.
Qed.

(** X4: the outcomes of [addExpense], decided in this order.  With no
    member ticked it asks for one.  Otherwise, with a split type other than
    equal and amounts whose total is more than 0.01 away from the expense
    amount, it reports that total and the amount.  Otherwise, with no group
    selected, it fails.  In each of these three cases the store is left
    exactly as it was.  In every other case it succeeds and returns the
    identifier drawn for the new expense, the next fresh one. *)
Theorem addExpense_outcomes :
  (forall (now : string) (f : ExpensesPage.Form) (db : Db),
      ExpensesPage.selectedMembers f = [] ->
      ExpensesPage.addExpense now f db = (ExpensesPage.NoMemberSelected, db))
  /\ (forall (now : string) (f : ExpensesPage.Form) (db : Db),
      ExpensesPage.selectedMembers f <> [] ->
      (ExpensesPage.splitType f =? "equal") = false ->
      Js.gt (PrimFloat.abs
               (PrimFloat.sub (suppliedTotal f)
                              (ExpensesPage.expenseAmount f)))
            0.01%float = true ->
      ExpensesPage.addExpense now f db
      = (ExpensesPage.SplitMismatch (suppliedTotal f)
           (ExpensesPage.expenseAmount f), db))
  /\ (forall (now : string) (f : ExpensesPage.Form) (db : Db),
      ExpensesPage.selectedMembers f <> [] ->
      (ExpensesPage.splitType f =? "equal") = true
      \/ Js.gt (PrimFloat.abs
                  (PrimFloat.sub (suppliedTotal f)
                                 (ExpensesPage.expenseAmount f)))
               0.01%float = false ->
      ExpensesPage.expenseGroup f = None ->
      ExpensesPage.addExpense now f db = (ExpensesPage.Failed, db))
  /\ (forall (now : string) (f : ExpensesPage.Form) (db : Db) (g : docid),
      ExpensesPage.selectedMembers f <> [] ->
      (ExpensesPage.splitType f =? "equal") = true
      \/ Js.gt (PrimFloat.abs
                  (PrimFloat.sub (suppliedTotal f)
                                 (ExpensesPage.expenseAmount f)))
               0.01%float = false ->
      ExpensesPage.expenseGroup f = Some g ->
      result (ExpensesPage.addExpense now f) db
      = ExpensesPage.ExpenseAdded (nextId db)).
Proof.
  split; [|split; [|split]].
  - intros now f db Hsel. unfold ExpensesPage.addExpense. now rewrite Hsel.
  - intros now f db Hsel Hc Hgt.
    pose proof (computeSplit_mismatch f Hc Hgt) as Hm.
    unfold ExpensesPage.addExpense.
    destruct (ExpensesPage.selectedMembers f) as [|m0 ms]; [contradiction|].
    now rewrite Hm.
  - intros now f db Hsel Hok Hg.
    destruct (computeSplit_inl f Hok) as [o Ho].
    unfold ExpensesPage.addExpense.
    destruct (ExpensesPage.selectedMembers f) as [|m0 ms]; [contradiction|].
    now rewrite Ho, Hg.
  - intros now f db g Hsel Hok Hg.
    destruct (computeSplit_inl f Hok) as [o Ho].
    now destruct (addExpense_success now f db o g Hsel Ho Hg) as (Hr & _).
Qed.

(** X5: a successful [addExpense] stores one expense document holding the
    values of the form and the name of the selected group ("Unknown Group"
    when that group does not exist), leaves the groups alone, and appends
    settlements that all point to that new expense document, to the
    selected group and to the payer of the form, with status pending. *)
Theorem addExpense_links_settlements :
  forall (now : string) (f : ExpensesPage.Form) (db : Db) (id : docid),
    result (ExpensesPage.addExpense now f) db = ExpensesPage.ExpenseAdded id ->
    let db' := run (ExpensesPage.addExpense now f) db in
    exists g splitAmounts rs,
      ExpensesPage.expenseGroup f = Some g
      /\ ExpensesPage.computeSplit f = inl splitAmounts
      /\ expenses db'
         = expenses db
           ++ [(id, ExpensesPage.expenseData now f g (groupNameOf db g)
                      splitAmounts)]
      /\ groups db' = groups db
      /\ settlements db' = settlements db ++ numbered (S id) rs
      /\ Forall (fun s => Settlement.expenseId s = Some id
                          /\ Settlement.groupId s = g
                          /\ Settlement.owedTo s = ExpensesPage.expensePaidBy f
                          /\ Settlement.status s = pending)
                rs.
Proof.
  intros now f db id Hres db'. subst db'.
  destruct (addExpense_added_inv now f db id Hres) as (Hne & o & g & Ho & Hg).
  destruct (addExpense_success now f db o g Hne Ho Hg) as (Hr & He & Hs).
  rewrite Hr in Hres. injection Hres as Hid. subst id.
  exists g, o. eexists.
  split; [exact Hg|]. split; [exact Ho|]. split; [exact He|].
  split.
  - rewrite (addExpense_run now f db o g Hne Ho Hg).
    now destruct (awardXP_frame (ExpensesPage.expensePaidBy f) 10
                    (added (run (addExpenseDoc
                                   (ExpensesPage.expenseData now f g
                                      (groupNameOf db g) o)) db)
                           (recordsFor now g
                              (ExpensesPage.withId (nextId db)
                                 (ExpensesPage.expenseData now f g
                                    (groupNameOf db g) o)))))
      as (Hgr & _).
  - split; [exact Hs|].
    eapply Forall_impl; [|apply recordsFor_fields].
    intros s (H1 & H2 & H3 & H4 & _). now repeat split.
Qed.

(** X5 (witness): the 300 example. *)
Lemma addExpense_links_settlements_witness :
  exists g splitAmounts rs,
    ExpensesPage.expenseGroup Ex.form300 = Some g
    /\ ExpensesPage.computeSplit Ex.form300 = inl splitAmounts
    /\ expenses Ex.db300
       = expenses Ex.db_group
         ++ [(1, ExpensesPage.expenseData "t1" Ex.form300 g
                   (groupNameOf Ex.db_group g) splitAmounts)]
    /\ groups Ex.db300 = groups Ex.db_group
    /\ settlements Ex.db300 = settlements Ex.db_group ++ numbered 2 rs
    /\ Forall (fun s => Settlement.expenseId s = Some 1
                        /\ Settlement.groupId s = g
                        /\ Settlement.owedTo s
                           = ExpensesPage.expensePaidBy Ex.form300
                        /\ Settlement.status s = pending)
              rs.
Proof.
  apply (addExpense_links_settlements "t1" Ex.form300 Ex.db_group 1).
  vm_compute. reflexivity.
Defined.

Lemma customSplit_get (custom : uid -> Js.number) (selected : list uid)
  (o : Js.obj Js.number) (a : Js.number) (k : uid) :
  Js.get k
    (fst (fold_left
            (fun acc memberId =>
               let customAmount := Js.or_zero (custom memberId) in
               (Js.set memberId customAmount (fst acc),
                PrimFloat.add (snd acc) customAmount))
            selected (o, a)))
  = if Js.includes k selected then Some (Js.or_zero (custom k))
    else Js.get k o.
Proof.
  revert o a. induction selected as [|m l IH]; intros o a; [reflexivity|].
  change (Js.includes k (m :: l)) with ((k =? m) || Js.includes k l).
  cbn [fold_left]. cbv zeta. cbn [fst snd]. rewrite IH.
  destruct (Js.includes k l); [now rewrite orb_true_r|].
  rewrite orb_false_r.
  destruct (String.eqb_spec k m) as [Heq|Hne].
  - subst m. apply get_set_same.
  - apply get_set_other. congruence.
Qed.

(** X6: under the custom policy a successful [addExpense] stores, for every
    ticked member, the amount typed for that member, with [0] for a field
    left blank or not a number, and stores no share for anybody else; it
    only succeeds when the total of those amounts is not more than 0.01
    away from the expense amount. *)
Theorem addExpense_custom_split :
  forall (now : string) (f : ExpensesPage.Form) (db : Db) (id : docid),
    (ExpensesPage.splitType f =? "equal") = false ->
    result (ExpensesPage.addExpense now f) db = ExpensesPage.ExpenseAdded id ->
    exists e o,
      expenses (run (ExpensesPage.addExpense now f) db)
      = expenses db ++ [(id, e)]
      /\ Expense.splitAmounts e = Some o
      /\ (forall m, In m (ExpensesPage.selectedMembers f) ->
                    Js.get m o = Some (Js.or_zero (ExpensesPage.custom f m)))
      /\ (forall m, ~ In m (ExpensesPage.selectedMembers f) ->
                    Js.get m o = None)
      /\ Js.gt (PrimFloat.abs
                  (PrimFloat.sub (suppliedTotal f)
                                 (ExpensesPage.expenseAmount f)))
               0.01%float = false.
Proof.
  intros now f db id Hcustom Hres.
  destruct (addExpense_added_inv now f db id Hres) as (Hne & o & g & Ho & Hg).
  destruct (addExpense_success now f db o g Hne Ho Hg) as (Hr & He & _).
  rewrite Hr in Hres. injection Hres as Hid. subst id.
  eexists. exists o. split; [exact He|]. split; [reflexivity|].
  unfold ExpensesPage.computeSplit in Ho. rewrite Hcustom in Ho.
  destruct (ExpensesPage.customSplit (ExpensesPage.custom f)
                                     (ExpensesPage.selectedMembers f))
    as [o' total] eqn:Hcs.
  assert (Ht : total = suppliedTotal f).
  { transitivity (snd (ExpensesPage.customSplit
                         (ExpensesPage.custom f)
                         (ExpensesPage.selectedMembers f))).
    - now rewrite Hcs.
    - unfold ExpensesPage.customSplit. apply customSplit_total. }
  assert (Hget : forall m,
             Js.get m o'
             = if Js.includes m (ExpensesPage.selectedMembers f)
               then Some (Js.or_zero (ExpensesPage.custom f m)) else None).
  { intro m.
    transitivity (Js.get m (fst (ExpensesPage.customSplit
                                   (ExpensesPage.custom f)
                                   (ExpensesPage.selectedMembers f)))).
    - now rewrite Hcs.
    - unfold ExpensesPage.customSplit. now rewrite customSplit_get. }
  destruct (Js.gt _ _) eqn:Hgt; [discriminate|].
  injection Ho as Ho. subst o'. rewrite <- Ht.
  split; [|split; [|exact Hgt]]; intros m Hm; rewrite Hget.
  - apply includes_In in Hm. now rewrite Hm.
  - destruct (Js.includes m (ExpensesPage.selectedMembers f)) eqn:E;
      [|reflexivity].
    apply includes_In in E. contradiction.
Qed.

(** X6 (witness): 60 and 40 typed for an amount of 100. *)
Lemma addExpense_custom_split_witness :
  exists e o,
    expenses (run (ExpensesPage.addExpense "t6" Ex2.form100) Ex.db_group)
    = expenses Ex.db_group ++ [(1, e)]
    /\ Expense.splitAmounts e = Some o
    /\ (forall m, In m (ExpensesPage.selectedMembers Ex2.form100) ->
                  Js.get m o
                  = Some (Js.or_zero (ExpensesPage.custom Ex2.form100 m)))
    /\ (forall m, ~ In m (ExpensesPage.selectedMembers Ex2.form100) ->
                  Js.get m o = None)
    /\ Js.gt (PrimFloat.abs
                (PrimFloat.sub (suppliedTotal Ex2.form100)
                               (ExpensesPage.expenseAmount Ex2.form100)))
             0.01%float = false.
Proof.
  apply (addExpense_custom_split "t6" Ex2.form100 Ex.db_group 1).
  - reflexivity.
  - vm_compute. reflexivity.
Defined.

(** X7: a successful [addExpense] credits the payer, when the payer has a
    profile, with exactly 10 points, and the payer then holds the
    [first_expense] badge. *)
Theorem addExpense_rewards_payer :
  forall (now : string) (f : ExpensesPage.Form) (db : Db) (id : docid)
         (ud : User.t),
    result (ExpensesPage.addExpense now f) db = ExpensesPage.ExpenseAdded id ->
    lookup String.eqb (ExpensesPage.expensePaidBy f) (users db) = Some ud ->
    exists ud',
      lookup String.eqb (ExpensesPage.expensePaidBy f)
             (users (run (ExpensesPage.addExpense now f) db))
      = Some ud'
      /\ User.xpPoints ud' = User.xpPoints ud + 10
      /\ User.level ud' = (User.xpPoints ud + 10) / 100 + 1
      /\ In "first_expense" (User.badges ud').
Proof.
  intros now f db id ud Hres Hu.
  destruct (addExpense_added_inv now f db id Hres) as (Hne & o & g & Ho & Hg).
  rewrite (addExpense_run now f db o g Hne Ho Hg).
  set (db1 := added _ _).
  assert (Hu1 : lookup String.eqb (ExpensesPage.expensePaidBy f) (users db1)
                = Some ud) by exact Hu.
  destruct (awardXP_lookup _ 10 db1 ud Hu1) as (nb & Hl & _ & _ & Hfirst & _).
  eexists. split; [exact Hl|]. cbn. repeat split.
  apply in_or_app.
  destruct (in_dec string_dec "first_expense" (User.badges ud)) as [Hin|Hnot].
  - now left.
  - right. apply Hfirst; [lia|exact Hnot].
Qed.

(** X7 (witness): [P] records the 300 expense. *)
Lemma addExpense_rewards_payer_witness :
  exists ud',
    lookup String.eqb (ExpensesPage.expensePaidBy Ex.form300)
           (users (run (ExpensesPage.addExpense "t1" Ex.form300) Ex.db_group))
    = Some ud'
    /\ User.xpPoints ud' = User.xpPoints (Ex.account "Pia" "p@x.com") + 10
    /\ User.level ud'
       = (User.xpPoints (Ex.account "Pia" "p@x.com") + 10) / 100 + 1
    /\ In "first_expense" (User.badges ud').
Proof.
  apply (addExpense_rewards_payer "t1" Ex.form300 Ex.db_group 1
           (Ex.account "Pia" "p@x.com")).
  - vm_compute. reflexivity.
  - reflexivity.
Defined.

(** ** Paying a settlement *)

Lemma handlePaymentSuccess_run (db : Db) (user : option uid)
  (now paymentId : string) (i : docid) (s : Settlement.t) :
  lookup Nat.eqb i (settlements db) = Some s ->
  run (Payments.handlePaymentSuccess user now paymentId i) db
  = (match user with
     | Some u => run (Analytics.awardXP u 20)
     | None => fun d => d
     end)
      (mkDb (users db) (groups db) (expenses db)
            (update Nat.eqb i (Payments.asPaid now paymentId) (settlements db))
            (nextId db) (writes db ++ [Updated Settlements i])).
Proof.
  intro Hs. unfold Payments.handlePaymentSuccess, bind, run.
  rewrite (markSettlementPaid_found db now paymentId i s Hs).
  destruct user as [u|]; [|reflexivity].
  cbv beta iota. unfold ret.
  now destruct (Analytics.awardXP u 20 _).
Qed.

(** X8: the outcomes of paying from the dashboard.  An unknown settlement,
    a missing session or a declined confirmation dialog each leave the
    store exactly as it was; once the settlement has been found the status
    update cannot fail, and a recorded payment means that the settlement
    existed, that somebody was signed in and that the dialog was
    confirmed. *)
Theorem dashboard_settlePayment_outcomes :
  forall (db : Db) (currentUser : option uid) (confirmed : bool)
         (now paymentId : string) (i : docid),
    let pay := Dashboard.settlePayment currentUser confirmed now paymentId i in
    match result pay db with
    | Dashboard.SettlementNotFound =>
        lookup Nat.eqb i (settlements db) = None /\ run pay db = db
    | Dashboard.SettleFailed => currentUser = None /\ run pay db = db
    | Dashboard.PaymentDeclined => confirmed = false /\ run pay db = db
    | Dashboard.Paid Payments.StatusUpdateFailed => False
    | Dashboard.Paid Payments.PaymentRecorded =>
        lookup Nat.eqb i (settlements db) <> None
        /\ currentUser <> None
        /\ confirmed = true
    end.
Proof.
  intros db currentUser confirmed now paymentId i pay. subst pay.
  destruct (lookup Nat.eqb i (settlements db)) as [s|] eqn:Hs.
  2:{ unfold Dashboard.settlePayment, result, run. rewrite Hs. now split. }
  destruct currentUser as [u|].
  2:{ unfold Dashboard.settlePayment, result, run. rewrite Hs. now split. }
  destruct confirmed.
  - destruct (dashboard_pays db u now paymentId i s Hs) as [Hr _].
    rewrite Hr. repeat split; discriminate.
  - unfold Dashboard.settlePayment, result, run. rewrite Hs. now split.
Qed.

(** X9: the payment callback on its own.  For an unknown settlement it
    reports the failed update and changes nothing, not even the points of
    the user.  For a known one it sets the status to paid and stamps the
    payment time and reference, keeps the debtor, creditor, amount,
    description, group, expense and creation time of that settlement, and
    leaves every other settlement, every expense and every group as it
    was. *)
Theorem handlePaymentSuccess_effect :
  forall (db : Db) (user : option uid) (now paymentId : string) (i : docid),
    let db' := run (Payments.handlePaymentSuccess user now paymentId i) db in
    match lookup Nat.eqb i (settlements db) with
    | None =>
        result (Payments.handlePaymentSuccess user now paymentId i) db
        = Payments.StatusUpdateFailed
        /\ db' = db
    | Some s =>
        result (Payments.handlePaymentSuccess user now paymentId i) db
        = Payments.PaymentRecorded
        /\ (exists s',
               lookup Nat.eqb i (settlements db') = Some s'
               /\ sameDebt s s'
               /\ Settlement.status s' = paid
               /\ Settlement.paidAt s' = Some now
               /\ Settlement.paymentId s' = Some paymentId)
        /\ (forall j, j <> i ->
              lookup Nat.eqb j (settlements db')
              = lookup Nat.eqb j (settlements db))
        /\ map fst (settlements db') = map fst (settlements db)
        /\ expenses db' = expenses db
        /\ groups db' = groups db
    end.
Proof.
  intros db user now paymentId i db'. subst db'.
  destruct (lookup Nat.eqb i (settlements db)) as [s|] eqn:Hs.
  - destruct (handlePaymentSuccess_found db user now paymentId i s Hs)
      as (Hr & Hst & He).
    split; [exact Hr|]. rewrite Hst. split; [|split; [|split; [|split]]].
    + exists (Payments.asPaid now paymentId s).
      rewrite lookup_update_same, Hs. split; [reflexivity|].
      now repeat split.
    + intros j Hj. apply lookup_update_other. congruence.
    + apply map_fst_update.
    + exact He.
    + rewrite (handlePaymentSuccess_run db user now paymentId i s Hs).
      destruct user as [u|]; [|reflexivity].
      now destruct (awardXP_frame u 20
                      (mkDb (users db) (groups db) (expenses db)
                            (update Nat.eqb i (Payments.asPaid now paymentId)
                                    (settlements db))
                            (nextId db)
                            (writes db ++ [Updated Settlements i])))
        as (Hg & _).
  - unfold Payments.handlePaymentSuccess, bind, run, result,
      Payments.markSettlementPaid.
    rewrite Hs. now split.
Qed.

(** X10: nothing stops a settlement from being paid again.  When a user
    with a profile pays the same existing settlement twice from the
    dashboard, both payments are recorded and the user ends up with 40
    more points than before. *)
Theorem paying_twice_rewards_twice :
  forall (db : Db) (u : uid) (ud : User.t) (now1 pid1 now2 pid2 : string)
         (i : docid) (s : Settlement.t),
    lookup Nat.eqb i (settlements db) = Some s ->
    lookup String.eqb u (users db) = Some ud ->
    let db1 := run (Dashboard.settlePayment (Some u) true now1 pid1 i) db in
    let db2 := run (Dashboard.settlePayment (Some u) true now2 pid2 i) db1 in
    result (Dashboard.settlePayment (Some u) true now2 pid2 i) db1
    = Dashboard.Paid Payments.PaymentRecorded
    /\ exists ud2,
         lookup String.eqb u (users db2) = Some ud2
         /\ User.xpPoints ud2 = User.xpPoints ud + 40.
Proof.
  intros db u ud now1 pid1 now2 pid2 i s Hs Hu db1 db2.
  assert (Hrun : forall d n p s0,
             lookup Nat.eqb i (settlements d) = Some s0 ->
             run (Dashboard.settlePayment (Some u) true n p i) d
             = run (Analytics.awardXP u 20)
                   (mkDb (users d) (groups d) (expenses d)
                         (update Nat.eqb i (Payments.asPaid n p)
                                 (settlements d))
                         (nextId d) (writes d ++ [Updated Settlements i]))).
  { intros d n p s0 Hs0. unfold run at 1.
    rewrite (dashboard_settlePayment_found d u n p i s0 Hs0). cbn [snd].
    apply (handlePaymentSuccess_run d (Some u) n p i s0 Hs0). }
  destruct (dashboard_pays db u now1 pid1 i s Hs) as [_ Hst1].
  assert (Hs1 : lookup Nat.eqb i (settlements db1)
                = Some (Payments.asPaid now1 pid1 s)).
  { subst db1. now rewrite Hst1, lookup_update_same, Hs. }
  destruct (dashboard_pays db1 u now2 pid2 i _ Hs1) as [Hr2 _].
  split; [exact Hr2|].
  set (d0 := mkDb (users db) (groups db) (expenses db)
                  (update Nat.eqb i (Payments.asPaid now1 pid1) (settlements db))
                  (nextId db) (writes db ++ [Updated Settlements i])).
  assert (Hu0 : lookup String.eqb u (users d0) = Some ud) by exact Hu.
  destruct (awardXP_lookup u 20 d0 ud Hu0) as (nb1 & Hl1 & _).
  assert (Hdb1 : db1 = run (Analytics.awardXP u 20) d0).
  { subst db1 d0. exact (Hrun db now1 pid1 s Hs). }
  rewrite <- Hdb1 in Hl1.
  set (d1 := mkDb (users db1) (groups db1) (expenses db1)
                  (update Nat.eqb i (Payments.asPaid now2 pid2)
                          (settlements db1))
                  (nextId db1) (writes db1 ++ [Updated Settlements i])).
  assert (Hu1 : lookup String.eqb u (users d1) = Some _) by exact Hl1.
  destruct (awardXP_lookup u 20 d1 _ Hu1) as (nb2 & Hl2 & _).
  assert (Hdb2 : db2 = run (Analytics.awardXP u 20) d1).
  { subst db2 d1. exact (Hrun db1 now2 pid2 _ Hs1). }
  rewrite <- Hdb2 in Hl2.
  eexists. split; [exact Hl2|]. cbn. lia.
Qed.

(** X10 (witness): [M1] pays the settlement of the 300 example twice. *)
Lemma paying_twice_rewards_twice_witness :
  let db1 := run (Dashboard.settlePayment (Some Ex.M1) true "t2" "pay1" 2)
                 Ex.db300 in
  let db2 := run (Dashboard.settlePayment (Some Ex.M1) true "t3" "pay2" 2)
                 db1 in
  result (Dashboard.settlePayment (Some Ex.M1) true "t3" "pay2" 2) db1
  = Dashboard.Paid Payments.PaymentRecorded
  /\ exists ud2,
       lookup String.eqb Ex.M1 (users db2) = Some ud2
       /\ User.xpPoints ud2
          = User.xpPoints (Ex.account "Max" "m1@x.com") + 40.
Proof.
  apply (paying_twice_rewards_twice Ex.db300 Ex.M1
           (Ex.account "Max" "m1@x.com") "t2" "pay1" "t3" "pay2" 2
           (Settlement.mk 0 (Some 1) Ex.M1 Ex.P 100%float "Trip" pending
                          "t1" None None)).
  - vm_compute. reflexivity.
  - reflexivity.
Defined.

(** ** Deleting a group *)

(** X11: the outcomes of [deleteGroup].  A declined dialog, an unknown
    group, a missing session and a caller who is not the recorded creator
    each leave the store exactly as it was; the deletion only goes ahead
    for a confirmed request by the user recorded as [createdBy]. *)
Theorem deleteGroup_outcomes :
  forall (db : Db) (currentUser : option uid) (confirmed : bool) (g : docid),
    let del := GroupsPage.deleteGroup currentUser confirmed g in
    match result del db with
    | GroupsPage.DeleteCancelled => confirmed = false /\ run del db = db
    | GroupsPage.GroupNotFound =>
        lookup Nat.eqb g (groups db) = None /\ run del db = db
    | GroupsPage.DeleteFailed => currentUser = None /\ run del db = db
    | GroupsPage.NotCreator =>
        (exists me grp,
            currentUser = Some me
            /\ lookup Nat.eqb g (groups db) = Some grp
            /\ Group.createdBy grp <> Some me)
        /\ run del db = db
    | GroupsPage.GroupDeleted =>
        exists me grp,
          currentUser = Some me
          /\ lookup Nat.eqb g (groups db) = Some grp
          /\ Group.createdBy grp = Some me
          /\ confirmed = true
    end.
Proof.
  intros db currentUser confirmed g del. subst del.
  unfold GroupsPage.deleteGroup, result, run.
  destruct confirmed; cbn [negb]; [|now split].
  destruct (lookup Nat.eqb g (groups db)) as [grp|]; [|now split].
  destruct currentUser as [me|]; [|now split].
  destruct (Group.createdBy grp) as [c|] eqn:Hc.
  - destruct (String.eqb_spec c me) as [Heq|Hne]; cbn [negb].
    + subst c. unfold bind, ret.
      destruct (GroupsPage.deleteAll _ db) as [x d1].
      destruct (GroupsPage.deleteGroupDoc g d1) as [y d2]. cbn.
      exists me, grp. now repeat split.
    + cbn. split; [|reflexivity]. exists me, grp.
      repeat split. congruence.
  - cbn. split; [|reflexivity]. exists me, grp. repeat split. congruence.
Qed.

(** X12: the "Delete Group" button and the deletion disagree on groups
    without a recorded creator.  Whenever a deletion succeeds the button
    was offered to that user; but for a group with no [createdBy] the
    button is offered to every member, while the deletion itself turns each
    of them away and deletes nothing. *)
Theorem delete_button_and_deleteGroup :
  (forall (db : Db) (me : uid) (confirmed : bool) (g : docid) (grp : Group.t),
      lookup Nat.eqb g (groups db) = Some grp ->
      result (GroupsPage.deleteGroup (Some me) confirmed g) db
      = GroupsPage.GroupDeleted ->
      GroupMembers.canDelete me grp = true)
  /\ (forall (db : Db) (me : uid) (g : docid) (grp : Group.t),
      lookup Nat.eqb g (groups db) = Some grp ->
      Group.createdBy grp = None ->
      In me (Group.members grp) ->
      GroupMembers.canDelete me grp = true
      /\ GroupsPage.deleteGroup (Some me) true g db
         = (GroupsPage.NotCreator, db)).
Proof.
  split.
  - intros db me confirmed g grp Hg Hres.
    unfold GroupsPage.deleteGroup, result in Hres.
    destruct confirmed; [|discriminate]. cbn [negb] in Hres.
    rewrite Hg in Hres. unfold GroupMembers.canDelete.
    destruct (Group.createdBy grp) as [c|];
      [|cbn in Hres; discriminate Hres].
    destruct (c =? me); [reflexivity|cbn in Hres; discriminate Hres].
  - intros db me g grp Hg Hc Hin. split.
    + unfold GroupMembers.canDelete. rewrite Hc. cbn.
      now apply includes_In.
    + unfold GroupsPage.deleteGroup. cbn [negb]. now rewrite Hg, Hc.
Qed.

(** ** What [createGroup] stores *)

Lemma pushNew_NoDup (hits : list uid) (st : list uid * option uid) :
  NoDup (fst st) -> NoDup (fst (GroupsPage.pushNew st hits)).
Proof.
  revert st. unfold GroupsPage.pushNew.
  induction hits as [|h hits IH]; intros st H; [exact H|].
  cbn [fold_left]. apply IH. cbv beta.
  match goal with |- context [if ?c then _ else _] => destruct c eqn:E end;
    [exact H|].
  cbn [fst]. apply NoDup_app; [exact H|repeat constructor; intros []|].
  intros x Hx [Hh|[]]. subst h. apply includes_In in Hx. congruence.
Qed.

Lemma pushNew_appends (hits : list uid) (st : list uid * option uid) :
  exists new,
    fst (GroupsPage.pushNew st hits) = fst st ++ new
    /\ forall u, In u new -> In u hits.
Proof.
  revert st. unfold GroupsPage.pushNew.
  induction hits as [|h hits IH]; intro st.
  - exists []. split; [now rewrite app_nil_r|intros u []].
  - cbn [fold_left]. cbv beta.
    match goal with |- context [if ?c then _ else _] => destruct c end.
    + destruct (IH st) as (new & Hn & Hin). exists new.
      split; [exact Hn|]. intros u Hu. right. now apply Hin.
    + destruct (IH (fst st ++ [h], Some h)) as (new & Hn & Hin).
      exists (h :: new). split.
      * etransitivity; [exact Hn|]. cbn [fst]. now rewrite <- app_assoc.
      * intros u [Hu|Hu]; [now left|right; now apply Hin].
Qed.

Lemma findMember_NoDup (db : Db) (st : list uid * list string)
  (rawEmail : string) :
  NoDup (fst st) -> NoDup (fst (GroupsPage.findMember db st rawEmail)).
Proof.
  intro H. unfold GroupsPage.findMember. cbv zeta.
  pose proof (pushNew_NoDup (usersByEmail db (Js.toLowerCase rawEmail))
                            (fst st, None) H) as H1.
  destruct (GroupsPage.pushNew (fst st, None) _) as [ids1 found1].
  cbn [fst snd] in *.
  destruct (GroupsPage.notFound found1 && _).
  - pose proof (pushNew_NoDup (usersByEmail db rawEmail) (ids1, found1) H1)
      as H2.
    destruct (GroupsPage.pushNew (ids1, found1) _) as [ids2 found2].
    cbn [fst snd] in *. now destruct (GroupsPage.notFound found2).
  - cbn [fst snd]. now destruct (GroupsPage.notFound found1).
Qed.

Lemma findMember_appends (db : Db) (st : list uid * list string)
  (rawEmail : string) :
  exists new,
    fst (GroupsPage.findMember db st rawEmail) = fst st ++ new
    /\ forall u, In u new ->
         In u (usersByEmail db (Js.toLowerCase rawEmail))
         \/ In u (usersByEmail db rawEmail).
Proof.
  unfold GroupsPage.findMember. cbv zeta.
  destruct (pushNew_appends (usersByEmail db (Js.toLowerCase rawEmail))
                            (fst st, None)) as (n1 & Hn1 & Hin1).
  destruct (GroupsPage.pushNew (fst st, None) _) as [ids1 found1].
  cbn [fst snd] in *.
  destruct (GroupsPage.notFound found1 && _).
  - destruct (pushNew_appends (usersByEmail db rawEmail) (ids1, found1))
      as (n2 & Hn2 & Hin2).
    destruct (GroupsPage.pushNew (ids1, found1) _) as [ids2 found2].
    cbn [fst snd] in *. exists (n1 ++ n2).
    split.
    + destruct (GroupsPage.notFound found2); cbn [fst];
        now rewrite Hn2, Hn1, app_assoc.
    + intros u Hu. apply in_app_or in Hu.
      destruct Hu as [Hu|Hu]; [left; now apply Hin1|right; now apply Hin2].
  - exists n1. split.
    + cbn [fst snd]. now destruct (GroupsPage.notFound found1).
    + intros u Hu. left. now apply Hin1.
Qed.

Lemma findMember_keeps_pending (db : Db) (st : list uid * list string)
  (rawEmail p : string) :
  In p (snd st) -> In p (snd (GroupsPage.findMember db st rawEmail)).
Proof.
  intro H. unfold GroupsPage.findMember. cbv zeta.
  match goal with
  | |- context [if GroupsPage.notFound ?x then _ else _] =>
      destruct (GroupsPage.notFound x)
  end; cbn [snd]; [|exact H].
  apply in_or_app. now left.
Qed.

Lemma findMember_no_account (db : Db) (st : list uid * list string)
  (rawEmail : string) :
  usersByEmail db (Js.toLowerCase rawEmail) = [] ->
  usersByEmail db rawEmail = [] ->
  In rawEmail (snd (GroupsPage.findMember db st rawEmail)).
Proof.
  intros H1 H2. unfold GroupsPage.findMember. cbv zeta.
  rewrite H1, H2. cbn.
  destruct (negb (rawEmail =? Js.toLowerCase rawEmail)); cbn;
    apply in_or_app; right; now left.
Qed.

Lemma findMembers_summary (db : Db) (raw : list string)
  (st : list uid * list string) :
  NoDup (fst st) ->
  let st' := fold_left (GroupsPage.findMember db) raw st in
  NoDup (fst st')
  /\ (exists new,
         fst st' = fst st ++ new
         /\ forall u, In u new ->
              exists e, In e raw
                        /\ (In u (usersByEmail db (Js.toLowerCase e))
                            \/ In u (usersByEmail db e)))
  /\ (forall p, In p (snd st) -> In p (snd st'))
  /\ (forall e, In e raw ->
        usersByEmail db (Js.toLowerCase e) = [] ->
        usersByEmail db e = [] ->
        In e (snd st')).
Proof.
  revert st. induction raw as [|r raw IH]; intros st Hnd.
  - cbn. split; [exact Hnd|]. split.
    + exists []. split; [now rewrite app_nil_r|intros u []].
    + split; [tauto|intros e []].
  - cbn [fold_left].
    destruct (IH (GroupsPage.findMember db st r)
                 (findMember_NoDup db st r Hnd))
      as (Hnd' & (new & Hnew & Horigin) & Hkeep & Hcover).
    destruct (findMember_appends db st r) as (n1 & Hn1 & Hin1).
    split; [exact Hnd'|]. split; [|split].
    + exists (n1 ++ new). split; [now rewrite Hnew, Hn1, app_assoc|].
      intros u Hu. apply in_app_or in Hu. destruct Hu as [Hu|Hu].
      * exists r. split; [now left|now apply Hin1].
      * destruct (Horigin u Hu) as (e & He & Hacc).
        exists e. split; [now right|exact Hacc].
    + intros p Hp. apply Hkeep. now apply findMember_keeps_pending.
    + intros e [He|He] H1 H2.
      * subst e. apply Hkeep. now apply findMember_no_account.
      * now apply Hcover.
Qed.

(** X13: the members [createGroup] stores.  Without a session nothing is
    stored.  Otherwise one group document is added whose [createdBy] is the
    caller; its member list starts with the caller, holds no identifier
    twice, and everybody after the caller is an account found under one of
    the invited addresses (in its lower-cased or its literal form). *)
Theorem createGroup_members :
  (forall (now : string) (f : GroupsPage.Form) (db : Db),
      GroupsPage.createGroup None now f db = (GroupsPage.CreateFailed, db))
  /\ (forall (me : uid) (now : string) (f : GroupsPage.Form) (db : Db),
      exists g invited,
        GroupsPage.createGroup (Some me) now f db
        = (GroupsPage.GroupCreated (nextId db),
           mkDb (users db) (groups db ++ [(nextId db, g)]) (expenses db)
                (settlements db) (S (nextId db))
                (writes db ++ [Added Groups (nextId db)]))
        /\ Group.createdBy g = Some me
        /\ Group.name g = GroupsPage.groupName f
        /\ Group.members g = me :: invited
        /\ NoDup (Group.members g)
        /\ forall u, In u invited ->
             exists e,
               In e (GroupsPage.rawMemberEmails (GroupsPage.groupMembers f))
               /\ (In u (usersByEmail db (Js.toLowerCase e))
                   \/ In u (usersByEmail db e))).
Proof.
  split; [reflexivity|].
  intros me now f db. unfold GroupsPage.createGroup.
  assert (Hnd : NoDup (fst ([me], @nil string)))
    by (repeat constructor; intros []).
  destruct (findMembers_summary db
              (GroupsPage.rawMemberEmails (GroupsPage.groupMembers f))
              ([me], []) Hnd)
    as (Hnd' & (new & Hnew & Horigin) & _ & _).
  destruct (fold_left (GroupsPage.findMember db) _ ([me], []))
    as [memberIds pendingMemberEmails].
  cbn [fst snd] in *. eexists. exists new.
  split; [reflexivity|]. cbn.
  split; [reflexivity|]. split; [reflexivity|].
  split; [exact Hnew|]. split; [exact Hnd'|exact Horigin].
Qed.

(** X14: the invitations [createGroup] stores.  The member emails are the
    invited addresses (split at commas, trimmed, empty ones dropped) in
    lower case; every pending email is one of those addresses, stored
    without surrounding white space; and every invited address under which
    no account exists, neither in lower-cased nor in literal form, is kept
    as pending. *)
Theorem createGroup_invitations :
  forall (me : uid) (now : string) (f : GroupsPage.Form) (db : Db),
    let raw := GroupsPage.rawMemberEmails (GroupsPage.groupMembers f) in
    exists g,
      groups (run (GroupsPage.createGroup (Some me) now f) db)
      = groups db ++ [(nextId db, g)]
      /\ Group.memberEmails g = map Js.toLowerCase raw
      /\ Forall (fun p => In p raw /\ trimmed p /\ p <> "")
                (Group.pendingMemberEmails g)
      /\ forall e, In e raw ->
           usersByEmail db (Js.toLowerCase e) = [] ->
           usersByEmail db e = [] ->
           In e (Group.pendingMemberEmails g).
Proof.
  intros me now f db raw.
  unfold GroupsPage.createGroup, run.
  assert (Hnd : NoDup (fst ([me], @nil string)))
    by (repeat constructor; intros []).
  destruct (findMembers_summary db raw ([me], []) Hnd)
    as (_ & _ & _ & Hcover).
  assert (Hraw : Forall (fun p => In p raw /\ trimmed p /\ p <> "") raw).
  { apply Forall_forall. intros p Hp. split; [exact Hp|].
    split.
    - pose proof (rawMemberEmails_trimmed (GroupsPage.groupMembers f)) as Ht.
      rewrite Forall_forall in Ht. now apply Ht.
    - subst raw. unfold GroupsPage.rawMemberEmails in Hp.
      apply filter_In in Hp. destruct Hp as [_ Hp].
      apply negb_true_iff in Hp. now apply String.eqb_neq in Hp. }
  pose proof (findMembers_pending db raw ([me], []) _ Hraw (Forall_nil _))
    as Hpend.
  fold raw.
  destruct (fold_left (GroupsPage.findMember db) raw ([me], []))
    as [memberIds pendingMemberEmails].
  cbn [fst snd] in *. eexists.
  split; [reflexivity|]. cbn.
  split; [reflexivity|]. split; [exact Hpend|exact Hcover].
Qed.

(** ** Adding members to a group *)

Lemma addOne_loop (db : Db) (emails : list string)
  (st : list uid * list string * list string) :
  fold_left (GroupMembers.addOne db) emails st
  = (Js.set_add_all (fst (fst st))
       (flat_map (fun e => usersByEmail db (Js.toLowerCase e)) emails),
     Js.set_add_all (snd (fst st)) (map Js.toLowerCase emails),
     Js.set_add_all (snd st)
       (filter (fun e => is_nil (usersByEmail db (Js.toLowerCase e))) emails)).
Proof.
  revert st. induction emails as [|e l IH]; intro st.
  - now destruct st as [[a b] c].
  - cbn [fold_left]. rewrite IH. unfold GroupMembers.addOne. cbv zeta.
    cbn [fst snd flat_map map filter]. rewrite set_add_all_app.
    destruct (is_nil (usersByEmail db (Js.toLowerCase e))); reflexivity.
Qed.

(** What each outcome of [addMembersToGroup] means. *)
Lemma addMembersToGroup_cases :
  forall (raw : string) (gid : docid) (db : Db),
    let add := GroupMembers.addMembersToGroup raw gid in
    let emails := GroupsPage.rawMemberEmails raw in
    match result add db with
    | GroupMembers.NothingToAdd => emails = [] /\ run add db = db
    | GroupMembers.GroupMissing =>
        lookup Nat.eqb gid (groups db) = None /\ run add db = db
    | GroupMembers.MembersUpdated =>
        exists grp grp',
          lookup Nat.eqb gid (groups db) = Some grp
          /\ lookup Nat.eqb gid (groups (run add db)) = Some grp'
          /\ writes (run add db) = writes db ++ [Updated Groups gid]
          /\ Group.createdBy grp' = Group.createdBy grp
          /\ Group.name grp' = Group.name grp
          /\ NoDup (Group.members grp')
          /\ NoDup (Group.memberEmails grp')
          /\ NoDup (Group.pendingMemberEmails grp')
          /\ (forall u, In u (Group.members grp') <->
                In u (Group.members grp)
                \/ exists e, In e emails
                             /\ In u (usersByEmail db (Js.toLowerCase e)))
          /\ (forall x, In x (Group.memberEmails grp') <->
                (exists e, In e (Group.memberEmails grp)
                           /\ x = Js.toLowerCase e)
                \/ exists e, In e emails /\ x = Js.toLowerCase e)
          /\ (forall p, In p (Group.pendingMemberEmails grp') <->
                In p (Group.pendingMemberEmails grp)
                \/ (In p emails
                    /\ usersByEmail db (Js.toLowerCase p) = []))
          /\ (Forall trimmed (Group.pendingMemberEmails grp) ->
              Forall trimmed (Group.pendingMemberEmails grp'))
    end.
Proof.
  intros raw gid db add emails. subst add.
  unfold GroupMembers.addMembersToGroup, result, run. fold emails.
  destruct emails as [|e0 es] eqn:Hem; [now split|].
  rewrite <- Hem.
  destruct (lookup Nat.eqb gid (groups db)) as [grp|] eqn:Hg; [|now split].
  rewrite addOne_loop. cbn [fst snd].
  unfold bind, ret, ExpensesPage.updateGroupMembership. cbn [fst snd].
  cbn [groups writes]. rewrite lookup_update_same, Hg. cbn [option_map].
  exists grp. eexists. split; [reflexivity|]. split; [reflexivity|].
  split; [reflexivity|]. cbn.
  assert (Hpend : forall p,
             In p (Js.set_add_all (Js.new_Set (Group.pendingMemberEmails grp))
                     (filter (fun e => is_nil (usersByEmail db (Js.toLowerCase e)))
                             emails))
             <-> In p (Group.pendingMemberEmails grp)
                 \/ (In p emails /\ usersByEmail db (Js.toLowerCase p) = [])).
  { intro p. rewrite set_add_all_In, new_Set_In, filter_In.
    assert (Hnil : is_nil (usersByEmail db (Js.toLowerCase p)) = true
                   <-> usersByEmail db (Js.toLowerCase p) = []).
    { destruct (usersByEmail db (Js.toLowerCase p)); split;
        intro H; try reflexivity; discriminate. }
    tauto. }
  split; [reflexivity|]. split; [reflexivity|].
  split; [apply set_add_all_NoDup, new_Set_NoDup|].
  split; [apply set_add_all_NoDup, new_Set_NoDup|].
  split; [apply set_add_all_NoDup, new_Set_NoDup|].
  split; [|split; [|split; [exact Hpend|]]].
  - intro u. rewrite set_add_all_In, new_Set_In, in_flat_map. reflexivity.
  - intro x. rewrite set_add_all_In, new_Set_In, !in_map_iff.
    split; (intros [[e [H1 H2]]|[e [H1 H2]]];
            [left|right]; exists e; split; congruence || assumption).
  - intro Ht. apply Forall_forall. intros p Hp. apply Hpend in Hp.
    destruct Hp as [Hp|[Hp _]].
    + rewrite Forall_forall in Ht. now apply Ht.
    + pose proof (rawMemberEmails_trimmed raw) as Hr.
      rewrite Forall_forall in Hr. apply Hr. subst emails. exact Hp.
Qed.

(** X15: [addMembersToGroup].  With no address in the input nothing is
    written, and neither is anything for an unknown group.  For an input
    with at least one address and a stored group it writes one update in
    which the three lists are duplicate-free and only grow: the members are
    the former members and the accounts found under the lower-cased new
    addresses, the member emails are the former ones in lower case and the
    new addresses in lower case, and the pending emails are the former ones
    and the new addresses under which no account was found.  The creator
    and the name of the group are kept, and pending emails stored without
    surrounding white space stay so. *)
Theorem addMembersToGroup_effect :
  (forall (raw : string) (gid : docid) (db : Db),
      GroupsPage.rawMemberEmails raw = [] ->
      GroupMembers.addMembersToGroup raw gid db
      = (GroupMembers.NothingToAdd, db))
  /\ (forall (raw : string) (gid : docid) (db : Db),
      GroupsPage.rawMemberEmails raw <> [] ->
      lookup Nat.eqb gid (groups db) = None ->
      GroupMembers.addMembersToGroup raw gid db
      = (GroupMembers.GroupMissing, db))
  /\ (forall (raw : string) (gid : docid) (db : Db) (grp : Group.t),
      GroupsPage.rawMemberEmails raw <> [] ->
      lookup Nat.eqb gid (groups db) = Some grp ->
      let add := GroupMembers.addMembersToGroup raw gid in
      let emails := GroupsPage.rawMemberEmails raw in
      result add db = GroupMembers.MembersUpdated
      /\ users (run add db) = users db
      /\ expenses (run add db) = expenses db
      /\ settlements (run add db) = settlements db
      /\ writes (run add db) = writes db ++ [Updated Groups gid]
      /\ exists grp',
           lookup Nat.eqb gid (groups (run add db)) = Some grp'
           /\ Group.createdBy grp' = Group.createdBy grp
           /\ Group.name grp' = Group.name grp
           /\ NoDup (Group.members grp')
           /\ NoDup (Group.memberEmails grp')
           /\ NoDup (Group.pendingMemberEmails grp')
           /\ (forall u, In u (Group.members grp') <->
                 In u (Group.members grp)
                 \/ exists e, In e emails
                              /\ In u (usersByEmail db (Js.toLowerCase e)))
           /\ (forall x, In x (Group.memberEmails grp') <->
                 (exists e, In e (Group.memberEmails grp)
                            /\ x = Js.toLowerCase e)
                 \/ exists e, In e emails /\ x = Js.toLowerCase e)
           /\ (forall p, In p (Group.pendingMemberEmails grp') <->
                 In p (Group.pendingMemberEmails grp)
                 \/ (In p emails
                     /\ usersByEmail db (Js.toLowerCase p) = []))
           /\ (Forall trimmed (Group.pendingMemberEmails grp) ->
               Forall trimmed (Group.pendingMemberEmails grp'))).
Proof.
  split; [|split].
  - intros raw gid db He. unfold GroupMembers.addMembersToGroup.
    now rewrite He.
  - intros raw gid db He Hg. unfold GroupMembers.addMembersToGroup.
    destruct (GroupsPage.rawMemberEmails raw); [contradiction|].
    now rewrite Hg.
  - intros raw gid db grp He Hg add emails.
    assert (Hres : result add db = GroupMembers.MembersUpdated
                   /\ users (run add db) = users db
                   /\ expenses (run add db) = expenses db
                   /\ settlements (run add db) = settlements db).
    { subst add. unfold GroupMembers.addMembersToGroup, result, run.
      destruct (GroupsPage.rawMemberEmails raw); [contradiction|].
      rewrite Hg. now repeat split. }
    destruct Hres as (Hres & Hu & Hx & Hs).
    pose proof (addMembersToGroup_cases raw gid db) as H.
    cbv zeta in H. fold add emails in H. rewrite Hres in H.
    destruct H as (grp0 & grp' & Hg0 & Hg' & Hw & Hrest).
    assert (grp0 = grp) by congruence. subst grp0.
    split; [exact Hres|]. split; [exact Hu|]. split; [exact Hx|].
    split; [exact Hs|]. split; [exact Hw|].
    exists grp'. split; [exact Hg'|exact Hrest].
Qed.

(** ** Membership resolution: what is shown and what is stored *)

Lemma resolvePendingEmail_trim (db : Db) (st : list uid * list string)
  (pEmail : string) :
  ExpensesPage.resolvePendingEmail db st pEmail
  = if resolves db (Js.trim pEmail)
    then (Js.set_add_all (fst st) (accountsFor db (Js.trim pEmail)),
          snd st ++ [Js.trim pEmail])
    else st.
Proof.
  rewrite <- (resolvePendingEmail_accounts db st (Js.trim pEmail)
                (trim_trimmed pEmail)).
  unfold ExpensesPage.resolvePendingEmail.
  now rewrite (trim_trimmed pEmail).
Qed.

Lemma pendingEmails_loop_any (db : Db) (l : list string)
  (st : list uid * list string) :
  fold_left (ExpensesPage.resolvePendingEmail db) l st
  = (Js.set_add_all (fst st)
       (flat_map (accountsFor db) (filter (resolves db) (map Js.trim l))),
     snd st ++ filter (resolves db) (map Js.trim l)).
Proof.
  revert st. induction l as [|e l IH]; intro st.
  - simpl. destruct st. now rewrite app_nil_r.
  - cbn [fold_left map filter]. rewrite IH, resolvePendingEmail_trim.
    destruct (resolves db (Js.trim e)); cbn [fst snd flat_map].
    + now rewrite set_add_all_app, <- app_assoc.
    + reflexivity.
Qed.

(** [updateDoc] is not imported: the call is never made. *)
Lemma tryCall_updateDoc (call : M unit) (db : Db) :
  ExpensesPage.tryCall "updateDoc" call db = (false, db).
Proof. reflexivity. Qed.

(** The resolution in closed form, for any stored group. *)
Lemma loadGroupMembers_run_any (db : Db) (gid : docid) (group : Group.t) :
  lookup Nat.eqb gid (groups db) = Some group ->
  ExpensesPage.loadGroupMembers (Some gid) db
  = (Some (resolvedIds db group), db).
Proof.
  intros Hg. unfold ExpensesPage.loadGroupMembers. rewrite Hg. cbv zeta.
  rewrite memberEmails_loop, pendingEmails_loop_any.
  cbn [fst snd app]. fold (promotedOf db group). fold (resolvedIds db group).
  destruct (promotedOf db group); [reflexivity|].
  unfold bind. now rewrite tryCall_updateDoc.
Qed.

(** The resolution never changes the store. *)
Lemma loadGroupMembers_store (g : option docid) (db : Db) :
  run (ExpensesPage.loadGroupMembers g) db = db.
Proof.
  destruct g as [gid|]; [|reflexivity].
  destruct (lookup Nat.eqb gid (groups db)) as [group|] eqn:Hg.
  - unfold run. now rewrite (loadGroupMembers_run_any db gid group Hg).
  - unfold ExpensesPage.loadGroupMembers, run. now rewrite Hg.
Qed.

Lemma resolvedIds_In (db : Db) (group : Group.t) (u : uid) :
  In u (resolvedIds db group) <->
  In u (Group.members group)
  \/ (exists e, In e (Group.memberEmails group) /\ In u (accountsFor db e))
  \/ (exists p, In p (Group.pendingMemberEmails group)
                /\ Js.trim p <> ""
                /\ In u (accountsFor db (Js.trim p))).
Proof.
  unfold resolvedIds, promotedOf.
  rewrite !set_add_all_In, new_Set_In, !in_flat_map.
  assert (Hp : (exists x, In x (filter (resolves db)
                                  (map Js.trim (Group.pendingMemberEmails group)))
                          /\ In u (accountsFor db x))
               <-> exists p, In p (Group.pendingMemberEmails group)
                             /\ Js.trim p <> ""
                             /\ In u (accountsFor db (Js.trim p))).
  { split.
    - intros [x [Hx Hu]]. apply filter_In in Hx. destruct Hx as [Hx Hr].
      apply in_map_iff in Hx. destruct Hx as [p [Hpx Hp]]. subst x.
      exists p. split; [exact Hp|]. split; [|exact Hu].
      unfold resolves in Hr. apply andb_true_iff in Hr. destruct Hr as [Hr _].
      apply negb_true_iff in Hr. now apply String.eqb_neq in Hr.
    - intros [p [Hp [Hne Hu]]]. exists (Js.trim p). split; [|exact Hu].
      apply filter_In. split; [now apply in_map|].
      unfold resolves. apply andb_true_iff. split.
      + apply negb_true_iff. now apply String.eqb_neq.
      + now destruct (accountsFor db (Js.trim p)). }
  rewrite Hp. tauto.
Qed.

(** C8 (the code at the failing input): [U] invited [b@x.com], who then
    registered as [B].  Resolution finds [B] for the pending email and
    shows [U] and [B] as members, but the group document it leaves behind is
    the one it found: [B] is not among the stored members and [b@x.com] is
    still pending.  The same holds of every store and selection: resolution
    never changes the store, because the update is sent through
    [updateDoc], which expenses.js does not import. *)
Theorem loadGroupMembers_promotion_not_stored :
  (forall (g : option docid) (db : Db),
      run (ExpensesPage.loadGroupMembers g) db = db)
  /\ exists group,
       lookup Nat.eqb 0 (groups Ex5.db_registered) = Some group
       /\ Group.members group = ["U"]
       /\ Group.pendingMemberEmails group = ["b@x.com"]
       /\ accountsFor Ex5.db_registered "b@x.com" = ["B"]
       /\ result (ExpensesPage.loadGroupMembers (Some 0)) Ex5.db_registered
          = Some ["U"; "B"]
       /\ lookup Nat.eqb 0
            (groups (run (ExpensesPage.loadGroupMembers (Some 0))
                         Ex5.db_registered))
          = Some group.
Proof.
  split; [exact loadGroupMembers_store|].
  eexists. split; [reflexivity|]. split; [reflexivity|].
  split; [reflexivity|]. split; [reflexivity|]. split; reflexivity.
Qed.

(** X16: membership resolution never takes anything away from the
    confirmed side and never adds to the pending side.  Without a group
    selection or for an unknown group it does nothing; for any stored
    group, whatever its emails look like, every former member and member
    email is still there afterwards, every pending email afterwards was
    pending before, the creator and the name are kept, and users, expenses
    and settlements are not touched. *)
Theorem loadGroupMembers_monotone :
  (forall (db : Db),
      ExpensesPage.loadGroupMembers None db = (None, db))
  /\ (forall (db : Db) (gid : docid),
      lookup Nat.eqb gid (groups db) = None ->
      ExpensesPage.loadGroupMembers (Some gid) db = (None, db))
  /\ (forall (db : Db) (gid : docid) (group : Group.t),
      lookup Nat.eqb gid (groups db) = Some group ->
      let db1 := run (ExpensesPage.loadGroupMembers (Some gid)) db in
      users db1 = users db
      /\ expenses db1 = expenses db
      /\ settlements db1 = settlements db
      /\ exists group1 memberIds,
           lookup Nat.eqb gid (groups db1) = Some group1
           /\ result (ExpensesPage.loadGroupMembers (Some gid)) db
              = Some memberIds
           /\ (forall u, In u (Group.members group) -> In u memberIds)
           /\ (forall u, In u (Group.members group) ->
                         In u (Group.members group1))
           /\ (forall e, In e (Group.memberEmails group) ->
                         In e (Group.memberEmails group1))
           /\ (forall p, In p (Group.pendingMemberEmails group1) ->
                         In p (Group.pendingMemberEmails group))
           /\ Group.createdBy group1 = Group.createdBy group
           /\ Group.name group1 = Group.name group).
Proof.
  split; [reflexivity|]. split.
  { intros db gid Hg. unfold ExpensesPage.loadGroupMembers. now rewrite Hg. }
  intros db gid group Hg db1. subst db1. unfold run, result.
  rewrite (loadGroupMembers_run_any db gid group Hg). cbn [fst snd].
  repeat split. exists group, (resolvedIds db group).
  split; [exact Hg|]. split; [reflexivity|].
  assert (Hids : forall u, In u (Group.members group) ->
                           In u (resolvedIds db group)).
  { intros u Hu. apply resolvedIds_In. now left. }
  now repeat split.
Qed.

(** X17: the member set [loadGroupMembers] shows.  For a stored group
    whose emails are made of ASCII characters, the set it builds holds no
    identifier twice and consists of exactly the stored members, the
    accounts found for the group's member emails and the accounts found for
    its pending emails once trimmed (empty ones are skipped); an account is
    looked up under the lower-cased address first and under the address as
    written when that finds nobody. *)
Theorem loadGroupMembers_member_set :
  forall (db : Db) (gid : docid) (group : Group.t),
    lookup Nat.eqb gid (groups db) = Some group ->
    Forall (fun e => asciiOnly e = true)
           (Group.memberEmails group ++ Group.pendingMemberEmails group) ->
    exists memberIds,
      result (ExpensesPage.loadGroupMembers (Some gid)) db = Some memberIds
      /\ NoDup memberIds
      /\ forall u,
           In u memberIds <->
           In u (Group.members group)
           \/ (exists e, In e (Group.memberEmails group)
                         /\ In u (accountsFor db e))
           \/ (exists p, In p (Group.pendingMemberEmails group)
                         /\ Js.trim p <> ""
                         /\ In u (accountsFor db (Js.trim p))).
Proof.
  intros db gid group Hg _. exists (resolvedIds db group).
  unfold result. rewrite (loadGroupMembers_run_any db gid group Hg).
  split; [reflexivity|]. split.
  - unfold resolvedIds.
    apply set_add_all_NoDup, set_add_all_NoDup, new_Set_NoDup.
  - apply resolvedIds_In.
Qed.

(** X17 (witness): a group whose pending email carries a leading blank. *)
Lemma loadGroupMembers_member_set_witness :
  exists memberIds,
    result (ExpensesPage.loadGroupMembers (Some 0)) Ex3.db_padded
    = Some memberIds
    /\ NoDup memberIds
    /\ forall u,
         In u memberIds <->
         In u ["U"]
         \/ (exists e, In e ["a@x.com"] /\ In u (accountsFor Ex3.db_padded e))
         \/ (exists p, In p [" a@x.com"]
                       /\ Js.trim p <> ""
                       /\ In u (accountsFor Ex3.db_padded (Js.trim p))).
Proof.
  apply (loadGroupMembers_member_set Ex3.db_padded 0
           (Group.mk "Trip" "" ["U"] ["a@x.com"] [" a@x.com"] (Some "U") "t0")).
  - reflexivity.
  - repeat (constructor; [reflexivity|]). constructor.
Defined.

(** ** Registering and being listed *)

Lemma lookup_app_none_str {V : Type} (k : string) (v : V)
  (l : list (string * V)) :
  lookup String.eqb k l = None ->
  lookup String.eqb k (l ++ [(k, v)]) = Some v.
Proof.
  induction l as [|[k' v'] l IH]; simpl.
  - now rewrite String.eqb_refl.
  - destruct (k' =? k); [discriminate|exact IH].
Qed.

Lemma In_update_const {V : Type} (k : string) (v v0 : V)
  (l : list (string * V)) :
  lookup String.eqb k l = Some v0 ->
  In (k, v) (update String.eqb k (fun _ => v) l).
Proof.
  induction l as [|[k' v'] l IH]; simpl; [discriminate|].
  destruct (String.eqb_spec k' k) as [Heq|Hne].
  - subst k'. intros _. now left.
  - intro H. right. now apply IH.
Qed.

Lemma signUp_profile (u : uid) (email name : string) (db : Db) :
  let d := User.mk name (Js.toLowerCase (Js.trim email)) 0 1 [] in
  let db1 := run (Auth.signUp (Some u) email name) db in
  lookup String.eqb u (users db1) = Some d
  /\ In (u, d) (users db1)
  /\ groups db1 = groups db
  /\ expenses db1 = expenses db
  /\ settlements db1 = settlements db.
Proof.
  intros d db1. subst db1. unfold Auth.signUp, run, bind, ret,
    Auth.setUserDoc. cbn [fst snd users groups expenses settlements].
  fold d. destruct (lookup String.eqb u (users db)) as [v0|] eqn:Hu.
  - split; [|split; [|now repeat split]].
    + etransitivity; [apply lookup_update_same_str|]. now rewrite Hu.
    + exact (In_update_const u d v0 _ Hu).
  - split; [|split; [|now repeat split]].
    + exact (lookup_app_none_str u d _ Hu).
    + apply in_or_app. right. now left.
Qed.

(** X18: an invited person who registers is listed by the next
    resolution.  For an address of ASCII characters, [signUp] stores the
    profile under the trimmed, lower-cased address with no points, level 1
    and no badge; if a stored group holds a pending email that is, once
    trimmed and lower-cased, that address and not empty, the member set
    [loadGroupMembers] builds for that group afterwards contains the new
    account. *)
Theorem signUp_then_resolution_lists :
  forall (db : Db) (u : uid) (email name : string) (gid : docid)
         (group : Group.t) (p : string),
    asciiOnly email = true ->
    lookup Nat.eqb gid (groups db) = Some group ->
    In p (Group.pendingMemberEmails group) ->
    Js.trim p <> "" ->
    Js.toLowerCase (Js.trim email) = Js.toLowerCase (Js.trim p) ->
    let db1 := run (Auth.signUp (Some u) email name) db in
    lookup String.eqb u (users db1)
    = Some (User.mk name (Js.toLowerCase (Js.trim email)) 0 1 [])
    /\ exists memberIds,
         result (ExpensesPage.loadGroupMembers (Some gid)) db1
         = Some memberIds
         /\ In u memberIds.
Proof.
  intros db u email name gid group p _ Hg Hp Hne Hmail db1.
  destruct (signUp_profile u email name db) as (Hl & Hin & Hgr & _).
  fold db1 in Hl, Hin, Hgr. split; [exact Hl|].
  assert (Hg1 : lookup Nat.eqb gid (groups db1) = Some group)
    by (now rewrite Hgr).
  assert (Hacc : In u (usersByEmail db1 (Js.toLowerCase (Js.trim p)))).
  { unfold usersByEmail.
    change u with (fst (u, User.mk name (Js.toLowerCase (Js.trim email)) 0 1 [])).
    apply in_map. apply filter_In. split; [exact Hin|].
    cbn. rewrite Hmail. apply String.eqb_refl. }
  assert (Hacc' : In u (accountsFor db1 (Js.trim p))).
  { unfold accountsFor.
    destruct (usersByEmail db1 (Js.toLowerCase (Js.trim p))); [destruct Hacc|].
    exact Hacc. }
  exists (resolvedIds db1 group). unfold result.
  rewrite (loadGroupMembers_run_any db1 gid group Hg1).
  split; [reflexivity|]. apply resolvedIds_In. right. right.
  exists p. now repeat split.
Qed.

(** X18 (witness): the invited owner of [b@x.com] registers as
    [" B@X.com "]. *)
Lemma signUp_then_resolution_lists_witness :
  let db1 := run (Auth.signUp (Some "B") " B@X.com " "Bob") Ex5.db_invited in
  lookup String.eqb "B" (users db1)
  = Some (User.mk "Bob" (Js.toLowerCase (Js.trim " B@X.com ")) 0 1 [])
  /\ exists memberIds,
       result (ExpensesPage.loadGroupMembers (Some 0)) db1 = Some memberIds
       /\ In "B" memberIds.
Proof.
  apply (signUp_then_resolution_lists Ex5.db_invited "B" " B@X.com " "Bob" 0
           (Group.mk "Trip" "" ["U"] ["b@x.com"] ["b@x.com"] (Some "U") "t0")
           "b@x.com").
  - reflexivity.
  - reflexivity.
  - left. reflexivity.
  - intro H. discriminate H.
  - reflexivity.
Defined.

(** ** The expense page *)

Lemma or_zero_positive (v : Js.number) :
  PrimFloat.leb (Js.or_zero v) 0%float = false -> Js.or_zero v = v.
Proof.
  unfold Js.or_zero. destruct (Js.falsy v); [|reflexivity].
  intro H. vm_compute in H. discriminate H.
Qed.

Lemma set_In {V : Type} (k m : string) (v c : V) (o : Js.obj V) :
  In (k, v) (Js.set m c o) -> (k = m /\ v = c) \/ In (k, v) o.
Proof.
  induction o as [|[k' v'] o IH]; simpl.
  - intros [H|[]]. left. split; congruence.
  - destruct (k' =? m); simpl.
    + intros [H|H]; [left; split; congruence|right; now right].
    + intros [H|H]; [right; now left|].
      destruct (IH H) as [Hl|Hr]; [now left|right; now right].
Qed.

Lemma assign_all_In (c : Js.number) (l : list uid) (o : Js.obj Js.number)
  (k : uid) (v : Js.number) :
  In (k, v) (fold_left (fun acc m => Js.set m c acc) l o) ->
  (v = c /\ In k l) \/ In (k, v) o.
Proof.
  revert o. induction l as [|m l IH]; intros o H; [now right|].
  simpl in H. destruct (IH _ H) as [[Hv Hk]|Hin].
  - left. split; [exact Hv|now right].
  - destruct (set_In _ _ _ _ _ Hin) as [[Hk Hv]|Ho]; [|now right].
    left. split; [exact Hv|left; now symmetry].
Qed.

Lemma get_In {V : Type} (k : string) (v : V) (o : Js.obj V) :
  Js.get k o = Some v -> In (k, v) o.
Proof.
  induction o as [|[k' v'] o IH]; simpl; [discriminate|].
  destruct (String.eqb_spec k' k) as [Heq|Hne].
  - intro H. left. congruence.
  - intro H. right. now apply IH.
Qed.

(** What every entry of the list says. *)
Lemma itemsOf_In (eid : docid) (expense : Expense.t)
  (split : Js.obj Js.number) (it : ExpenseBreakdown.Item) :
  In it (ExpenseBreakdown.itemsOf eid expense split) ->
  In (ExpenseBreakdown.userId it, ExpenseBreakdown.amount it) split
  /\ ExpenseBreakdown.userId it <> ""
  /\ ExpenseBreakdown.userId it <> Expense.paidBy expense
  /\ PrimFloat.leb (ExpenseBreakdown.amount it) 0%float = false
  /\ ExpenseBreakdown.owedTo it = Expense.paidBy expense
  /\ ExpenseBreakdown.expenseId it = eid
  /\ ExpenseBreakdown.groupId it = Expense.groupId expense
  /\ ExpenseBreakdown.id it
     = String.append "local-" (ExpenseBreakdown.userId it).
Proof.
  unfold ExpenseBreakdown.itemsOf, Js.entries. intro H.
  apply in_flat_map in H. destruct H as [[k v] [Hkv H]].
  cbn [fst snd] in H.
  destruct (String.eqb_spec k "") as [|Hk]; [destruct H|].
  destruct (String.eqb_spec k (Expense.paidBy expense)) as [|Hp];
    [destruct H|].
  cbn [orb] in H.
  destruct (PrimFloat.leb (Js.or_zero v) 0%float) eqn:Hpos; [destruct H|].
  destruct H as [H|[]]. subst it. cbn.
  rewrite (or_zero_positive v Hpos). rewrite (or_zero_positive v Hpos) in Hpos.
  now repeat split.
Qed.

(** An entry of the split with a positive amount for somebody else than
    the payer is listed. *)
Lemma itemsOf_lists (eid : docid) (expense : Expense.t)
  (split : Js.obj Js.number) (m : uid) (v : Js.number) :
  In (m, v) split ->
  m <> "" ->
  m <> Expense.paidBy expense ->
  PrimFloat.leb (Js.or_zero v) 0%float = false ->
  exists it,
    In it (ExpenseBreakdown.itemsOf eid expense split)
    /\ ExpenseBreakdown.userId it = m
    /\ ExpenseBreakdown.amount it = v.
Proof.
  intros Hin Hm Hp Hpos. eexists. split.
  - unfold ExpenseBreakdown.itemsOf, Js.entries. apply in_flat_map.
    exists (m, v). split; [exact Hin|]. cbn [fst snd].
    destruct (String.eqb_spec m "") as [|_]; [contradiction|].
    destruct (String.eqb_spec m (Expense.paidBy expense)) as [|_];
      [contradiction|].
    cbn [orb]. rewrite Hpos. left. reflexivity.
  - cbn. split; [reflexivity|]. now apply or_zero_positive.
Qed.

(** X19: the list of the expense page.  For a stored expense the page
    shows the same entries to every viewer; each entry names a debtor who
    is not empty and not the payer, is owed to the payer, carries the
    identifiers of the expense and its group, has an amount that is not
    zero or below, and, when the expense stores a non-empty share mapping,
    is an entry of that mapping. *)
Theorem loadExpenseDetails_items :
  forall (db : Db) (viewer : uid) (eid : docid) (expense : Expense.t),
    lookup Nat.eqb eid (expenses db) = Some expense ->
    exists d,
      ExpenseBreakdown.loadExpenseDetails db viewer eid = Some d
      /\ (forall other,
             option_map ExpenseBreakdown.settlements
               (ExpenseBreakdown.loadExpenseDetails db other eid)
             = Some (ExpenseBreakdown.settlements d))
      /\ (forall it,
             In it (ExpenseBreakdown.settlements d) ->
             ExpenseBreakdown.userId it <> ""
             /\ ExpenseBreakdown.userId it <> Expense.paidBy expense
             /\ ExpenseBreakdown.owedTo it = Expense.paidBy expense
             /\ ExpenseBreakdown.expenseId it = eid
             /\ ExpenseBreakdown.groupId it = Expense.groupId expense
             /\ PrimFloat.leb (ExpenseBreakdown.amount it) 0%float = false
             /\ (forall o,
                    Expense.splitAmounts expense = Some o ->
                    o <> [] ->
                    In (ExpenseBreakdown.userId it,
                        ExpenseBreakdown.amount it) o)).
Proof.
  intros db viewer eid expense He.
  unfold ExpenseBreakdown.loadExpenseDetails. rewrite He. cbv zeta.
  eexists. split; [reflexivity|]. cbn [ExpenseBreakdown.settlements].
  split; [reflexivity|].
  intros it Hit. apply itemsOf_In in Hit.
  destruct Hit as (Hin & Hu & Hp & Hpos & Ho & Hi & Hg & _).
  repeat split; try assumption.
  intros o Hso Hne. unfold ExpenseBreakdown.splitOf in Hin.
  rewrite Hso in Hin. destruct o as [|kv o]; [contradiction|].
  exact Hin.
Qed.

(** X19 (witness): the expense of 300 seen by [M1]. *)
Lemma loadExpenseDetails_items_witness :
  exists d,
    ExpenseBreakdown.loadExpenseDetails Ex.db300 Ex.M1 1 = Some d
    /\ (forall other,
           option_map ExpenseBreakdown.settlements
             (ExpenseBreakdown.loadExpenseDetails Ex.db300 other 1)
           = Some (ExpenseBreakdown.settlements d))
    /\ (forall it,
           In it (ExpenseBreakdown.settlements d) ->
           ExpenseBreakdown.userId it <> ""
           /\ ExpenseBreakdown.userId it <> Ex.P
           /\ ExpenseBreakdown.owedTo it = Ex.P
           /\ ExpenseBreakdown.expenseId it = 1
           /\ ExpenseBreakdown.groupId it = 0
           /\ PrimFloat.leb (ExpenseBreakdown.amount it) 0%float = false
           /\ (forall o,
                  Some [(Ex.P, 100%float); (Ex.M1, 100%float);
                        (Ex.M2, 100%float)] = Some o ->
                  o <> [] ->
                  In (ExpenseBreakdown.userId it,
                      ExpenseBreakdown.amount it) o)).
Proof.
  apply (loadExpenseDetails_items Ex.db300 Ex.M1 1
           (Expense.mk None 0 "Flat" "Trip" 300%float "2024-01-02" Ex.P
              "equal" [Ex.P; Ex.M1; Ex.M2]
              (Some [(Ex.P, 100%float); (Ex.M1, 100%float);
                     (Ex.M2, 100%float)]) "t1" None)).
  reflexivity.
Defined.

(** X20: an expense stored without a share mapping but with its
    participants is shown with the amount divided among the participants
    other than the payer: every entry belongs to such a participant and
    carries that quotient, and when the quotient is a positive number every
    such participant has an entry. *)
Theorem loadExpenseDetails_without_mapping :
  forall (db : Db) (viewer : uid) (eid : docid) (expense : Expense.t)
         (d : ExpenseBreakdown.Details),
    lookup Nat.eqb eid (expenses db) = Some expense ->
    Expense.splitAmounts expense = None ->
    Expense.splitMembers expense <> [] ->
    ExpenseBreakdown.loadExpenseDetails db viewer eid = Some d ->
    let others :=
      filter (fun m => negb (m =? "") && negb (m =? Expense.paidBy expense))
             (Expense.splitMembers expense) in
    let share :=
      PrimFloat.div (Js.or_zero (Expense.amount expense))
                    (Js.of_nat (List.length others)) in
    (forall it,
        In it (ExpenseBreakdown.settlements d) ->
        In (ExpenseBreakdown.userId it) others
        /\ ExpenseBreakdown.amount it = share)
    /\ (PrimFloat.leb (Js.or_zero share) 0%float = false ->
        forall m, In m others ->
                  exists it, In it (ExpenseBreakdown.settlements d)
                             /\ ExpenseBreakdown.userId it = m
                             /\ ExpenseBreakdown.amount it = share).
Proof.
  intros db viewer eid expense d He Hnone Hms Hd others share.
  unfold ExpenseBreakdown.loadExpenseDetails in Hd. rewrite He in Hd.
  cbv zeta in Hd. injection Hd as Hd. subst d.
  cbn [ExpenseBreakdown.settlements].
  assert (Hsplit : ExpenseBreakdown.splitOf db expense
                   = ExpensesPage.equalSplit
                       (Js.or_zero (Expense.amount expense)) others).
  { unfold ExpenseBreakdown.splitOf. rewrite Hnone. cbn [Js.keys map is_nil].
    destruct (Expense.splitMembers expense) eqn:E; [contradiction|].
    reflexivity. }
  rewrite Hsplit. split.
  - intros it Hit. apply itemsOf_In in Hit. destruct Hit as [Hin _].
    unfold ExpensesPage.equalSplit in Hin.
    apply assign_all_In in Hin. destruct Hin as [[Hv Hk]|[]].
    split; [exact Hk|exact Hv].
  - intros Hpos m Hm.
    assert (Hf := Hm). apply filter_In in Hf. destruct Hf as [_ Hf].
    apply andb_true_iff in Hf. destruct Hf as [Hf1 Hf2].
    apply negb_true_iff in Hf1, Hf2.
    apply String.eqb_neq in Hf1, Hf2.
    apply itemsOf_lists; try assumption.
    apply get_In. rewrite equalSplit_get.
    apply includes_In in Hm.
    match goal with |- context [if ?c then _ else _] =>
      replace c with true by (symmetry; exact Hm) end.
    reflexivity.
Qed.

(** X20 (witness): 300 paid by [P] for three participants is shown as 150
    for each of the two others. *)
Lemma loadExpenseDetails_without_mapping_witness :
  let others :=
    filter (fun m => negb (m =? "") && negb (m =? Ex.P)) [Ex.P; Ex.M1; Ex.M2] in
  let share :=
    PrimFloat.div (Js.or_zero 300%float) (Js.of_nat (List.length others)) in
  let items :=
    ExpenseBreakdown.itemsOf 5 Ex4.legacy
      (ExpenseBreakdown.splitOf Ex4.db_legacy Ex4.legacy) in
  (forall it,
      In it items ->
      In (ExpenseBreakdown.userId it) others
      /\ ExpenseBreakdown.amount it = share)
  /\ (PrimFloat.leb (Js.or_zero share) 0%float = false ->
      forall m, In m others ->
                exists it, In it items
                           /\ ExpenseBreakdown.userId it = m
                           /\ ExpenseBreakdown.amount it = share).
Proof.
  apply (loadExpenseDetails_without_mapping Ex4.db_legacy Ex.M1 5 Ex4.legacy
           (ExpenseBreakdown.mkDetails
              (ExpenseBreakdown.itemsOf 5 Ex4.legacy
                 (ExpenseBreakdown.splitOf Ex4.db_legacy Ex4.legacy))
              150%float 0%float true)).
  - reflexivity.
  - reflexivity.
  - intro H. discriminate H.
  - vm_compute. reflexivity.
Defined.

(** The status shown for a user once somebody marked a share paid. *)
Lemma statusOf_markedPaid (e : Expense.t) (me u : uid) :
  ExpenseBreakdown.statusOf
    (ExpenseDetails.withStatus (ExpenseDetails.markedPaid e me) e) u
  = if u =? me then paid else ExpenseBreakdown.statusOf e u.
Proof.
  unfold ExpenseBreakdown.statusOf, ExpenseDetails.withStatus,
    ExpenseDetails.markedPaid. cbn [Expense.settlementStatus].
  destruct (String.eqb_spec u me) as [Heq|Hne].
  - subst u. now rewrite get_set_same.
  - rewrite get_set_other by (intro H; now apply Hne).
    now destruct (Expense.settlementStatus e).
Qed.

(** The amount owed to the viewer does not look at the statuses. *)
Lemma totals_owed_any_status (viewer : uid) (e e' : Expense.t)
  (items : list ExpenseBreakdown.Item) :
  snd (ExpenseBreakdown.totals viewer e' items)
  = snd (ExpenseBreakdown.totals viewer e items).
Proof.
  unfold ExpenseBreakdown.totals.
  match goal with
  | |- snd (fold_left ?F' _ _) = snd (fold_left ?F _ _) =>
      enough (H : forall acc acc',
                 snd acc = snd acc' ->
                 snd (fold_left F' items acc') = snd (fold_left F items acc))
        by (now apply H)
  end.
  induction items as [|s items IH]; intros acc acc' Hacc; cbn [fold_left];
    [now symmetry|].
  apply IH. cbn [snd]. now rewrite Hacc.
Qed.

(** A viewer whose share is marked paid owes nothing. *)
Lemma totals_paid_owes_nothing (viewer : uid) (e : Expense.t)
  (items : list ExpenseBreakdown.Item) :
  ExpenseBreakdown.statusOf e viewer = paid ->
  fst (ExpenseBreakdown.totals viewer e items) = 0%float.
Proof.
  intro Hpaid. unfold ExpenseBreakdown.totals.
  match goal with
  | |- fst (fold_left ?F _ ?a) = _ =>
      enough (H : forall acc, fst (fold_left F items acc) = fst acc)
        by (now rewrite H)
  end.
  induction items as [|s items IH]; intro acc; cbn [fold_left];
    [reflexivity|].
  rewrite IH. cbn [fst].
  destruct (ExpenseBreakdown.userId s =? viewer) eqn:E; [|reflexivity].
  apply String.eqb_eq in E. rewrite E, Hpaid. cbn [Status_eqb negb].
  now rewrite andb_false_r.
Qed.

(** Marking the share of [me] paid changes no total of anybody else. *)
Lemma totals_other_viewer (viewer me : uid) (e : Expense.t)
  (items : list ExpenseBreakdown.Item) :
  viewer <> me ->
  ExpenseBreakdown.totals viewer
    (ExpenseDetails.withStatus (ExpenseDetails.markedPaid e me) e) items
  = ExpenseBreakdown.totals viewer e items.
Proof.
  intro Hne. unfold ExpenseBreakdown.totals.
  generalize (0%float, 0%float).
  induction items as [|s items IH]; intro acc; cbn [fold_left];
    [reflexivity|].
  rewrite IH. f_equal. f_equal.
  destruct (ExpenseBreakdown.userId s =? viewer) eqn:E; [|reflexivity].
  apply String.eqb_eq in E. rewrite statusOf_markedPaid, E.
  destruct (String.eqb_spec viewer me) as [|_]; [contradiction|reflexivity].
Qed.

(** X21: marking one's share paid on the expense page.  When a user other
    than the payer settles a stored expense, the page afterwards shows that
    user owing nothing and creates no settle button; every viewer still
    sees the same entries and the same amount owed to them, so the payer's
    total does not go down; and for every other viewer the whole page is
    unchanged. *)
Theorem settlePayment_then_details :
  forall (db : Db) (me : uid) (eid : docid) (expense : Expense.t),
    lookup Nat.eqb eid (expenses db) = Some expense ->
    me <> Expense.paidBy expense ->
    let db1 := run (ExpenseDetails.settlePayment (Some me) eid) db in
    (exists d1,
        ExpenseBreakdown.loadExpenseDetails db1 me eid = Some d1
        /\ ExpenseBreakdown.youOwe d1 = 0%float
        /\ ExpenseBreakdown.settleButton d1 = false)
    /\ (forall viewer,
          option_map ExpenseBreakdown.settlements
            (ExpenseBreakdown.loadExpenseDetails db1 viewer eid)
          = option_map ExpenseBreakdown.settlements
              (ExpenseBreakdown.loadExpenseDetails db viewer eid)
          /\ option_map ExpenseBreakdown.owedToYou
               (ExpenseBreakdown.loadExpenseDetails db1 viewer eid)
             = option_map ExpenseBreakdown.owedToYou
                 (ExpenseBreakdown.loadExpenseDetails db viewer eid)
          /\ (viewer <> me ->
              ExpenseBreakdown.loadExpenseDetails db1 viewer eid
              = ExpenseBreakdown.loadExpenseDetails db viewer eid)).
Proof.
  intros db me eid expense He Hme db1.
  set (e1 := ExpenseDetails.withStatus
               (ExpenseDetails.markedPaid expense me) expense).
  assert (Hl : lookup Nat.eqb eid (expenses db1) = Some e1).
  { subst db1. unfold run.
    rewrite (expense_settlePayment_other db me eid expense He Hme).
    cbn [snd expenses]. now rewrite lookup_update_same, He. }
  assert (Hitems : forall i,
             ExpenseBreakdown.itemsOf i e1 (ExpenseBreakdown.splitOf db1 e1)
             = ExpenseBreakdown.itemsOf i expense
                 (ExpenseBreakdown.splitOf db expense)).
  { intro i. subst db1. unfold run.
    rewrite (expense_settlePayment_other db me eid expense He Hme).
    reflexivity. }
  unfold ExpenseBreakdown.loadExpenseDetails. rewrite Hl, He. cbv zeta.
  rewrite Hitems. split.
  - eexists. split; [reflexivity|].
    cbn [ExpenseBreakdown.youOwe ExpenseBreakdown.settleButton].
    rewrite totals_paid_owes_nothing.
    + split; reflexivity.
    + unfold e1. rewrite statusOf_markedPaid. now rewrite String.eqb_refl.
  - intro viewer. cbn [option_map ExpenseBreakdown.settlements
                       ExpenseBreakdown.owedToYou].
    split; [reflexivity|]. split.
    + f_equal. apply totals_owed_any_status.
    + intro Hv. unfold e1. now rewrite totals_other_viewer.
Qed.

(** X21 (witness): [M1] settles the expense of 300 paid by [P]. *)
Lemma settlePayment_then_details_witness :
  let db1 := run (ExpenseDetails.settlePayment (Some Ex.M1) 1) Ex.db300 in
  (exists d1,
      ExpenseBreakdown.loadExpenseDetails db1 Ex.M1 1 = Some d1
      /\ ExpenseBreakdown.youOwe d1 = 0%float
      /\ ExpenseBreakdown.settleButton d1 = false)
  /\ (forall viewer,
        option_map ExpenseBreakdown.settlements
          (ExpenseBreakdown.loadExpenseDetails db1 viewer 1)
        = option_map ExpenseBreakdown.settlements
            (ExpenseBreakdown.loadExpenseDetails Ex.db300 viewer 1)
        /\ option_map ExpenseBreakdown.owedToYou
             (ExpenseBreakdown.loadExpenseDetails db1 viewer 1)
           = option_map ExpenseBreakdown.owedToYou
               (ExpenseBreakdown.loadExpenseDetails Ex.db300 viewer 1)
        /\ (viewer <> Ex.M1 ->
            ExpenseBreakdown.loadExpenseDetails db1 viewer 1
            = ExpenseBreakdown.loadExpenseDetails Ex.db300 viewer 1)).
Proof.
  apply (settlePayment_then_details Ex.db300 Ex.M1 1
           (Expense.mk None 0 "Flat" "Trip" 300%float "2024-01-02" Ex.P
              "equal" [Ex.P; Ex.M1; Ex.M2]
              (Some [(Ex.P, 100%float); (Ex.M1, 100%float);
                     (Ex.M2, 100%float)]) "t1" None)).
  - reflexivity.
  - intro H. discriminate H.
Defined.

(** ** The two records of a payment *)

Lemma update_keeps_email (k : uid) (f : User.t -> User.t) (e : string)
  (l : list (uid * User.t)) :
  (forall x, User.email (f x) = User.email x) ->
  map fst (filter (fun kv => User.email (snd kv) =? e)
                  (update String.eqb k f l))
  = map fst (filter (fun kv => User.email (snd kv) =? e) l).
Proof.
  intro Hf. induction l as [|[k' v] l IH]; [reflexivity|].
  cbn [update]. destruct (String.eqb k' k).
  - cbn [filter snd]. rewrite Hf. now destruct (User.email v =? e).
  - cbn [filter snd]. destruct (User.email v =? e); cbn [map]; now rewrite IH.
Qed.

(** Experience points never change which account an email belongs to. *)
Lemma awardXP_usersByEmail (u : uid) (points : nat) (db : Db) (e : string) :
  usersByEmail (run (Analytics.awardXP u points) db) e = usersByEmail db e.
Proof.
  unfold Analytics.awardXP, run.
  destruct (lookup String.eqb u (users db)); [|reflexivity].
  unfold bind, Analytics.updateUser, Analytics.checkBadges.
  cbn [fst snd users].
  destruct (lookup String.eqb u _); cbn [snd];
    [|unfold usersByEmail; cbn [users]; now apply update_keeps_email].
  destruct (map fst _); unfold Analytics.updateUser, usersByEmail;
    cbn [snd users]; rewrite ?update_keeps_email by reflexivity; reflexivity.
Qed.

Lemma fold_left_ext_eq {A B : Type} (f g : A -> B -> A) (l : list B) (a : A) :
  (forall x y, f x y = g x y) -> fold_left f l a = fold_left g l a.
Proof.
  intro H. revert a. induction l as [|b l IH]; intro a; [reflexivity|].
  cbn [fold_left]. now rewrite H, IH.
Qed.

(** The expense page reads the expenses, the groups and the accounts by
    email, and nothing else. *)
Lemma loadExpenseDetails_reads (db db' : Db) (viewer : uid) (eid : docid) :
  expenses db' = expenses db ->
  groups db' = groups db ->
  (forall e, usersByEmail db' e = usersByEmail db e) ->
  ExpenseBreakdown.loadExpenseDetails db' viewer eid
  = ExpenseBreakdown.loadExpenseDetails db viewer eid.
Proof.
  intros He Hg Hu. unfold ExpenseBreakdown.loadExpenseDetails. rewrite He.
  destruct (lookup Nat.eqb eid (expenses db)) as [expense|]; [|reflexivity].
  assert (Hs : ExpenseBreakdown.splitOf db' expense
               = ExpenseBreakdown.splitOf db expense).
  { unfold ExpenseBreakdown.splitOf, ExpenseBreakdown.groupMembers.
    rewrite Hg.
    destruct (lookup Nat.eqb (Expense.groupId expense) (groups db));
      [|reflexivity].
    erewrite fold_left_ext_eq; [reflexivity|].
    intros x y. cbv zeta. now rewrite !Hu. }
  cbv zeta. now rewrite Hs.
Qed.

Lemma dashboard_settlePayment_reads (db : Db) (currentUser : option uid)
  (confirmed : bool) (now paymentId : string) (i : docid) :
  let db' :=
    run (Dashboard.settlePayment currentUser confirmed now paymentId i) db in
  groups db' = groups db
  /\ (forall e, usersByEmail db' e = usersByEmail db e)
  /\ (settlements db' = settlements db
      \/ settlements db'
         = update Nat.eqb i (Payments.asPaid now paymentId) (settlements db)).
Proof.
  cbv zeta. unfold Dashboard.settlePayment, run.
  destruct (lookup Nat.eqb i (settlements db)) as [s|] eqn:Hs;
    [|cbn; now auto].
  destruct currentUser as [u|]; [|cbn; now auto].
  unfold Payments.initiatePayment.
  destruct confirmed; [|cbn; now auto].
  pose proof (handlePaymentSuccess_run db (Some u) now paymentId i s Hs) as H.
  unfold run in H. unfold bind, ret.
  destruct (Payments.handlePaymentSuccess (Some u) now paymentId i db)
    as [r db1].
  cbn [snd] in *. subst db1.
  destruct (awardXP_frame u 20
              (mkDb (users db) (groups db) (expenses db)
                 (update Nat.eqb i (Payments.asPaid now paymentId)
                    (settlements db))
                 (nextId db) (writes db ++ [Updated Settlements i])))
    as (Hg & _ & Hst & _).
  split; [exact Hg|]. split; [|right; exact Hst].
  intro e.
  exact (awardXP_usersByEmail u 20
           (mkDb (users db) (groups db) (expenses db)
              (update Nat.eqb i (Payments.asPaid now paymentId)
                 (settlements db))
              (nextId db) (writes db ++ [Updated Settlements i])) e).
Qed.

(** X22: the two places where a payment is recorded never meet.  Marking
    a share paid on the expense page changes no settlement document, so the
    dashboard figures of every user stay what they were; paying a
    settlement from the dashboard changes no expense, so the expense page
    of every user shows what it showed before, the amount still to settle
    included. *)
Theorem payment_records_are_separate :
  (forall (db : Db) (currentUser : option uid) (eid : docid) (viewer : uid),
      let db1 := run (ExpenseDetails.settlePayment currentUser eid) db in
      settlements db1 = settlements db
      /\ Dashboard.loadDashboardStats db1 viewer
         = Dashboard.loadDashboardStats db viewer)
  /\ (forall (db : Db) (currentUser : option uid) (confirmed : bool)
             (now paymentId : string) (i : docid) (viewer : uid)
             (eid : docid),
      let db1 :=
        run (Dashboard.settlePayment currentUser confirmed now paymentId i)
            db in
      expenses db1 = expenses db
      /\ ExpenseBreakdown.loadExpenseDetails db1 viewer eid
         = ExpenseBreakdown.loadExpenseDetails db viewer eid).
Proof.
  split.
  - intros db currentUser eid viewer db1.
    assert (Hs : settlements db1 = settlements db).
    { subst db1. unfold ExpenseDetails.settlePayment, run.
      destruct currentUser as [me|]; [|reflexivity].
      destruct (lookup Nat.eqb eid (expenses db)); [|reflexivity].
      now destruct (me =? Expense.paidBy t). }
    split; [exact Hs|].
    unfold Dashboard.loadDashboardStats, Dashboard.pendingSettlements.
    now rewrite Hs.
  - intros db currentUser confirmed now paymentId i viewer eid db1.
    pose proof (dashboard_settlePayment_expenses db currentUser confirmed now
                  paymentId i) as He.
    destruct (dashboard_settlePayment_reads db currentUser confirmed now
                paymentId i) as (Hg & Hu & _).
    fold db1 in He, Hg, Hu. split; [exact He|].
    now apply loadExpenseDetails_reads.
Qed.

(** ** Settlements under any sequence of actions *)

Lemma lookup_app_some {V : Type} (k : docid) (v : V)
  (l new : list (docid * V)) :
  lookup Nat.eqb k l = Some v -> lookup Nat.eqb k (l ++ new) = Some v.
Proof.
  induction l as [|[k' v'] l IH]; simpl; [discriminate|].
  destruct (Nat.eqb k' k); [trivial|exact IH].
Qed.

Lemma sameDebt_refl (s : Settlement.t) : sameDebt s s.
Proof. unfold sameDebt. now repeat split. Qed.

Lemma settlementsKept_same (db db' : Db) :
  settlements db' = settlements db -> settlementsKept db db'.
Proof.
  intros H i s Hs. exists s. rewrite H.
  split; [exact Hs|]. split; [apply sameDebt_refl|trivial].
Qed.

Lemma settlementsKept_app (db db' : Db) (new : list (docid * Settlement.t)) :
  settlements db' = settlements db ++ new -> settlementsKept db db'.
Proof.
  intros H i s Hs. exists s. rewrite H.
  split; [now apply lookup_app_some|]. split; [apply sameDebt_refl|trivial].
Qed.

Lemma settlementsKept_paid (db db' : Db) (i : docid) (now paymentId : string) :
  settlements db'
  = update Nat.eqb i (Payments.asPaid now paymentId) (settlements db) ->
  settlementsKept db db'.
Proof.
  intros H j s Hs. rewrite H.
  destruct (Nat.eq_dec i j) as [Heq|Hne].
  - subst j. exists (Payments.asPaid now paymentId s).
    rewrite lookup_update_same, Hs. split; [reflexivity|].
    split; [unfold sameDebt; now repeat split|reflexivity].
  - exists s. rewrite lookup_update_other by exact Hne.
    split; [exact Hs|]. split; [apply sameDebt_refl|trivial].
Qed.

Lemma settlementsKept_trans (a b c : Db) :
  settlementsKept a b -> settlementsKept b c -> settlementsKept a c.
Proof.
  intros Hab Hbc i s Hs.
  destruct (Hab i s Hs) as (s1 & H1 & (g1 & e1 & u1 & o1 & a1 & d1 & c1) & P1).
  destruct (Hbc i s1 H1) as (s2 & H2 & (g2 & e2 & u2 & o2 & a2 & d2 & c2) & P2).
  exists s2. split; [exact H2|]. split.
  - unfold sameDebt. repeat split; congruence.
  - intro Hp. apply P2, P1, Hp.
Qed.

Lemma addExpense_settlements (now : string) (f : ExpensesPage.Form) (db : Db) :
  exists new,
    settlements (run (ExpensesPage.addExpense now f) db)
    = settlements db ++ new.
Proof.
  destruct (ExpensesPage.selectedMembers f) as [|m0 ms] eqn:Hsel.
  { exists []. unfold ExpensesPage.addExpense. rewrite Hsel.
    now rewrite app_nil_r. }
  destruct (ExpensesPage.computeSplit f) as [sa|t] eqn:Hsplit.
  2:{ exists []. unfold ExpensesPage.addExpense. rewrite Hsel, Hsplit.
      now rewrite app_nil_r. }
  destruct (ExpensesPage.expenseGroup f) as [g|] eqn:Hg.
  2:{ exists []. unfold ExpensesPage.addExpense. rewrite Hsel, Hsplit, Hg.
      now rewrite app_nil_r. }
  rewrite (addExpense_run now f db sa g); [|congruence|exact Hsplit|exact Hg].
  eexists.
  match goal with
  | |- settlements (run (Analytics.awardXP ?u ?p) ?d) = _ =>
      destruct (awardXP_frame u p d) as (_ & _ & Hst & _); rewrite Hst
  end.
  reflexivity.
Qed.

Lemma exec_settlementsKept (op : Op) (db : Db) :
  settlementsKept db (exec op db).
Proof.
  destruct op as [created email name|cu now f|raw g|g|cu confirmed g
                  |now f|cu e|cu confirmed now paymentId s]; cbn [exec].
  - apply settlementsKept_same. now destruct created.
  - apply settlementsKept_same. destruct cu as [me|]; [|reflexivity].
    unfold GroupsPage.createGroup, run.
    now destruct (fold_left (GroupsPage.findMember db) _ _).
  - apply settlementsKept_same.
    unfold GroupMembers.addMembersToGroup, run.
    destruct (GroupsPage.rawMemberEmails raw); [reflexivity|].
    now destruct (lookup Nat.eqb g (groups db)).
  - apply settlementsKept_same. now rewrite loadGroupMembers_store.
  - apply settlementsKept_same.
    unfold GroupsPage.deleteGroup, run.
    destruct confirmed; [|reflexivity]. cbn [negb].
    destruct (lookup Nat.eqb g (groups db)) as [grp|]; [|reflexivity].
    destruct cu as [me|]; [|reflexivity].
    match goal with
    | |- context [if ?c then _ else _] => destruct c; [reflexivity|]
    end.
    pose proof (deleteAll_run (GroupsPage.expensesOfGroup db g) db) as H.
    unfold run in H. unfold bind, ret.
    destruct (GroupsPage.deleteAll (GroupsPage.expensesOfGroup db g) db)
      as [[] db1].
    cbn [snd] in *. now subst db1.
  - destruct (addExpense_settlements now f db) as [new Hnew].
    exact (settlementsKept_app _ _ new Hnew).
  - apply settlementsKept_same.
    unfold ExpenseDetails.settlePayment, run.
    destruct cu as [me|]; [|reflexivity].
    destruct (lookup Nat.eqb e (expenses db)) as [x|]; [|reflexivity].
    now destruct (me =? Expense.paidBy x).
  - destruct (dashboard_settlePayment_reads db cu confirmed now paymentId s)
      as (_ & _ & [H|H]).
    + now apply settlementsKept_same.
    + exact (settlementsKept_paid _ _ s now paymentId H).
Qed.

(** X23: no action loses a settlement or reopens a paid one.  Whatever
    sequence of sign-ups, group creations, member additions, membership
    resolutions, group deletions, new expenses, expense-page settlements
    and dashboard payments is run, every settlement document stored before
    is still stored under the same identifier with the same group,
    expense, debtor, creditor, amount, description and creation time, and
    if it was paid it is still paid. *)
Theorem settlements_survive_all_actions :
  forall (ops : list Op) (db : Db), settlementsKept db (execAll ops db).
Proof.
  unfold execAll. induction ops as [|op ops IH]; intro db; cbn [fold_left].
  - now apply settlementsKept_same.
  - apply (settlementsKept_trans db (exec op db)).
    + apply exec_settlementsKept.
    + apply IH.
Qed.

(** ** Categories *)

Lemma toLowerCase_app (a b : string) :
  Js.toLowerCase (a ++ b) = (Js.toLowerCase a ++ Js.toLowerCase b)%string.
Proof.
  induction a as [|c a IH]; [reflexivity|]. cbn. now rewrite IH.
Qed.

Lemma prefix_app (k post : string) : String.prefix k (k ++ post) = true.
Proof.
  induction k as [|c k IH]; cbn.
  - now destruct post.
  - destruct (ascii_dec c c) as [_|Hne]; [exact IH|now destruct Hne].
Qed.

Lemma str_includes_app (k pre post : string) :
  Reports.str_includes k (pre ++ k ++ post) = true.
Proof.
  induction pre as [|c pre IH].
  - change (("" ++ k ++ post)%string) with ((k ++ post)%string).
    destruct (k ++ post)%string eqn:E; cbn [Reports.str_includes];
      rewrite <- E, prefix_app; reflexivity.
  - change ((String c pre ++ k ++ post)%string)
      with (String c (pre ++ k ++ post)).
    cbn [Reports.str_includes]. rewrite IH. apply orb_true_r.
Qed.

(** X24: food first.  A description that contains one of the words food,
    restaurant, canteen, dinner or lunch, in any mix of upper and lower
    case and anywhere in the text, is filed under Food whatever else it
    mentions. *)
Theorem categorizeExpense_food_first :
  forall (pre word post : string),
    In (Js.toLowerCase word)
       ["food"; "restaurant"; "canteen"; "dinner"; "lunch"] ->
    Reports.categorizeExpense (pre ++ word ++ post) = "Food".
Proof.
  intros pre word post Hw. unfold Reports.categorizeExpense.
  assert (H : Reports.anyOf
                ["food"; "restaurant"; "canteen"; "dinner"; "lunch"]
                (Js.toLowerCase (pre ++ word ++ post)) = true).
  { unfold Reports.anyOf. apply existsb_exists.
    exists (Js.toLowerCase word). split; [exact Hw|].
    rewrite !toLowerCase_app. apply str_includes_app. }
  now rewrite H.
Qed.

(** X24 (witness): a lunch that also mentions a taxi. *)
Lemma categorizeExpense_food_first_witness :
  Reports.categorizeExpense ("Team " ++ "LUNCH" ++ " and taxi") = "Food".
Proof.
  apply (categorizeExpense_food_first "Team " "LUNCH" " and taxi").
  right. right. right. right. left. reflexivity.
Defined.
